(** * Currency utilities and the listing Price model of openbazaar-desktop

    A shallow embedding of [js/utils/currency.js] and
    [js/models/listing/Price.js].  JavaScript values are an inductive type,
    numbers are IEEE 754 binary64 floats (Rocq's primitive floats), objects
    used as maps are association lists in key order, exceptions are an error
    sum, and the [bignumber.js] decimals the converters compute with are
    modelled by a mantissa and a power of ten. *)

From Stdlib Require Import ZArith QArith Qround Qabs Qpower Floats.
From Stdlib Require Import String Ascii List Bool Lia.
Import ListNotations.

#[local] Set Warnings "-inexact-float".

Local Open Scope list_scope.
Local Open Scope string_scope.
Local Open Scope Z_scope.

(** ** JavaScript values *)

Module JS.

Inductive value : Type :=
| Undefined
| Null
| Bool (b : bool)
| Number (x : float)
| Str (s : string)
| Object (props : list (string * value)).

(** The [typeof] operator. *)
Definition typeof (v : value) : string :=
  match v with
  | Undefined => "undefined"
  | Null => "object"
  | Bool _ => "boolean"
  | Number _ => "number"
  | Str _ => "string"
  | Object _ => "object"
  end.

(** [ToBoolean]: what [!v], [v || w] and [if (v)] test. *)
Definition truthy (v : value) : bool :=
  match v with
  | Undefined | Null => false
  | Bool b => b
  | Number x => negb (PrimFloat.is_zero x || PrimFloat.is_nan x)
  | Str s => negb (String.eqb s "")
  | Object _ => true
  end.

(** [a === b] where at least one side is a primitive (the only use the
    sources make of it); two objects are never compared here. *)
Definition strict_eq (a b : value) : bool :=
  match a, b with
  | Undefined, Undefined => true
  | Null, Null => true
  | Bool x, Bool y => Bool.eqb x y
  | Number x, Number y => PrimFloat.eqb x y
  | Str x, Str y => String.eqb x y
  | _, _ => false
  end.

(** Own-property read [o[k]]: [undefined] when the key is absent. *)
Fixpoint get (props : list (string * value)) (k : string) : value :=
  match props with
  | [] => Undefined
  | (k', v) :: rest => if String.eqb k' k then v else get rest k
  end.

(** [o.hasOwnProperty(k)]. *)
Definition has_own (props : list (string * value)) (k : string) : bool :=
  existsb (fun entry => String.eqb (fst entry) k) props.

(** Assignment [o[k] = v]: an existing key keeps its place, a new one is
    appended. *)
Fixpoint set (props : list (string * value)) (k : string) (v : value)
  : list (string * value) :=
  match props with
  | [] => [(k, v)]
  | (k', v') :: rest =>
      if String.eqb k' k then (k, v) :: rest else (k', v') :: set rest k v
  end.

(** Every character of the string satisfies [p]. *)
Fixpoint all_chars (p : ascii -> bool) (s : string) : bool :=
  match s with
  | EmptyString => true
  | String c r => p c && all_chars p r
  end.

(** A string of ASCII characters.  A [string] is a sequence of bytes and a
    JavaScript string one of UTF-16 code units: the two agree, character
    by character, exactly on these strings, and so do [length], [slice]
    and [toUpperCase] below. *)
Definition ascii_only (s : string) : bool :=
  all_chars (fun c => (nat_of_ascii c <? 128)%nat) s.

(** [String.prototype.toUpperCase] on ASCII letters (currency codes are
    ASCII); the upper-casing of any other character is not modelled, see
    [ascii_only]. *)
Definition upper_ascii (c : ascii) : ascii :=
  let n := nat_of_ascii c in
  if (97 <=? n)%nat && (n <=? 122)%nat then ascii_of_nat (n - 32) else c.

Fixpoint toUpperCase (s : string) : string :=
  match s with
  | EmptyString => EmptyString
  | String c r => String (upper_ascii c) (toUpperCase r)
  end.

(** [xs.includes(x)] on an array of strings. *)
Definition includes (xs : list string) (x : string) : bool :=
  existsb (String.eqb x) xs.

(** The names of the members of [Object.prototype]: a read [o[k]] of a
    plain object that has no own key [k] finds one of them (a function,
    or the prototype itself for [__proto__]) when [k] is one of these
    names, and [undefined] otherwise. *)
Definition inherited_name (k : string) : bool :=
  includes ["constructor"; "hasOwnProperty"; "isPrototypeOf";
            "propertyIsEnumerable"; "toLocaleString"; "toString"; "valueOf";
            "__proto__"; "__defineGetter__"; "__defineSetter__";
            "__lookupGetter__"; "__lookupSetter__"] k.

(** The integer a float denotes, when it denotes one. *)
Definition integer_of_float (x : float) : option Z :=
  match Prim2SF x with
  | S754_zero _ => Some 0
  | S754_finite s m e =>
      let n := if s then Z.neg m else Z.pos m in
      if 0 <=? e then Some (n * 2 ^ e)
      else if n mod 2 ^ (- e) =? 0 then Some (n / 2 ^ (- e))
      else None
  | _ => None
  end.

(** [Number.isInteger(v)]: false for every value that is not a number. *)
Definition Number_isInteger (v : value) : bool :=
  match v with
  | Number x => match integer_of_float x with Some _ => true | None => false end
  | _ => false
  end.

(** The float of an integer below 2^53 in magnitude (exact). *)
Definition float_of_Z (n : Z) : float :=
  let a := PrimFloat.of_uint63 (Uint63.of_Z (Z.abs n)) in
  if n <? 0 then PrimFloat.opp a else a.

(** [Math.round]: the nearest integer, a tie going towards +infinity, which
    is floor (x + 1/2) computed exactly; NaN, the infinities and integers
    are returned as they are, and a result of zero keeps the sign of [x]. *)
Definition Math_round (x : float) : float :=
  match Prim2SF x with
  | S754_finite s m e =>
      if 0 <=? e then x
      else
        let n := if s then Z.neg m else Z.pos m in
        let q := (2 * n + 2 ^ (- e)) / 2 ^ (- e + 1) in
        if q =? 0 then (if s then PrimFloat.opp PrimFloat.zero else PrimFloat.zero)
        else float_of_Z q
  | _ => x
  end.

(** [is.number] of the is_js package: a number that is not NaN. *)
Definition is_number (v : value) : bool :=
  match v with
  | Number x => negb (PrimFloat.is_nan x)
  | _ => false
  end.

(** [is.object] of the is_js package: [Object(v) === v]. *)
Definition is_object (v : value) : bool :=
  match v with
  | Object _ => true
  | _ => false
  end.

(** The exceptions the two files throw, and the TypeError of the
    language itself. *)
Inductive exn : Type :=
| Error (message : string)
| RangeError (message : string)
| TypeError (message : string)
| UnrecognizedCurrencyError (message : string)
| NoExchangeRateDataError (message : string).

(** The conversion to a string of a template, [`${v}`], throws.  An
    object is converted by its [toString] method, then by its [valueOf]:
    an own [toString] of a [value] is never a function, and the inherited
    [valueOf] returns the object itself, so that the conversion of an
    object with an own [toString] key ends in a TypeError; an object
    without one is converted by the inherited [toString], and every other
    value has a string form. *)
Definition template_throws (v : value) : bool :=
  match v with
  | Object props => has_own props "toString"
  | _ => false
  end.

(** A call either returns or throws. *)
Inductive result (A : Type) : Type :=
| Ok (a : A)
| Throw (e : exn).

Arguments Ok {A} a.
Arguments Throw {A} e.

Definition bind {A B : Type} (r : result A) (k : A -> result B) : result B :=
  match r with
  | Ok a => k a
  | Throw e => Throw e
  end.

End JS.

Import JS.

Notation "x <- r ;; k" := (JS.bind r (fun x => k))
  (at level 61, r at next level, right associativity).

(** ** Decimal numbers of the bignumber.js package

    A finite [BigNumber] is a mantissa times a power of ten, kept with no
    trailing zero in the mantissa, as the package keeps its coefficient; the
    other two values are NaN and the infinities.  The package is used with
    its default configuration: division rounds its result to
    [DECIMAL_PLACES = 20] places, the rounding mode is ROUND_HALF_UP (to the
    nearest, a tie away from zero), [toString] switches to exponential
    notation from the exponents of [EXPONENTIAL_AT = [-7, 20]] outwards, and
    an exponent outside [RANGE = [-1e7, 1e7]] overflows to an infinity or
    underflows to zero.  The sign of a zero is not kept ([toString] never
    shows it). *)

Module BigNumber.

Inductive t : Type :=
| NaN
| Inf (negative : bool)
| Fin (m : Z) (x : Z).

Definition DECIMAL_PLACES : Z := 20.
Definition MAX_EXP : Z := 10000000.
Definition MIN_EXP : Z := - 10000000.
Definition TO_EXP_NEG : Z := - 7.
Definition TO_EXP_POS : Z := 21.

Definition zero : t := Fin 0 0.

(** The number of decimal digits of [n >= 1], less one. *)
Fixpoint ilog10_fuel (fuel : nat) (n : Z) : Z :=
  match fuel with
  | O => 0
  | S f => if n <? 10 then 0 else 1 + ilog10_fuel f (n / 10)
  end.

Definition ilog10 (n : Z) : Z := ilog10_fuel (Z.to_nat (Z.log2 n)) n.

(** Trailing zeros of the mantissa move into the exponent. *)
Fixpoint strip_fuel (fuel : nat) (m x : Z) : Z * Z :=
  match fuel with
  | O => (m, x)
  | S f => if m mod 10 =? 0 then strip_fuel f (m / 10) (x + 1) else (m, x)
  end.

Definition strip (m x : Z) : Z * Z :=
  strip_fuel (Z.to_nat (Z.log2 (Z.abs m))) m x.

(** The exponent of the leading digit of [m * 10^x], the package's [e]. *)
Definition exponent (m x : Z) : Z := x + ilog10 (Z.abs m).

(** The value [m * 10^x] as the package stores it: zero, an infinity on
    overflow, zero on underflow, and otherwise without trailing zeros. *)
Definition mk (m x : Z) : t :=
  if m =? 0 then zero
  else if MAX_EXP <? exponent m x then Inf (m <? 0)
  else if exponent m x <? MIN_EXP then zero
  else let (m', x') := strip m x in Fin m' x'.

Definition isNaN (a : t) : bool :=
  match a with
  | NaN => true
  | _ => false
  end.

(** [n / d] to the nearest integer, a tie away from zero ([d] not 0). *)
Definition div_half_up (n d : Z) : Z :=
  Z.sgn n * Z.sgn d * ((2 * Z.abs n + Z.abs d) / (2 * Z.abs d)).

(** [a.multipliedBy(b)]: exact. *)
Definition multipliedBy (a b : t) : t :=
  match a, b with
  | NaN, _ | _, NaN => NaN
  | Inf s, Inf s' => Inf (xorb s s')
  | Inf s, Fin m _ => if m =? 0 then NaN else Inf (xorb s (m <? 0))
  | Fin m _, Inf s => if m =? 0 then NaN else Inf (xorb (m <? 0) s)
  | Fin m x, Fin m' x' => mk (m * m') (x + x')
  end.

(** [a.dividedBy(b)]: the quotient rounded to [DECIMAL_PLACES] places. *)
Definition dividedBy (a b : t) : t :=
  match a, b with
  | NaN, _ | _, NaN => NaN
  | Inf _, Inf _ => NaN
  | Inf s, Fin m _ => Inf (xorb s (m <? 0))
  | Fin _ _, Inf _ => zero
  | Fin m x, Fin m' x' =>
      if m' =? 0 then (if m =? 0 then NaN else Inf (m <? 0))
      else
        let s := x - x' + DECIMAL_PLACES in
        mk (div_half_up (m * 10 ^ Z.max s 0) (m' * 10 ^ Z.max (- s) 0))
           (- DECIMAL_PLACES)
  end.

(** [a.decimalPlaces(dp)]: [a] rounded to [dp] places. *)
Definition decimalPlaces (a : t) (dp : Z) : t :=
  match a with
  | Fin m x =>
      if - dp <=? x then a
      else mk (div_half_up m (10 ^ (- dp - x))) (- dp)
  | _ => a
  end.

(** [a.pow(n)] for an integer [n >= 0]: exact. *)
Definition pow (a : t) (n : Z) : t :=
  match a with
  | NaN => if n =? 0 then Fin 1 0 else NaN
  | Inf s => if n =? 0 then Fin 1 0 else Inf (s && Z.odd n)
  | Fin m x => mk (m ^ n) (x * n)
  end.

(** *** Decimal notation *)

Definition digit_char (d : Z) : ascii := ascii_of_nat (48 + Z.to_nat d).

Definition is_digit (c : ascii) : bool :=
  let n := nat_of_ascii c in (48 <=? n)%nat && (n <=? 57)%nat.

Definition digit_val (c : ascii) : Z := Z.of_nat (nat_of_ascii c) - 48.

Fixpoint digits_fuel (fuel : nat) (n : Z) (acc : string) : string :=
  match fuel with
  | O => String (digit_char (n mod 10)) acc
  | S f =>
      if n <? 10 then String (digit_char n) acc
      else digits_fuel f (n / 10) (String (digit_char (n mod 10)) acc)
  end.

(** The decimal digits of [n >= 0], most significant first. *)
Definition digits (n : Z) : string :=
  digits_fuel (Z.to_nat (Z.log2 n)) n "".

Fixpoint zeros (n : nat) : string :=
  match n with
  | O => ""
  | S k => String "0" (zeros k)
  end.

(** The package's [toExponential (str, e)]. *)
Definition toExponential (str : string) (e : Z) : string :=
  (match str with
   | String c (String _ _ as r) => String c (String "." r)
   | _ => str
   end)
  ++ (if e <? 0 then "e-" else "e+") ++ digits (Z.abs e).

(** The package's [toFixedPoint (str, e, '0')]. *)
Definition toFixedPoint (str : string) (e : Z) : string :=
  if e <? 0 then "0." ++ zeros (Z.to_nat (- e - 1)) ++ str
  else
    let len := Z.of_nat (String.length str) in
    if len <? e + 1 then str ++ zeros (Z.to_nat (e + 1 - len))
    else if e + 1 <? len then
      substring 0 (Z.to_nat (e + 1)) str ++ "."
      ++ substring (Z.to_nat (e + 1)) (Z.to_nat (len - (e + 1))) str
    else str.

(** [a.toString()]. *)
Definition toString (a : t) : string :=
  match a with
  | NaN => "NaN"
  | Inf s => if s then "-Infinity" else "Infinity"
  | Fin m x =>
      let str := digits (Z.abs m) in
      let e := x + Z.of_nat (String.length str) - 1 in
      let body :=
        if (e <=? TO_EXP_NEG) || (TO_EXP_POS <=? e) then toExponential str e
        else toFixedPoint str e in
      if m <? 0 then "-" ++ body else body
  end.

(** The rest of a string that begins with the character [c]. *)
Definition starts_with (c : ascii) (s : string) : option string :=
  match s with
  | String c' r => if Ascii.eqb c' c then Some r else None
  | EmptyString => None
  end.

(** The longest prefix of digits, read as a number, with its length and
    the rest of the string. *)
Fixpoint span_digits (s : string) (acc : Z) (n : Z) : Z * Z * string :=
  match s with
  | String c r =>
      if is_digit c then span_digits r (10 * acc + digit_val c) (n + 1)
      else (acc, n, s)
  | EmptyString => (acc, n, s)
  end.

Fixpoint all_digits (s : string) : bool :=
  match s with
  | EmptyString => true
  | String c r => is_digit c && all_digits r
  end.

(** The number a string of digits denotes, after the digits [acc]. *)
Fixpoint dval (s : string) (acc : Z) : Z :=
  match s with
  | EmptyString => acc
  | String c r => dval r (10 * acc + digit_val c)
  end.

Definition slen (s : string) : Z := Z.of_nat (String.length s).

(** A string that begins with no digit stops the scan of [span_digits]. *)
Definition stops (s : string) : Prop :=
  match s with
  | EmptyString => True
  | String c _ => is_digit c = false
  end.

(** The exponent part: the letter e, an optional sign and at least one
    digit; or nothing at all. *)
Definition parse_exponent (s : string) : option Z :=
  match s with
  | EmptyString => Some 0
  | String c r =>
      if Ascii.eqb c "e" || Ascii.eqb c "E" then
        let '(neg, r') :=
          match starts_with "-" r, starts_with "+" r with
          | Some r', _ => (true, r')
          | None, Some r' => (false, r')
          | None, None => (false, r)
          end in
        match span_digits r' 0 0 with
        | (v, n, EmptyString) =>
            if 0 <? n then Some (if neg then - v else v) else None
        | _ => None
        end
      else None
  end.

(** An unsigned decimal (digits, then optionally a point and more digits;
    or a point and at least one digit) followed by its exponent part.  The
    result is the mantissa and the power of ten. *)
Definition parse_unsigned (s : string) : option (Z * Z) :=
  let '(ip, ni, r1) := span_digits s 0 0 in
  let '(m, nf, r2, ok) :=
    match starts_with "." r1 with
    | Some r =>
        let '(m, nf, r2) := span_digits r ip 0 in
        (m, nf, r2, (0 <? ni) || (0 <? nf))
    | None => (ip, 0, r1, 0 <? ni)
    end in
  if ok then
    match parse_exponent r2 with
    | Some ex => Some (m, ex - nf)
    | None => None
    end
  else None.

(** [new BigNumber(str)] for a string: an optional minus sign before an
    unsigned decimal (the package's [isNumeric] pattern), and the names of
    the infinities; any other string is NaN.  (The package also reads a string with white space
    around it, with a leading plus sign or with a base prefix; the sources
    never build one, and such strings are outside this model: [plain]
    below holds of the strings that are inside it.) *)
Definition of_string (s : string) : t :=
  let '(neg, body) :=
    match starts_with "-" s with
    | Some r => (true, r)
    | None => (false, s)
    end in
  match parse_unsigned body with
  | Some (m, x) => mk (if neg then - m else m) x
  | None =>
      if String.eqb body "Infinity" then Inf neg else NaN
  end.

(** The string starts, after an optional minus sign, with [0x], [0b] or
    [0o] in either case: the prefixes at which the package changes base. *)
Definition base_prefixed (s : string) : bool :=
  let body :=
    match starts_with "-" s with
    | Some r => r
    | None => s
    end in
  match body with
  | String "0"%char (String c _) =>
      existsb (Ascii.eqb c) ["x"; "X"; "b"; "B"; "o"; "O"]%char
  | _ => false
  end.

(** The strings that [of_string] reads as the package does: visible ASCII
    characters only (no white space of any kind), no plus sign in front
    and no base prefix.  For any other string the package goes through its
    [parseNumeric], which trims white space, drops a leading plus sign
    and reads a prefixed string in its base before it gives up. *)
Definition plain (s : string) : bool :=
  all_chars (fun c => (32 <? nat_of_ascii c)%nat && (nat_of_ascii c <? 127)%nat) s
  && match starts_with "+" s with
     | Some _ => false
     | None => true
     end
  && negb (base_prefixed s).

(** *** Numbers given as JavaScript numbers

    [new BigNumber(v)] reads a number [v] through [String(v)], the shortest
    decimal that converts back to [v]: the decimal of [k] digits nearest to
    [v], for the least [k] at which that decimal lies in the rounding
    interval of [v]. *)

Definition pow10Q (k : Z) : Q :=
  if 0 <=? k then inject_Z (10 ^ k) else (1 # Z.to_pos (10 ^ (- k)))%Q.

(** The exact value of a finite float. *)
Definition Q_of_float (v : float) : Q :=
  match Prim2SF v with
  | S754_finite s m e =>
      let n := if s then Z.neg m else Z.pos m in
      if 0 <=? e then inject_Z (n * 2 ^ e) else (n # Z.to_pos (2 ^ (- e)))%Q
  | _ => 0%Q
  end.

Definition mantissa_even (v : float) : bool :=
  match Prim2SF v with
  | S754_finite _ m _ => Z.even (Z.pos m)
  | _ => true
  end.

(** The least [k'] from [k] on with [v < 10^(k' + 1)]. *)
Fixpoint find_exponent (fuel : nat) (k : Z) (v : Q) : Z :=
  match fuel with
  | O => k
  | S f =>
      if Qle_bool (pow10Q (k + 1)) v then find_exponent f (k + 1) v else k
  end.

(** Whether the real [c] rounds to the float whose rounding interval is
    [[lo, hi]], closed when the float's mantissa is even. *)
Definition rounds_to (even : bool) (lo hi c : Q) : bool :=
  if even then Qle_bool lo c && Qle_bool c hi
  else negb (Qle_bool c lo) && negb (Qle_bool hi c).

Fixpoint shortest (fuel : nat) (nd e : Z) (even : bool) (lo hi v : Q)
  : Z * Z :=
  let q := e - nd + 1 in
  let s1 := Qfloor (v / pow10Q q) in
  let c1 := (inject_Z s1 * pow10Q q)%Q in
  let c2 := (inject_Z (s1 + 1) * pow10Q q)%Q in
  let ok1 := rounds_to even lo hi c1 in
  let ok2 := rounds_to even lo hi c2 in
  let nearest :=
    match (v - c1 ?= c2 - v)%Q with
    | Lt => s1
    | Gt => s1 + 1
    | Eq => if Z.even s1 then s1 else s1 + 1
    end in
  if ok1 && ok2 then (nearest, q)
  else if ok1 then (s1, q)
  else if ok2 then (s1 + 1, q)
  else
    match fuel with
    | O => (nearest, q)
    | S f => shortest f (nd + 1) e even lo hi v
    end.

(** A lower bound of the decimal exponent of a finite [v > 0], from its
    binary exponent (30103 / 100000 is just above the logarithm of 2). *)
Definition exponent_estimate (v : float) : Z :=
  match Prim2SF v with
  | S754_finite _ m e => (e + Z.log2 (Z.pos m)) * 30103 / 100000 - 1
  | _ => 0
  end.

(** The digits and power of ten of [String(v)] for a finite [v > 0]. *)
Definition shortest_decimal (v : float) : Z * Z :=
  let q := Q_of_float v in
  let dn := Q_of_float (PrimFloat.next_down v) in
  let up := PrimFloat.next_up v in
  let lo := ((dn + q) / 2)%Q in
  let hi :=
    if PrimFloat.is_infinity up then (q + (q - dn) / 2)%Q
    else ((q + Q_of_float up) / 2)%Q in
  shortest 16 1 (find_exponent 4 (exponent_estimate v) q)
    (mantissa_even v) lo hi q.

(** [new BigNumber(v)] for a number. *)
Definition of_float (v : float) : t :=
  if PrimFloat.is_nan v then NaN
  else if PrimFloat.is_infinity v then Inf (PrimFloat.get_sign v)
  else if PrimFloat.is_zero v then zero
  else
    let (s, q) := shortest_decimal (PrimFloat.abs v) in
    mk (if PrimFloat.get_sign v then - s else s) q.

(** A finite value as the package keeps it: zero, or a mantissa with no
    trailing zero and an exponent in range. *)
Definition canonical (a : t) : Prop :=
  match a with
  | Fin m x =>
      (m = 0 /\ x = 0) \/
      (m mod 10 <> 0 /\ MIN_EXP <= exponent m x <= MAX_EXP)
  | _ => True
  end.

(** The value as a rational number (0 for NaN and the infinities). *)
Definition toQ (a : t) : Q :=
  match a with
  | Fin m x => (inject_Z m * Qpower (inject_Z 10) x)%Q
  | _ => 0%Q
  end.

End BigNumber.

(** ** Strings read as numbers *)

Module JSNumber.

(** The float nearest to [m * 10^x] for [m > 0] (ties to even). *)
Definition float_of_decimal (m x : Z) : float :=
  if 0 <=? x then SF2Prim (binary_normalize prec emax (m * 10 ^ x) 0 false)
  else
    let d := 10 ^ (- x) in
    let k := Z.max 0 (Z.log2 d - Z.log2 m + 56) in
    let q := m * 2 ^ k / d in
    let r := m * 2 ^ k mod d in
    let loc := if r =? 0 then loc_Exact else loc_Inexact (2 * r ?= d) in
    SF2Prim (binary_round_aux prec emax false q (- k) loc).

(** [Number(s)] for a string: an optionally signed decimal, the names of
    the infinities, and the empty string (which is 0); any other string is
    NaN.  (White space and the prefixed integer notations are outside this
    model.) *)
Definition StringToNumber (s : string) : float :=
  if String.eqb s "" then PrimFloat.zero
  else
    let '(neg, body) :=
      match BigNumber.starts_with "-" s, BigNumber.starts_with "+" s with
      | Some r, _ => (true, r)
      | None, Some r => (false, r)
      | None, None => (false, s)
      end in
    let sign v := if neg then PrimFloat.opp v else v in
    match BigNumber.parse_unsigned body with
    | Some (m, x) =>
        sign (if m =? 0 then PrimFloat.zero else float_of_decimal m x)
    | None =>
        if String.eqb body "Infinity" then sign PrimFloat.infinity
        else PrimFloat.nan
    end.

(** [parseFloat(s)] on a string that is a decimal throughout. *)
Definition parseFloat (s : string) : float := StringToNumber s.

(** [ToNumber]: what the comparison operators apply to an operand. *)
Definition ToNumber (v : value) : float :=
  match v with
  | Undefined => PrimFloat.nan
  | Null => PrimFloat.zero
  | Bool b => if b then PrimFloat.one else PrimFloat.zero
  | Number x => x
  | Str s => StringToNumber s
  | Object _ => PrimFloat.nan
  end.

(** [a > b] and [a <= b] with a number on the right. *)
Definition gt (a : value) (b : float) : bool := PrimFloat.ltb b (ToNumber a).
Definition le (a : value) (b : float) : bool := PrimFloat.leb (ToNumber a) b.

(** *** Numbers written with a fixed number of decimals *)

(** The exact value of the finite float of magnitude [m * 2^e]. *)
Definition Q_of_finite (m : positive) (e : Z) : Q :=
  if 0 <=? e then inject_Z (Z.pos m * 2 ^ e) else (Z.pos m # Z.to_pos (2 ^ (- e)))%Q.

(** The digits of [n >= 0] with a decimal point before the last [f] of
    them, after zeros on the left up to [f + 1] digits; the digits alone
    when [f] is 0. *)
Definition fixed_notation (n f : Z) : string :=
  let m := BigNumber.digits n in
  if f =? 0 then m
  else
    let k := Z.of_nat (String.length m) in
    let m := if k <=? f then BigNumber.zeros (Z.to_nat (f + 1 - k)) ++ m else m in
    let k := if k <=? f then f + 1 else k in
    substring 0 (Z.to_nat (k - f)) m ++ "."
    ++ substring (Z.to_nat (k - f)) (Z.to_nat f) m.

(** [x.toFixed(f)] for [f] from 0 to 100: the integer [n] with [n / 10^f]
    nearest to the magnitude of [x], the larger one of two, written with
    [f] decimals after the sign of [x]; a magnitude of 10^21 or more is
    written as [String(x)] writes it. *)
Definition toFixed (x : float) (f : Z) : string :=
  match Prim2SF x with
  | S754_nan => "NaN"
  | S754_infinity s => if s then "-Infinity" else "Infinity"
  | S754_zero _ => fixed_notation 0 f
  | S754_finite s m e =>
      let v := Q_of_finite m e in
      (if s then "-" else "")
      ++ (if Qle_bool (inject_Z (10 ^ 21)) v
          then BigNumber.toString (BigNumber.of_float (PrimFloat.abs x))
          else fixed_notation (Qfloor (v * inject_Z (10 ^ f) + (1 # 2))) f)
  end.

End JSNumber.

(** ** js/utils/currency.js *)

Module Currency.

Import JSNumber.

(** A record of the fiat registry ([data/currencies]) or of the
    wallet-currency registry ([data/walletCurrencies]). *)
Record CurData : Type := {
  symbol : option string;
  coinDivisibility : Z
}.

(** What the module imports and the state of the [app] module it reads.
    None of it is defined in currency.js. *)
Record Env : Type := {
  (** [getCurrencyByCode(cur, { includeWalletCurs: false })] of
      [data/currencies]: the fiat registry. *)
  getCurrencyByCode : string -> option CurData;
  (** [getCurrencyByCode] of [data/walletCurrencies]. *)
  getWalletCurByCode : string -> option CurData;
  (** [getCurrencies()] of [data/cryptoListingCurrencies]. *)
  getCryptoListingCurs : list string;
  ensureMainnetCode : string -> string;
  supportedWalletCurs : list string;
  (** [app.walletCurDef]: currency code to declared divisibility; [None]
      when it is not set or reading it throws. *)
  app_walletCurDef : option (list (string * Z));
  (** [app.localSettings.standardizedTranslatedLang()] and
      [app.localSettings.get('bitcoinUnit')]; [Undefined] when [app] or its
      local settings are missing. *)
  app_lang : value;
  app_bitcoinUnit : value;
  (** [preciseRound(amount, decimals)] of [utils/number], as the number
      its result is compared as. *)
  preciseRound : value -> Z -> float
}.

Definition defaultCryptoCoinDivisibility : Z := 8.
Definition defaultFiatCoinDivisibility : Z := 2.

Definition isValidCoinDivisibility (coinDivisibility : value) : bool * string :=
  (Number_isInteger coinDivisibility && gt coinDivisibility 0,
   "The coin divisibility must be an integer greater than 0").

Record CurMeta : Type := {
  isFiat : bool;
  isWalletCur : bool;
  isCryptoListingCur : bool;
  curData : option CurData
}.

Definition is_some {A : Type} (o : option A) : bool :=
  match o with
  | Some _ => true
  | None => false
  end.

Definition or_else {A : Type} (o o' : option A) : option A :=
  match o with
  | Some _ => o
  | None => o'
  end.

Definition getCurMeta (env : Env) (currency : value) : result CurMeta :=
  match currency with
  | Str s =>
      if negb (truthy currency) then
        Throw (Error "Please provide a currrency as a non-empty string.")
      else
        let cur := toUpperCase s in
        let curData := getCurrencyByCode env cur in
        let walletCur := getWalletCurByCode env cur in
        let isFiat := is_some curData in
        let isCryptoListingCur := includes (getCryptoListingCurs env) cur in
        let isWalletCur := is_some walletCur in
        if negb (isFiat || isCryptoListingCur || isWalletCur) then
          Throw (UnrecognizedCurrencyError "The currency is not recognized.")
        else
          Ok {| isFiat := isFiat;
                isWalletCur := isWalletCur;
                isCryptoListingCur := isCryptoListingCur;
                curData := or_else curData walletCur |}
  | _ => Throw (Error "Please provide a currrency as a non-empty string.")
  end.

Definition isFiatCur (env : Env) (cur : value) : result bool :=
  meta <- getCurMeta env cur ;; Ok (isFiat meta).

(** Own-property read of a definition or table keyed by currency code. *)
Fixpoint lookup {A : Type} (tbl : list (string * A)) (k : string) : option A :=
  match tbl with
  | [] => None
  | (k', v) :: rest => if String.eqb k' k then Some v else lookup rest k
  end.

(** [getCoinDivisibility(currency, options)]; [walletCurDef] is
    [options.walletCurDef], [None] when the caller gives none.  A
    definition lists the codes it declares, each with the divisibility of
    its entry, and [walletCurDef[currency]] is read among them.  The
    object the code reads also answers at the names it inherits, with a
    member that has no divisibility: for a code that is such a name and
    is not declared ([reads_inherited_member] below) the call returns
    [undefined], which this definition, whose results are integers, does
    not give. *)
Definition getCoinDivisibility (env : Env) (currency : value)
    (walletCurDef : option (list (string * Z))) : result Z :=
  match currency with
  | Str s =>
      if negb (truthy currency) then
        Throw (Error "Please provide a currrency as a non-empty string.")
      else
        match or_else walletCurDef (app_walletCurDef env) with
        | None =>
            Throw (Error ("The wallet currency definition must be provide as an object either "
                          ++ "passed in as an option or available on the app module."))
        | Some def =>
            match lookup def s with
            | Some divisibility => Ok divisibility
            | None =>
                curMeta <- getCurMeta env currency ;;
                if isFiat curMeta then Ok 2
                else if isWalletCur curMeta then
                  match curData curMeta with
                  | Some d => Ok (coinDivisibility d)
                  | None => Throw (Error "Cannot read property of null")
                  end
                else if isCryptoListingCur curMeta then
                  Ok defaultCryptoCoinDivisibility
                else
                  Throw (UnrecognizedCurrencyError "The currency is not recognized.")
            end
        end
  | _ => Throw (Error "Please provide a currrency as a non-empty string.")
  end.

(** The read [walletCurDef[currency]] of line 123 finds no entry of the
    definition but a member the definition inherits:
    [getCoinDivisibility] then returns the [divisibility] of that member,
    which is [undefined]. *)
Definition reads_inherited_member (walletCurDef : option (list (string * Z)))
    (currency : string) : bool :=
  match walletCurDef with
  | Some def =>
      inherited_name currency
      && match lookup def currency with
         | Some _ => false
         | None => true
         end
  | None => false
  end.

(** [new BigNumber(v)]: a number is read through its shortest decimal, a
    string as a decimal, and every other value, through [String(v)], is
    NaN. *)
Definition bigNumber (v : value) : BigNumber.t :=
  match v with
  | Number x => BigNumber.of_float x
  | Str s => BigNumber.of_string s
  | _ => BigNumber.NaN
  end.

(** The amounts [bigNumber] reads as the package does: every number, and
    the strings of [BigNumber.plain]. *)
Definition plain_amount (v : value) : bool :=
  match v with
  | Str s => BigNumber.plain s
  | _ => true
  end.

(** The integer a valid divisibility denotes (0 for any other value). *)
Definition integer_value (v : value) : Z :=
  match v with
  | Number x => match integer_of_float x with Some z => z | None => 0 end
  | _ => 0
  end.

Definition decimalToInteger (value divisibility : JS.value) : result string :=
  if negb (includes ["number"; "string"] (typeof value)) then
    Throw (Error "The value must be provided as a number or a string.")
  else
    let '(isValidDivis, divisErr) := isValidCoinDivisibility divisibility in
    if negb isValidDivis then Throw (Error divisErr)
    else
      Ok (BigNumber.toString
            (BigNumber.decimalPlaces
               (BigNumber.multipliedBy (bigNumber value)
                  (BigNumber.pow (bigNumber (Number 10%float))
                                 (integer_value divisibility)))
               0)).

(** A line written to the console by [console.error]: the value and the
    message of the error that the template string interpolates. *)
Inductive console_entry : Type :=
| console_error (v : value) (message : string).

(** The body of the [try] block of [integerToDecimal]. *)
Definition integerToDecimal_try (value divisibility : JS.value) : result string :=
  if negb (includes ["number"; "string"] (typeof value)) then
    Throw (Error "The value must be provided as a number or a string.")
  else
    let '(isValidDivis, divisErr) := isValidCoinDivisibility divisibility in
    if negb isValidDivis then Throw (Error divisErr)
    else
      let result :=
        BigNumber.dividedBy (bigNumber value)
          (BigNumber.pow (bigNumber (Number 10%float))
                         (integer_value divisibility)) in
      if BigNumber.isNaN result then Throw (Error "result is not a number")
      else Ok (BigNumber.toString result).

Definition message_of (e : exn) : string :=
  match e with
  | Error m | RangeError m | TypeError m | UnrecognizedCurrencyError m
  | NoExchangeRateDataError m => m
  end.

(** [integerToDecimal(value, divisibility, options)];
    [returnUndefinedOnError] is [options.returnUndefinedOnError], [None]
    when the key is not given, so that the default [true] stands.  The
    result is what was written to the console and what the call returns:
    a string, or [Undefined].  The line for the console is a template
    that interpolates the value: when that conversion throws, nothing is
    written and the TypeError leaves the [catch] block. *)
Definition integerToDecimal (value divisibility : JS.value)
    (returnUndefinedOnError : option JS.value)
  : list console_entry * result JS.value :=
  let opts_returnUndefinedOnError :=
    match returnUndefinedOnError with
    | Some v => v
    | None => Bool true
    end in
  match integerToDecimal_try value divisibility with
  | Ok s => ([], Ok (Str s))
  | Throw e =>
      if negb (truthy opts_returnUndefinedOnError) then ([], Throw e)
      else if template_throws value then
        ([], Throw (TypeError "Cannot convert object to primitive value"))
      else ([console_error value (message_of e)], Ok Undefined)
  end.

(** [isFormattedResultZero(amount, maxDecimals)]; ['0'.repeat] throws a
    RangeError on a negative count. *)
Definition isFormattedResultZero (env : Env) (amount : value) (maxDecimals : Z)
  : result bool :=
  if maxDecimals =? 0 then Ok true
  else if maxDecimals - 1 <? 0 then Throw (RangeError "Invalid count value")
  else
    Ok (PrimFloat.ltb (preciseRound env amount maxDecimals)
          (parseFloat ("." ++ BigNumber.zeros (Z.to_nat (maxDecimals - 1)) ++ "1"))).

Definition MAX_NUMBER_FORMAT_DISPLAY_DECIMALS : Z := 20.

(** The [while] loop of [getMaxDisplayDigits]; each turn raises [max] by
    one and needs [max < 20], so [20 - max] turns are enough. *)
Fixpoint getMaxDisplayDigits_loop (env : Env) (fuel : nat) (amount : value)
    (max : Z) : result Z :=
  zero <- isFormattedResultZero env amount max ;;
  if zero && (max <? MAX_NUMBER_FORMAT_DISPLAY_DECIMALS) then
    match fuel with
    | O => Ok max
    | S f => getMaxDisplayDigits_loop env f amount (max + 1)
    end
  else Ok max.

(** [getMaxDisplayDigits(amount, desiredMax)]; [desiredMax] is an integer
    here, so its [typeof] check cannot fail. *)
Definition getMaxDisplayDigits (env : Env) (amount : value) (desiredMax : Z)
  : result Z :=
  if negb (String.eqb (typeof amount) "number")
     && negb (String.eqb (typeof amount) "string") then
    Throw (Error ("The amount must be provided as a number or a string representation "
                  ++ "of a number."))
  else if strict_eq amount (Number 0%float) then Ok desiredMax
  else
    let max := desiredMax in
    if max =? 0 then Ok 0
    else
      getMaxDisplayDigits_loop env
        (Z.to_nat (MAX_NUMBER_FORMAT_DISPLAY_DECIMALS - max)) amount max.

(** The options of [formatCurrency]: [None] is a key the caller does not
    give.  The two decimal counts are numbers when given. *)
Record FormatOptions : Type := {
  locale : option value;
  btcUnit : option value;
  useCryptoSymbol : option value;
  includeCryptoCurIdentifier : option value;
  extendMaxDecimalsOnZero : option value;
  minDisplayDecimals : option Z;
  maxDisplayDecimals : option Z
}.

Definition default {A : Type} (o : option A) (d : A) : A :=
  match o with
  | Some v => v
  | None => d
  end.

(** [a || b]. *)
Definition or_value (a b : value) : value := if truthy a then a else b.

(** The value of [opts.maxDisplayDecimals] after lines 363 to 384 of
    [formatCurrency]: the given maximum or else the coin divisibility (8
    when that throws), extended for a positive amount, and cut at 20. *)
Definition formatCurrency_maxDisplayDecimals (env : Env) (amount : value)
    (cur : string) (options : FormatOptions) : result Z :=
  let max0 :=
    match maxDisplayDecimals options with
    | Some n => n
    | None =>
        match getCoinDivisibility env (Str cur) None with
        | Ok n => n
        | Throw _ => defaultCryptoCoinDivisibility
        end
    end in
  max1 <-
    (if gt amount 0
        && truthy (default (extendMaxDecimalsOnZero options) (Bool true))
     then getMaxDisplayDigits env amount max0
     else Ok max0) ;;
  Ok (if MAX_NUMBER_FORMAT_DISPLAY_DECIMALS <? max1
      then MAX_NUMBER_FORMAT_DISPLAY_DECIMALS else max1).

(** A call [new Intl.NumberFormat(locale, options).format(amt)]; the
    amount of a bitcoin wallet currency is first converted from BTC to
    [convertUnit] by the bitcoin-convert package. *)
Record NumberFormatCall : Type := {
  nf_locale : value;
  nf_currency : option string;
  minimumFractionDigits : Z;
  maximumFractionDigits : Z;
  nf_amount : value;
  convertUnit : option string
}.

(** What [formatCurrency] returns: the empty string, the formatted number,
    or the translation [app.polyglot.t(key, { amount, [param]: arg })] of
    the formatted number. *)
Inductive formatted : Type :=
| Empty
| Formatted (call : NumberFormatCall)
| Translated (key : string) (call : NumberFormatCall) (param arg : string).

Definition is_str (v : value) (s : string) : bool := strict_eq v (Str s).

Definition formatCurrency (env : Env) (amount currency : value)
    (options : FormatOptions) : result formatted :=
  let opts_locale := default (locale options) (or_value (app_lang env) (Str "en-US")) in
  let opts_btcUnit := default (btcUnit options) (or_value (app_bitcoinUnit env) (Str "BTC")) in
  let opts_useCryptoSymbol := default (useCryptoSymbol options) (Bool true) in
  let opts_includeCryptoCurIdentifier :=
    default (includeCryptoCurIdentifier options) (Bool true) in
  if negb (String.eqb (typeof opts_locale) "string") then
    Throw (Error "Please provide a locale as a string")
  else
    match currency with
    | Str c =>
        let cur := toUpperCase c in
        let meta :=
          match getCurMeta env (Str cur) with
          | Ok m => Some m
          | Throw (UnrecognizedCurrencyError _) =>
              Some {| isFiat := false; isWalletCur := false;
                      isCryptoListingCur := true; curData := None |}
          | Throw _ => None
          end in
        match meta with
        | None => Ok Empty
        | Some m =>
            let opts_minDisplayDecimals :=
              default (minDisplayDecimals options) (if isFiat m then 2 else 0) in
            opts_maxDisplayDecimals <-
              formatCurrency_maxDisplayDecimals env amount cur options ;;
            let call unit cy :=
              {| nf_locale := opts_locale; nf_currency := cy;
                 minimumFractionDigits := opts_minDisplayDecimals;
                 maximumFractionDigits := opts_maxDisplayDecimals;
                 nf_amount := amount; convertUnit := unit |} in
            if isWalletCur m then
              let data_symbol :=
                match curData m with
                | Some d => symbol d
                | None => None
                end in
              let curSymbol0 :=
                if truthy opts_useCryptoSymbol then
                  match data_symbol with
                  | Some s => if String.eqb s "" then cur else s
                  | None => cur
                  end
                else cur in
              let '(curSymbol, unit) :=
                if String.eqb cur "BTC" || String.eqb cur "TBTC" then
                  if is_str opts_btcUnit "MBTC" then ("mBTC", Some "mBTC")
                  else if is_str opts_btcUnit "UBTC" then ("μBTC", Some "μBTC")
                  else if is_str opts_btcUnit "SATOSHI" then ("sat", Some "Satoshi")
                  else (curSymbol0, Some "BTC")
                else (curSymbol0, None) in
              if truthy opts_includeCryptoCurIdentifier then
                if match data_symbol with
                   | Some s => String.eqb curSymbol s
                   | None => false
                   end
                then Ok (Translated "cryptoCurrencyFormat.curSymbolAmount"
                           (call unit None) "symbol" curSymbol)
                else Ok (Translated "cryptoCurrencyFormat.curCodeAmount"
                           (call unit None) "code" curSymbol)
              else Ok (Formatted (call unit None))
            else if isCryptoListingCur m then
              if truthy opts_includeCryptoCurIdentifier then
                Ok (Translated "cryptoCurrencyFormat.curCodeAmount"
                      (call None None) "code"
                      (if (8 <? String.length cur)%nat
                       then substring 0 8 cur ++ "…" else cur))
              else Ok (Formatted (call None None))
            else Ok (Formatted (call None (Some c)))
        end
    | _ => Throw (Error "Please provide a currency as a string")
    end.


(** *** The exchange-rate cache

    [exchangeRates] is a module-level variable: the functions that read it
    take its current value, and the handler that replaces it returns the
    new one.  A table lists its keys in the order [Object.keys] gives. *)

Definition rates : Type := list (string * float).

(** [table[cur]]: the rate, or [Undefined]. *)
Definition rate (table : rates) (cur : string) : value :=
  match lookup table cur with
  | Some x => Number x
  | None => Undefined
  end.

(** [table[k] = v] in an object literal or by assignment. *)
Fixpoint assign (table : rates) (k : string) (v : float) : rates :=
  match table with
  | [] => [(k, v)]
  | (k', v') :: rest =>
      if String.eqb k' k then (k, v) :: rest else (k', v') :: assign rest k v
  end.

(** [Set.prototype.add]: a member is not added twice. *)
Definition set_add (changed : list string) (cur : string) : list string :=
  if includes changed cur then changed else (changed ++ [cur])%list.



(** The events triggered on [events]. *)
Inductive event : Type :=
| exchange_rate_change (changed : list string)
| exchange_rate_change_cur (cur : string) (previous : value).

(** The coin the rates are fetched for. *)
Definition fetch_coin (env : Env) : value :=
  let supportedCurs := supportedWalletCurs env in
  match supportedCurs with
  | [] => Undefined
  | first :: _ =>
      if includes supportedCurs "BTC" || includes supportedCurs "TBTC"
      then Str "BTC"
      else Str (ensureMainnetCode env first)
  end.

(** The property key a value is used as. *)
Definition property_key (v : value) : string :=
  match v with
  | Str s => s
  | _ => "undefined"
  end.

(** [JSON.parse(JSON.stringify(x))] of a rate: a finite number comes back
    (a negative zero as zero), NaN and the infinities come back as null. *)
Definition json_copy (x : float) : value :=
  if PrimFloat.is_nan x || PrimFloat.is_infinity x then Null
  else if PrimFloat.is_zero x then Number PrimFloat.zero
  else Number x.

(** [prevExchangeRates[cur]]. *)
Definition previous_rate (table : rates) (cur : string) : value :=
  match lookup table cur with
  | Some x => json_copy x
  | None => Undefined
  end.

(** The body of the two [forEach] loops:
    [if (a[cur] !== b[cur]) changed.add(cur)]. *)
Definition add_if_changed (a b : rates) (changed : list string) (cur : string)
  : list string :=
  if negb (strict_eq (rate a cur) (rate b cur)) then set_add changed cur
  else changed.

(** The two [forEach] loops that fill the set [changed]: over the keys of
    the cache, then over the keys of the fetched table. *)
Definition changed_keys (exchangeRates data : rates) : list string :=
  fold_left (add_if_changed data exchangeRates) (map fst data)
    (fold_left (add_if_changed exchangeRates data) (map fst exchangeRates) []).

(** The [done] handler of the request of [fetchExchangeRates]: from the
    cache and the fetched table [data] to the new cache and the events
    triggered, in order. *)
Definition fetchExchangeRates_done (env : Env) (exchangeRates data : rates)
  : rates * list event :=
  let coin := fetch_coin env in
  let changedArray := changed_keys exchangeRates data in
  let exchangeRates' := assign data (property_key coin) PrimFloat.one in
  (exchangeRates',
   match changedArray with
   | [] => []
   | _ =>
       exchange_rate_change changedArray
       :: map (fun cur => exchange_rate_change_cur cur (previous_rate exchangeRates cur))
              changedArray
   end).

Definition getExchangeRate (env : Env) (exchangeRates : rates) (currency : string)
  : result value :=
  if negb (truthy (Str currency)) then Throw (Error "Please provide a currency.")
  else
    fiat <- isFiatCur env (Str currency) ;;
    let cur := if fiat then currency else ensureMainnetCode env currency in
    Ok (rate exchangeRates cur).

(** [amount / fromRate * toRate] on numbers; a rate that is not in the
    table is [undefined], which divides and multiplies as NaN. *)
Definition convert_number (amount : float) (fromRate toRate : value) : float :=
  ((amount / ToNumber fromRate) * ToNumber toRate)%float.

Definition convertCurrency (env : Env) (exchangeRates : rates)
    (amount fromCur toCur : value) : result value :=
  if negb (String.eqb (typeof amount) "number")
     && negb (String.eqb (typeof amount) "string") then
    Throw (Error "The amount must be provided as a number or string.")
  else
    bigNumAmount <-
      match amount with
      | Str _ =>
          if BigNumber.isNaN (bigNumber amount) then
            Throw (Error "The string based number evaluates to NaN.")
          else Ok (Some (bigNumber amount))
      | Number x =>
          if PrimFloat.is_nan x then
            Throw (Error "If providing an amount as a number, it cannot be NaN.")
          else Ok None
      | _ => Ok None
      end ;;
    match fromCur, toCur with
    | Str from, Str to =>
        let fromCurCode := ensureMainnetCode env (toUpperCase from) in
        let toCurCode := ensureMainnetCode env (toUpperCase to) in
        if String.eqb fromCurCode toCurCode then Ok amount
        else if negb (truthy (rate exchangeRates fromCurCode)) then
          Throw (NoExchangeRateDataError
                   ("We do not have exchange rate data for " ++ toUpperCase from ++ "."))
        else if negb (truthy (rate exchangeRates toCurCode)) then
          Throw (NoExchangeRateDataError
                   ("We do not have exchange rate data for " ++ toUpperCase to ++ "."))
        else
          fromRate <- getExchangeRate env exchangeRates fromCurCode ;;
          toRate <- getExchangeRate env exchangeRates toCurCode ;;
          match bigNumAmount with
          | Some big =>
              Ok (Str (BigNumber.toString
                         (BigNumber.multipliedBy
                            (BigNumber.dividedBy big (bigNumber fromRate))
                            (bigNumber toRate))))
          | None => Ok (Number (convert_number (ToNumber amount) fromRate toRate))
          end
    | Str _, _ => Throw (Error "Please provide a toCur as a string")
    | _, _ => Throw (Error "Please provide a fromCur as a string")
    end.

(** *** Notions the statements below use *)

(** An amount [convertCurrency] accepts: a number that is not NaN, or a
    string that [BigNumber] does not read as NaN. *)
Definition valid_amount (amount : value) : bool :=
  match amount with
  | Number x => negb (PrimFloat.is_nan x)
  | Str _ => negb (BigNumber.isNaN (bigNumber amount))
  | _ => false
  end.

(** A rate the table holds and that is neither zero nor NaN. *)
Definition usable_rate (table : rates) (cur : string) : bool :=
  match lookup table cur with
  | Some x => negb (PrimFloat.is_zero x || PrimFloat.is_nan x)
  | None => false
  end.

(** [amount / fromRate * toRate] in the arithmetic of the amount:
    [BigNumber]'s for a string, floating point for a number. *)
Definition converted (amount fromRate toRate : value) : value :=
  match amount with
  | Str _ =>
      Str (BigNumber.toString
             (BigNumber.multipliedBy
                (BigNumber.dividedBy (bigNumber amount) (bigNumber fromRate))
                (bigNumber toRate)))
  | _ => Number (convert_number (ToNumber amount) fromRate toRate)
  end.

(** The call to the number formatter behind a formatted amount. *)
Definition call_of (r : formatted) : option NumberFormatCall :=
  match r with
  | Empty => None
  | Formatted call => Some call
  | Translated _ call _ _ => Some call
  end.

(** [old[cur] !== new[cur]]: the value of the key differs between the two
    tables (a key that one table lacks reads as [undefined]). *)
Definition differs (old new : rates) (cur : string) : bool :=
  negb (strict_eq (rate old cur) (rate new cur)).



(** *** Conversion with formatting, validity of a code, amounts *)




(** [getCurrencyValidity(cur)]; [getCurrencyByCodeDefault] is
    [getCurrencyByCode(cur)] of [data/currencies] called with its default
    options, which is not the call [getCurMeta] makes. *)
Definition getCurrencyValidity (env : Env)
    (getCurrencyByCodeDefault : string -> option CurData)
    (exchangeRates : rates) (cur : value) : result string :=
  match cur with
  | Str c =>
      match getCurrencyByCodeDefault c with
      | Some _ =>
          r <- getExchangeRate env exchangeRates (ensureMainnetCode env c) ;;
          Ok (if truthy r then "VALID" else "EXCHANGE_RATE_MISSING")
      | None => Ok "UNRECOGNIZED_CURRENCY"
      end
  | _ => Throw (Error "A currency must be provided as a string.")
  end.

(** What [createAmount] returns: [{ amount, currency: { code, divisibility } }]. *)
Record Amount : Type := {
  amount_amount : value;
  currency_code : string;
  currency_divisibility : value
}.

(** [createAmount(amount, curCode, options)]; [options_divisibility] is
    [options.divisibility], [Undefined] when the caller gives none.  A
    divisibility that [getCoinDivisibility] returns is an integer of a
    registry, as a number, or [undefined] when the code names a member
    the wallet-currency definition inherits. *)
Definition createAmount (env : Env) (amount curCode options_divisibility : value)
  : result Amount :=
  if negb (String.eqb (typeof amount) "number"
           || (String.eqb (typeof amount) "string" && truthy amount)) then
    Throw (Error "The amount must be provided as a number or a non-empty string.")
  else
    match curCode with
    | Str c =>
        if negb (truthy curCode) then
          Throw (Error "The curCode must be provided as a non-empty string.")
        else
          let divisibility :=
            if strict_eq options_divisibility Undefined then
              if reads_inherited_member (app_walletCurDef env) c then Undefined
              else
                match getCoinDivisibility env curCode None with
                | Ok d => Number (float_of_Z d)
                | Throw _ => Number (float_of_Z defaultCryptoCoinDivisibility)
                end
            else options_divisibility in
          let '(isValidDivis, divisErr) := isValidCoinDivisibility divisibility in
          if negb isValidDivis then Throw (Error divisErr)
          else
            convertedAmount <-
              (if String.eqb (typeof amount) "number"
               then s <- decimalToInteger amount divisibility ;; Ok (Str s)
               else Ok amount) ;;
            Ok {| amount_amount := convertedAmount;
                  currency_code := c;
                  currency_divisibility := divisibility |}
    | _ => Throw (Error "The curCode must be provided as a non-empty string.")
    end.

End Currency.

(** ** js/models/listing/Price.js *)

Module Price.

Import JSNumber.

(** The error object of [validate]: field name to messages. *)
Definition errors : Type := list (string * list string).

(** [errObj[k]]: the messages under a field name. *)
Fixpoint lookup_errors (errObj : errors) (k : string) : option (list string) :=
  match errObj with
  | [] => None
  | (k', msgs) :: rest => if String.eqb k' k then Some msgs else lookup_errors rest k
  end.

(** [addError(fieldName, error)]. *)
Fixpoint addError (errObj : errors) (fieldName error : string) : errors :=
  match errObj with
  | [] => [(fieldName, [error])]
  | (k, msgs) :: rest =>
      if String.eqb k fieldName then (k, (msgs ++ [error])%list) :: rest
      else (k, msgs) :: addError rest fieldName error
  end.

(** [validate(attrs)] on the attributes object; [None] is [undefined]. *)
Definition validate (attrs : list (string * value)) : option errors :=
  let amount := get attrs "amount" in
  let errObj := [] in
  let errObj :=
    if strict_eq amount (Str "") then
      addError errObj "amount" "Please provide a price."
    else if negb (is_number amount) then
      addError errObj "amount" "Please provide the price amount as a number."
    else if le amount 0 then
      addError errObj "amount" "The price must be greater than 0."
    else errObj in
  let errObj :=
    if negb (truthy (get attrs "currencyCode")) then
      addError errObj "currencyCode" "Please provide a currency code."
    else errObj in
  if (0 <? length errObj)%nat then Some errObj else None.

(** [convertPriceOut(price)]: the amount is assigned on the object that
    was passed, which is also what is returned. *)
Definition convertPriceOut (price : value) : result value :=
  if negb (is_object price) then Throw (Error "Please provide a price object.")
  else
    match price with
    | Object props =>
        match get props "amount" with
        | Number amount =>
            if strict_eq (get props "currencyCode") (Str "BTC") then
              Ok (Object (set props "amount"
                            (Number (Math_round (amount * 1000000000)%float))))
            else
              Ok (Object (set props "amount"
                            (Number (Math_round (amount * 100)%float))))
        | _ => Ok price
        end
    | _ => Ok price
    end.

(** [convertPriceIn(price)]: the amount divided and then written with two
    decimals and read back, [Number(x.toFixed(2))]. *)
Definition convertPriceIn (price : value) : result value :=
  if negb (is_object price) then Throw (Error "Please provide a price object.")
  else
    match price with
    | Object props =>
        match get props "amount" with
        | Number amount =>
            if strict_eq (get props "currencyCode") (Str "BTC") then
              Ok (Object (set props "amount"
                            (Number (StringToNumber
                                       (toFixed (amount / 1000000000)%float 2)))))
            else
              Ok (Object (set props "amount"
                            (Number (StringToNumber
                                       (toFixed (amount / 100)%float 2)))))
        | _ => Ok price
        end
    | _ => Ok price
    end.

End Price.

(** ** A sample environment

    The registries are not part of the two files; the statements that
    name USD, BTC and TBTC are checked in this environment. *)

Module Sample.

Import Currency.

(** Modelled from the spec: the fiat registry ([data/currencies], not
    among the sources), of which the spec only says that fiat currencies
    such as USD have two decimal places. *)
Definition fiatCurrencies : list (string * CurData) :=
  [("USD", {| symbol := Some "$"; coinDivisibility := 2 |});
   ("EUR", {| symbol := Some "E"; coinDivisibility := 2 |})].

(** Modelled from the spec: the wallet-currency registry
    ([data/walletCurrencies], not among the sources): BTC-like assets have
    divisibility 8, and a test-network code such as TBTC stands for its
    mainnet code. *)
Definition walletCurrencies : list (string * (string * CurData)) :=
  [("BTC", ("TBTC", {| symbol := Some "B"; coinDivisibility := 8 |}));
   ("LTC", ("TLTC", {| symbol := None; coinDivisibility := 8 |}))].

Fixpoint findWalletCur (l : list (string * (string * CurData))) (cur : string)
  : option (string * CurData) :=
  match l with
  | [] => None
  | (code, (testnetCode, d)) :: rest =>
      if String.eqb code cur || String.eqb testnetCode cur then Some (code, d)
      else findWalletCur rest cur
  end.

(** Modelled from the spec: [ensureMainnetCode] ([data/walletCurrencies],
    not among the sources) gives the canonical mainnet code, normalizing
    test-network variants (TBTC to BTC); any other code is left as it is. *)
Definition mainnetCode (cur : string) : string :=
  match findWalletCur walletCurrencies cur with
  | Some (code, _) => code
  | None => cur
  end.

(** Modelled from the spec: [preciseRound] ([utils/number], not among the
    sources) rounds the amount to the given number of decimal places. *)
Definition roundToDecimals (amount : value) (decimals : Z) : float :=
  match BigNumber.decimalPlaces (bigNumber amount) decimals with
  | BigNumber.NaN => PrimFloat.nan
  | BigNumber.Inf s =>
      if s then PrimFloat.neg_infinity else PrimFloat.infinity
  | BigNumber.Fin m x =>
      if m =? 0 then PrimFloat.zero
      else if m <? 0 then PrimFloat.opp (JSNumber.float_of_decimal (- m) x)
      else JSNumber.float_of_decimal m x
  end.

Definition env : Env :=
  {| getCurrencyByCode := lookup fiatCurrencies;
     getWalletCurByCode :=
       fun cur => option_map snd (findWalletCur walletCurrencies cur);
     getCryptoListingCurs := ["BTC"; "ETH"; "XMR"];
     ensureMainnetCode := mainnetCode;
     supportedWalletCurs := ["LTC"; "TBTC"];
     app_walletCurDef := Some [];
     app_lang := Undefined;
     app_bitcoinUnit := Undefined;
     preciseRound := roundToDecimals |}.

(** The same environment with a process-wide wallet-currency definition
    that declares a divisibility of 5 for BTC. *)
Definition envWithDef : Env :=
  {| getCurrencyByCode := getCurrencyByCode env;
     getWalletCurByCode := getWalletCurByCode env;
     getCryptoListingCurs := getCryptoListingCurs env;
     ensureMainnetCode := ensureMainnetCode env;
     supportedWalletCurs := supportedWalletCurs env;
     app_walletCurDef := Some [("BTC", 5)];
     app_lang := app_lang env;
     app_bitcoinUnit := app_bitcoinUnit env;
     preciseRound := preciseRound env |}.

(** A cache after a fetch with BTC as the pivot coin. *)
Definition sampleRates : rates :=
  [("USD", 5000%float); ("EUR", 4000%float); ("BTC", 1%float)].

(** The options [{ maxDisplayDecimals: n }]. *)
Definition maxDecimals (n : Z) : FormatOptions :=
  {| locale := None; btcUnit := None; useCryptoSymbol := None;
     includeCryptoCurIdentifier := None; extendMaxDecimalsOnZero := None;
     minDisplayDecimals := None; maxDisplayDecimals := Some n |}.

End Sample.
(** ** Facts about the decimal model *)

Section DecimalFacts.

Import BigNumber.

Lemma pow10_succ (k : Z) : 0 <= k -> 10 ^ (k + 1) = 10 * 10 ^ k.
Proof. intro H. rewrite Z.pow_add_r by lia. lia. Qed.

(** [ilog10_fuel] brackets its argument between two powers of ten. *)
Lemma ilog10_fuel_spec (f : nat) :
  forall n, 1 <= n < 2 ^ (Z.of_nat f + 1) ->
    0 <= ilog10_fuel f n /\
    10 ^ ilog10_fuel f n <= n < 10 ^ (ilog10_fuel f n + 1).
Proof.
  induction f as [| f IH]; intros n Hn.
  - change (2 ^ (Z.of_nat 0 + 1)) with 2 in Hn. simpl. lia.
  - cbn [ilog10_fuel]. destruct (Z.ltb_spec n 10) as [H | H].
    + simpl. lia.
    + assert (Hd : 1 <= n / 10 < 2 ^ (Z.of_nat f + 1)).
      { split.
        - apply Z.div_le_lower_bound; lia.
        - apply Z.div_lt_upper_bound; [lia |].
          replace (Z.of_nat (S f) + 1) with (Z.of_nat f + 1 + 1) in Hn by lia.
          rewrite Z.pow_add_r in Hn by lia. lia. }
      destruct (IH _ Hd) as (H0 & Hlo & Hhi).
      pose proof (Z.div_mod n 10 ltac:(lia)) as Hdm.
      pose proof (Z.mod_pos_bound n 10 ltac:(lia)) as Hm.
      repeat split.
      * lia.
      * replace (1 + ilog10_fuel f (n / 10)) with (ilog10_fuel f (n / 10) + 1) by lia.
        rewrite pow10_succ by lia. lia.
      * replace (1 + ilog10_fuel f (n / 10) + 1) with (ilog10_fuel f (n / 10) + 1 + 1) by lia.
        rewrite (pow10_succ (ilog10_fuel f (n / 10) + 1)) by lia. lia.
Qed.

Lemma log2_fuel (n : Z) : 1 <= n -> n < 2 ^ (Z.of_nat (Z.to_nat (Z.log2 n)) + 1).
Proof.
  intro H. rewrite Z2Nat.id by apply Z.log2_nonneg.
  pose proof (Z.log2_spec n ltac:(lia)) as [_ Hhi].
  replace (Z.log2 n + 1) with (Z.succ (Z.log2 n)) by lia. exact Hhi.
Qed.

Lemma ilog10_spec (n : Z) :
  1 <= n -> 0 <= ilog10 n /\ 10 ^ ilog10 n <= n < 10 ^ (ilog10 n + 1).
Proof.
  intro H. apply ilog10_fuel_spec. split; [exact H | apply log2_fuel; exact H].
Qed.

(** The bracket determines the logarithm. *)
Lemma ilog10_unique (n k : Z) :
  0 <= k -> 10 ^ k <= n < 10 ^ (k + 1) -> ilog10 n = k.
Proof.
  intros Hk [Hlo Hhi].
  assert (Hn : 1 <= n) by (pose proof (Z.pow_pos_nonneg 10 k); lia).
  destruct (ilog10_spec n Hn) as (H0 & Hl & Hh).
  destruct (Z.lt_trichotomy (ilog10 n) k) as [Hc | [Hc | Hc]]; [| exact Hc |].
  - assert (10 ^ (ilog10 n + 1) <= 10 ^ k) by (apply Z.pow_le_mono_r; lia). lia.
  - assert (10 ^ (k + 1) <= 10 ^ ilog10 n) by (apply Z.pow_le_mono_r; lia). lia.
Qed.

Lemma ilog10_mul_pow10 (n k : Z) :
  1 <= n -> 0 <= k -> ilog10 (n * 10 ^ k) = ilog10 n + k.
Proof.
  intros Hn Hk. destruct (ilog10_spec n Hn) as (H0 & Hl & Hh).
  pose proof (Z.pow_pos_nonneg 10 k ltac:(lia) Hk) as Hp.
  apply ilog10_unique; [lia |].
  replace (ilog10 n + k + 1) with (ilog10 n + 1 + k) by lia.
  rewrite (Z.pow_add_r 10 (ilog10 n) k), (Z.pow_add_r 10 (ilog10 n + 1) k) by lia.
  split.
  - apply Z.mul_le_mono_nonneg_r; lia.
  - apply Z.mul_lt_mono_pos_r; lia.
Qed.

Lemma ilog10_le (n k : Z) : 1 <= n -> 0 <= k -> n < 10 ^ (k + 1) -> ilog10 n <= k.
Proof.
  intros Hn Hk Hlt. destruct (ilog10_spec n Hn) as (H0 & Hl & Hh).
  destruct (Z.le_gt_cases (ilog10 n) k) as [H | H]; [exact H |].
  assert (10 ^ (k + 1) <= 10 ^ ilog10 n) by (apply Z.pow_le_mono_r; lia). lia.
Qed.

(** [strip_fuel] removes exactly the trailing zeros. *)
Lemma strip_fuel_spec (f : nat) :
  forall m m' x k,
    Z.abs m < 2 ^ (Z.of_nat f + 1) -> m' mod 10 <> 0 -> 0 <= k ->
    m = m' * 10 ^ k -> strip_fuel f m x = (m', x + k).
Proof.
  induction f as [| f IH]; intros m m' x k Hf Hm' Hk Hm.
  - assert (Hm0 : m' <> 0) by (intro; subst m'; apply Hm'; reflexivity).
    assert (k = 0).
    { destruct (Z.eq_dec k 0) as [|Hne]; [assumption | exfalso].
      assert (10 <= 10 ^ k).
      { replace k with (k - 1 + 1) by lia. rewrite pow10_succ by lia.
        pose proof (Z.pow_pos_nonneg 10 (k - 1)); lia. }
      change (2 ^ (Z.of_nat 0 + 1)) with 2 in Hf.
      subst m. rewrite Z.abs_mul in Hf. nia. }
    subst k. rewrite Z.pow_0_r in Hm. simpl. f_equal; lia.
  - cbn [strip_fuel]. destruct (Z.eq_dec k 0) as [-> | Hne].
    + rewrite Z.pow_0_r, Z.mul_1_r in Hm. subst m'.
      rewrite (proj2 (Z.eqb_neq _ _) Hm'). f_equal; lia.
    + assert (Hk1 : 10 ^ k = 10 * 10 ^ (k - 1)).
      { replace k with (k - 1 + 1) at 1 by lia. apply pow10_succ. lia. }
      assert (Hmod : m mod 10 = 0).
      { subst m. rewrite Hk1.
        replace (m' * (10 * 10 ^ (k - 1))) with (m' * 10 ^ (k - 1) * 10) by lia.
        apply Z_mod_mult. }
      rewrite Hmod. cbn.
      assert (Hdiv : m / 10 = m' * 10 ^ (k - 1)).
      { subst m. rewrite Hk1.
        replace (m' * (10 * 10 ^ (k - 1))) with (m' * 10 ^ (k - 1) * 10) by lia.
        apply Z_div_mult. lia. }
      replace (x + k) with (x + 1 + (k - 1)) by lia.
      apply IH; [| exact Hm' | lia | exact Hdiv].
      replace (Z.of_nat (S f) + 1) with (Z.of_nat f + 1 + 1) in Hf by lia.
      rewrite Z.pow_add_r in Hf by lia.
      rewrite Hdiv, <- Hdiv.
      assert (Z.abs m = 10 * Z.abs (m / 10)).
      { rewrite <- (Z.abs_mul 10). f_equal.
        pose proof (Z.div_mod m 10 ltac:(lia)). lia. }
      lia.
Qed.

Lemma strip_spec (m m' x k : Z) :
  m' mod 10 <> 0 -> 0 <= k -> m = m' * 10 ^ k -> strip m x = (m', x + k).
Proof.
  intros Hm' Hk Hm. unfold strip. apply strip_fuel_spec; try assumption.
  assert (m <> 0).
  { subst m. pose proof (Z.pow_pos_nonneg 10 k ltac:(lia) Hk).
    assert (m' <> 0) by (intro; subst m'; apply Hm'; reflexivity). nia. }
  apply log2_fuel. lia.
Qed.

End DecimalFacts.

Section MkFacts.

Import BigNumber.

Lemma strip_fuel_inv (f : nat) :
  forall m x m' x',
    m <> 0 -> Z.abs m < 2 ^ (Z.of_nat f + 1) -> strip_fuel f m x = (m', x') ->
    m' mod 10 <> 0 /\ 0 <= x' - x /\ m = m' * 10 ^ (x' - x).
Proof.
  induction f as [| f IH]; intros m x m' x' Hm Hf Hs.
  - simpl in Hs. change (2 ^ (Z.of_nat 0 + 1)) with 2 in Hf.
    inversion Hs; subst m' x'.
    replace (x - x) with 0 by lia. rewrite Z.pow_0_r.
    assert (m = 1 \/ m = -1) as [-> | ->] by lia; repeat split;
      solve [lia | intro Hc; discriminate Hc].
  - cbn [strip_fuel] in Hs. destruct (Z.eqb_spec (m mod 10) 0) as [H0 | H0].
    + pose proof (Z.div_mod m 10 ltac:(lia)) as Hdm.
      assert (Hm10 : m = 10 * (m / 10)) by lia.
      assert (Hd : m / 10 <> 0) by lia.
      assert (Hf' : Z.abs (m / 10) < 2 ^ (Z.of_nat f + 1)).
      { replace (Z.of_nat (S f) + 1) with (Z.of_nat f + 1 + 1) in Hf by lia.
        rewrite Z.pow_add_r in Hf by lia.
        rewrite Hm10, Z.abs_mul in Hf. simpl Z.abs in Hf. lia. }
      destruct (IH _ _ _ _ Hd Hf' Hs) as (H1 & H2 & H3).
      repeat split; [exact H1 | lia |].
      replace (x' - x) with (x' - (x + 1) + 1) by lia.
      rewrite pow10_succ by lia. rewrite Hm10 at 1. rewrite H3 at 1. lia.
    + inversion Hs; subst m' x'. replace (x - x) with 0 by lia.
      rewrite Z.pow_0_r. repeat split; lia.
Qed.

Lemma strip_inv (m x m' x' : Z) :
  m <> 0 -> strip m x = (m', x') ->
  m' mod 10 <> 0 /\ 0 <= x' - x /\ m = m' * 10 ^ (x' - x).
Proof.
  intros Hm Hs. apply (strip_fuel_inv _ _ _ _ _ Hm) in Hs; [exact Hs |].
  apply log2_fuel. lia.
Qed.

Lemma exponent_shift (m x k : Z) :
  m <> 0 -> 0 <= k -> exponent (m * 10 ^ k) (x - k) = exponent m x.
Proof.
  intros Hm Hk. unfold exponent.
  pose proof (Z.pow_pos_nonneg 10 k ltac:(lia) Hk) as Hp.
  rewrite Z.abs_mul, (Z.abs_eq (10 ^ k)) by lia.
  rewrite ilog10_mul_pow10 by lia. lia.
Qed.

Lemma mk_shift (m x k : Z) :
  m mod 10 <> 0 -> 0 <= k -> MIN_EXP <= exponent m x <= MAX_EXP ->
  mk (m * 10 ^ k) (x - k) = Fin m x.
Proof.
  intros Hm Hk Hr.
  assert (Hm0 : m <> 0) by (intro; subst m; apply Hm; reflexivity).
  pose proof (Z.pow_pos_nonneg 10 k ltac:(lia) Hk) as Hp.
  unfold mk. rewrite exponent_shift by assumption.
  destruct (Z.eqb_spec (m * 10 ^ k) 0) as [H0 | _]; [nia |].
  destruct (Z.ltb_spec MAX_EXP (exponent m x)); [lia |].
  destruct (Z.ltb_spec (exponent m x) MIN_EXP); [lia |].
  rewrite (strip_spec (m * 10 ^ k) m (x - k) k Hm Hk eq_refl).
  f_equal. lia.
Qed.

Lemma mk_canonical (m x : Z) :
  m mod 10 <> 0 -> MIN_EXP <= exponent m x <= MAX_EXP -> mk m x = Fin m x.
Proof.
  intros Hm Hr. pose proof (mk_shift m x 0 Hm ltac:(lia) Hr) as H.
  rewrite Z.pow_0_r, Z.mul_1_r, Z.sub_0_r in H. exact H.
Qed.

(** [mk] only builds canonical values. *)
Lemma mk_is_canonical (m x : Z) : canonical (mk m x).
Proof.
  unfold mk. destruct (Z.eqb_spec m 0) as [H0 | H0]; [left; split; reflexivity |].
  destruct (Z.ltb_spec MAX_EXP (exponent m x)); [exact I |].
  destruct (Z.ltb_spec (exponent m x) MIN_EXP); [left; split; reflexivity |].
  destruct (strip m x) as [m' x'] eqn:Hs.
  destruct (strip_inv _ _ _ _ H0 Hs) as (Ha & Hb & Hc).
  right. split; [exact Ha |].
  assert (Hm' : m' <> 0) by (intro; subst m'; apply Ha; reflexivity).
  assert (He : exponent m x = exponent m' x').
  { rewrite Hc. replace (exponent (m' * 10 ^ (x' - x)) x)
      with (exponent (m' * 10 ^ (x' - x)) (x' - (x' - x))) by (f_equal; lia).
    apply exponent_shift; assumption. }
  lia.
Qed.

(** The value of [mk m x] when the exponent is in range. *)
Lemma mk_value (m x : Z) :
  m <> 0 -> MIN_EXP <= exponent m x <= MAX_EXP ->
  exists m' k, 0 <= k /\ m = m' * 10 ^ k /\ m' mod 10 <> 0 /\
               mk m x = Fin m' (x + k).
Proof.
  intros H0 Hr. unfold mk.
  destruct (Z.eqb_spec m 0); [contradiction |].
  destruct (Z.ltb_spec MAX_EXP (exponent m x)); [lia |].
  destruct (Z.ltb_spec (exponent m x) MIN_EXP); [lia |].
  destruct (strip m x) as [m' x'] eqn:Hs.
  destruct (strip_inv _ _ _ _ H0 Hs) as (Ha & Hb & Hc).
  exists m', (x' - x). repeat split; try assumption. f_equal. lia.
Qed.

Lemma pow10Q_pos (k : Z) : (0 < Qpower (inject_Z 10) k)%Q.
Proof. apply Qpower_0_lt. reflexivity. Qed.

Lemma Qpower10_add (a b : Z) :
  (Qpower (inject_Z 10) (a + b) == Qpower (inject_Z 10) a * Qpower (inject_Z 10) b)%Q.
Proof. apply Qpower_plus. discriminate. Qed.

Lemma Qpower10_inject (k : Z) :
  0 <= k -> (Qpower (inject_Z 10) k == inject_Z (10 ^ k))%Q.
Proof.
  intro Hk. symmetry. apply Zpower_Qpower. exact Hk.
Qed.

Lemma toQ_mk (m x : Z) :
  m <> 0 -> MIN_EXP <= exponent m x <= MAX_EXP ->
  (toQ (mk m x) == inject_Z m * Qpower (inject_Z 10) x)%Q.
Proof.
  intros H0 Hr.
  destruct (mk_value m x H0 Hr) as (m' & k & Hk & Hm & _ & ->).
  cbn [toQ]. rewrite Hm, Qpower10_add, inject_Z_mult, (Qpower10_inject k Hk). ring.
Qed.

End MkFacts.

Section DigitFacts.

Import BigNumber.

Lemma digit_char_ok (d : Z) :
  0 <= d < 10 -> is_digit (digit_char d) = true /\ digit_val (digit_char d) = d.
Proof.
  intro H.
  assert (d = 0 \/ d = 1 \/ d = 2 \/ d = 3 \/ d = 4 \/ d = 5 \/ d = 6 \/ d = 7
          \/ d = 8 \/ d = 9) as Hd by lia.
  repeat (destruct Hd as [-> | Hd]; [split; reflexivity |]).
  subst d; split; reflexivity.
Qed.

Lemma sapp_assoc (a b c : string) : (a ++ b) ++ c = a ++ b ++ c.
Proof.
  induction a as [| x a IH]; [reflexivity |]. cbn [String.append]. rewrite IH. reflexivity.
Qed.

Lemma sapp_nil (s : string) : s ++ "" = s.
Proof.
  induction s as [| c s IH]; [reflexivity |]. cbn [String.append]. rewrite IH. reflexivity.
Qed.

Lemma slen_app (a b : string) : slen (a ++ b) = slen a + slen b.
Proof.
  unfold slen. induction a as [| c a IH]; [reflexivity |].
  cbn [String.append String.length]. rewrite !Nat2Z.inj_succ. lia.
Qed.

Lemma all_digits_app (a b : string) :
  all_digits (a ++ b) = all_digits a && all_digits b.
Proof.
  induction a as [| c a IH]; [reflexivity |].
  cbn [String.append all_digits]. rewrite IH, andb_assoc. reflexivity.
Qed.

Lemma dval_app (a b : string) (acc : Z) : dval (a ++ b) acc = dval b (dval a acc).
Proof.
  revert acc. induction a as [| c a IH]; intro acc; [reflexivity |].
  cbn [String.append dval]. apply IH.
Qed.

Lemma span_digits_app (ds rest : string) :
  all_digits ds = true ->
  forall acc n,
    span_digits (ds ++ rest) acc n = span_digits rest (dval ds acc) (n + slen ds).
Proof.
  induction ds as [| c ds IH]; intros Hd acc n.
  - unfold slen. simpl. f_equal. lia.
  - cbn [all_digits] in Hd. apply andb_prop in Hd as [Hc Hds].
    cbn [String.append span_digits dval]. rewrite Hc, IH by exact Hds.
    f_equal. unfold slen. cbn [String.length]. rewrite Nat2Z.inj_succ. lia.
Qed.

Lemma span_digits_stop (s : string) (acc n : Z) :
  stops s -> span_digits s acc n = (acc, n, s).
Proof.
  destruct s as [| c r]; [reflexivity |]. simpl. intros ->. reflexivity.
Qed.

Lemma span_digits_all (ds rest : string) (acc n : Z) :
  all_digits ds = true -> stops rest ->
  span_digits (ds ++ rest) acc n = (dval ds acc, n + slen ds, rest).
Proof.
  intros Hd Hs. rewrite span_digits_app by exact Hd. apply span_digits_stop, Hs.
Qed.

Lemma digits_fuel_spec (f : nat) :
  forall n s,
    0 <= n < 2 ^ (Z.of_nat f + 1) ->
    exists ds,
      digits_fuel f n s = ds ++ s /\ all_digits ds = true /\
      slen ds = ilog10_fuel f n + 1 /\ dval ds 0 = n.
Proof.
  assert (Hone : forall d s, 0 <= d < 10 ->
            exists ds, String (digit_char d) s = ds ++ s /\ all_digits ds = true /\
                       slen ds = 0 + 1 /\ dval ds 0 = d).
  { intros d s Hd. exists (String (digit_char d) "").
    destruct (digit_char_ok d Hd) as [H1 H2].
    repeat split.
    - cbn [all_digits]. rewrite H1. reflexivity.
    - cbn [dval]. rewrite H2. lia. }
  induction f as [| f IH]; intros n s Hn.
  - change (2 ^ (Z.of_nat 0 + 1)) with 2 in Hn. cbn [digits_fuel ilog10_fuel].
    rewrite Z.mod_small by lia. apply Hone. lia.
  - cbn [digits_fuel ilog10_fuel]. destruct (Z.ltb_spec n 10) as [Hlt | Hge].
    + apply Hone. lia.
    + assert (Hd : 0 <= n / 10 < 2 ^ (Z.of_nat f + 1)).
      { split.
        - apply Z.div_pos; lia.
        - apply Z.div_lt_upper_bound; [lia |].
          replace (Z.of_nat (S f) + 1) with (Z.of_nat f + 1 + 1) in Hn by lia.
          rewrite Z.pow_add_r in Hn by lia. lia. }
      destruct (IH (n / 10) (String (digit_char (n mod 10)) s) Hd)
        as (ds & He & Ha & Hl & Hv).
      pose proof (Z.mod_pos_bound n 10 ltac:(lia)) as Hm.
      destruct (digit_char_ok _ Hm) as [H1 H2].
      exists (ds ++ String (digit_char (n mod 10)) "").
      repeat split.
      * rewrite He, sapp_assoc. reflexivity.
      * rewrite all_digits_app, Ha. cbn [all_digits]. rewrite H1. reflexivity.
      * rewrite slen_app, Hl. unfold slen. cbn [String.length]. lia.
      * rewrite dval_app, Hv. cbn [dval]. rewrite H2.
        pose proof (Z.div_mod n 10 ltac:(lia)). lia.
Qed.

Lemma digits_spec (n : Z) :
  0 <= n ->
  all_digits (digits n) = true /\ dval (digits n) 0 = n /\
  slen (digits n) = ilog10 n + 1.
Proof.
  intro Hn. unfold digits, ilog10.
  assert (Hf : 0 <= n < 2 ^ (Z.of_nat (Z.to_nat (Z.log2 n)) + 1)).
  { split; [exact Hn |]. destruct (Z.eq_dec n 0) as [-> | Hne].
    - reflexivity.
    - apply log2_fuel. lia. }
  destruct (digits_fuel_spec _ n "" Hf) as (ds & He & Ha & Hl & Hv).
  rewrite sapp_nil in He. rewrite He. repeat split; assumption.
Qed.

Lemma zeros_spec (k : nat) :
  all_digits (zeros k) = true /\ slen (zeros k) = Z.of_nat k /\
  forall acc, dval (zeros k) acc = acc * 10 ^ Z.of_nat k.
Proof.
  induction k as [| k (Ha & Hl & Hv)].
  - repeat split. intro acc. simpl. lia.
  - repeat split.
    + cbn [zeros all_digits]. rewrite Ha. reflexivity.
    + unfold slen in *. cbn [zeros String.length]. rewrite !Nat2Z.inj_succ. lia.
    + intro acc. cbn [zeros dval]. rewrite Hv.
      change (digit_val "0") with 0. rewrite Nat2Z.inj_succ.
      rewrite <- Z.add_1_r, pow10_succ by lia. lia.
Qed.

End DigitFacts.

Section NotationFacts.

Import BigNumber.

Lemma substring_full (s : string) : substring 0 (String.length s) s = s.
Proof.
  induction s as [| c s IH]; [reflexivity |].
  cbn [String.length substring]. rewrite IH. reflexivity.
Qed.

Lemma substring_split (s : string) :
  forall k, (k <= String.length s)%nat ->
    substring 0 k s ++ substring k (String.length s - k) s = s.
Proof.
  induction s as [| c s IH]; intros k Hk.
  - destruct k; [reflexivity | simpl in Hk; lia].
  - destruct k as [| k].
    + rewrite Nat.sub_0_r, substring_full. reflexivity.
    + cbn [substring String.append String.length Nat.sub]. f_equal.
      apply IH. simpl in Hk. lia.
Qed.

Lemma substring_length (s : string) :
  forall k, (k <= String.length s)%nat -> String.length (substring 0 k s) = k.
Proof.
  induction s as [| c s IH]; intros k Hk.
  - destruct k; [reflexivity | simpl in Hk; lia].
  - destruct k as [| k]; [reflexivity |].
    cbn [substring String.length]. f_equal. apply IH. simpl in Hk. lia.
Qed.

Lemma parse_exponent_spec (e : Z) :
  parse_exponent ((if e <? 0 then "e-" else "e+") ++ digits (Z.abs e)) = Some e.
Proof.
  destruct (digits_spec (Z.abs e) ltac:(lia)) as (Ha & Hv & Hl).
  assert (Hlen : 0 < slen (digits (Z.abs e))).
  { rewrite Hl. destruct (Z.eq_dec (Z.abs e) 0) as [-> | Hne]; [reflexivity |].
    destruct (ilog10_spec (Z.abs e) ltac:(lia)) as [H0 _]. lia. }
  assert (Hscan : span_digits (digits (Z.abs e)) 0 0
                  = (Z.abs e, 0 + slen (digits (Z.abs e)), "")).
  { rewrite <- (sapp_nil (digits (Z.abs e))) at 1.
    rewrite span_digits_all by (exact Ha || exact I). rewrite Hv. reflexivity. }
  destruct (Z.ltb_spec e 0) as [Hneg | Hpos];
    cbn [String.append parse_exponent Ascii.eqb Bool.eqb orb starts_with];
    rewrite Hscan; rewrite (proj2 (Z.ltb_lt _ _)) by lia; f_equal; lia.
Qed.

End NotationFacts.

Section RoundTripFacts.

Import BigNumber.

Lemma parse_unsigned_integer (ip tail : string) :
  all_digits ip = true -> 0 < slen ip -> stops tail ->
  starts_with "." tail = None ->
  parse_unsigned (ip ++ tail) =
  match parse_exponent tail with
  | Some ex => Some (dval ip 0, ex - 0)
  | None => None
  end.
Proof.
  intros Ha Hl Hs Hp. unfold parse_unsigned.
  rewrite span_digits_all by assumption. rewrite Hp.
  rewrite (proj2 (Z.ltb_lt 0 (0 + slen ip))) by lia. reflexivity.
Qed.

Lemma parse_unsigned_fraction (ip fp tail : string) :
  all_digits ip = true -> all_digits fp = true -> 0 < slen ip -> stops tail ->
  parse_unsigned (ip ++ String "." (fp ++ tail)) =
  match parse_exponent tail with
  | Some ex => Some (dval fp (dval ip 0), ex - (0 + slen fp))
  | None => None
  end.
Proof.
  intros Ha Hf Hl Hs. unfold parse_unsigned.
  rewrite span_digits_all by (assumption || reflexivity).
  cbn [starts_with Ascii.eqb Bool.eqb].
  rewrite span_digits_all by assumption.
  rewrite (proj2 (Z.ltb_lt 0 (0 + slen ip))) by lia. reflexivity.
Qed.

Lemma parse_unsigned_not_minus (s : string) (p : Z * Z) :
  parse_unsigned s = Some p -> starts_with "-" s = None.
Proof.
  destruct s as [| c r]; [reflexivity |]. unfold starts_with.
  destruct (Ascii.eqb_spec c "-") as [-> | _]; [| reflexivity].
  intro H. cbn in H. discriminate H.
Qed.

Lemma exponent_part_stops (e : Z) :
  let expo := (if e <? 0 then "e-" else "e+") ++ digits (Z.abs e) in
  stops expo /\ starts_with "." expo = None.
Proof. destruct (e <? 0); split; reflexivity. Qed.

(** What [toString] writes for a positive mantissa reads back as the same
    number. *)
Lemma parse_toString_body (n x : Z) :
  1 <= n ->
  let str := digits n in
  let e := x + slen str - 1 in
  let body :=
    if (e <=? TO_EXP_NEG) || (TO_EXP_POS <=? e) then toExponential str e
    else toFixedPoint str e in
  exists k, 0 <= k /\ parse_unsigned body = Some (n * 10 ^ k, x - k).
Proof.
  intros Hn str e body.
  destruct (digits_spec n ltac:(lia)) as (Ha & Hv & Hl).
  destruct (ilog10_spec n Hn) as (Hi & _).
  fold str in Ha, Hv, Hl.
  assert (He : e = x + slen str - 1) by reflexivity.
  clearbody e. subst body.
  destruct ((e <=? TO_EXP_NEG) || (TO_EXP_POS <=? e)).
  - (* exponential notation *)
    exists 0. split; [lia |].
    destruct (exponent_part_stops e) as [Hs Hp].
    pose proof (parse_exponent_spec e) as Hx.
    unfold toExponential. clearbody str.
    destruct str as [| c [| c2 r2]].
    + unfold slen in Hl. simpl in Hl. lia.
    + rewrite (parse_unsigned_integer (String c "") _ Ha ltac:(reflexivity) Hs Hp), Hx.
      rewrite Hv. unfold slen in He. cbn in He. f_equal. f_equal; lia.
    + change (String c (String "." (String c2 r2)) ++ ?t)
        with (String c "" ++ String "." (String c2 r2 ++ t)).
      cbn [all_digits] in Ha. apply andb_prop in Ha as [Hc Hr].
      rewrite parse_unsigned_fraction;
        [| cbn [all_digits]; rewrite Hc; reflexivity | exact Hr | reflexivity | exact Hs].
      rewrite Hx. rewrite <- dval_app. change (String c "" ++ String c2 r2) with (String c (String c2 r2)).
      rewrite Hv. f_equal. f_equal; [lia |].
      unfold slen in *. cbn [String.length] in *. lia.
  - (* fixed-point notation *)
    unfold toFixedPoint. fold (slen str). clearbody str.
    destruct (Z.ltb_spec e 0) as [Hneg | Hpos].
    + exists 0. split; [lia |].
      destruct (zeros_spec (Z.to_nat (- e - 1))) as (Hza & Hzl & Hzv).
      change ("0." ++ ?t) with (String "0" "" ++ String "." t).
      rewrite <- (sapp_nil (zeros _ ++ str)).
      rewrite parse_unsigned_fraction;
        [| reflexivity | rewrite all_digits_app, Hza, Ha; reflexivity
         | reflexivity | exact I].
      cbn [parse_exponent]. rewrite dval_app, Hzv.
      change (dval "0" 0) with 0. rewrite Z.mul_0_l, Hv.
      rewrite slen_app, Hzl, Z2Nat.id by lia. f_equal. f_equal; lia.
    + destruct (Z.ltb_spec (slen str) (e + 1)) as [Hlt | Hge].
      * exists x. split; [lia |].
        destruct (zeros_spec (Z.to_nat (e + 1 - slen str))) as (Hza & Hzl & Hzv).
        rewrite <- (sapp_nil (str ++ zeros _)).
        rewrite parse_unsigned_integer;
          [| rewrite all_digits_app, Hza, Ha; reflexivity
           | rewrite slen_app; lia | exact I | reflexivity].
        cbn [parse_exponent]. rewrite dval_app, Hzv, Hv.
        rewrite Z2Nat.id by lia. f_equal. f_equal; [f_equal; f_equal; lia | lia].
      * destruct (Z.ltb_spec (e + 1) (slen str)) as [Hlt' | Hge'].
        -- exists 0. split; [lia |].
           assert (Hk : (Z.to_nat (e + 1) <= String.length str)%nat)
             by (unfold slen in Hlt'; lia).
           assert (Hsuf : Z.to_nat (slen str - (e + 1))
                          = (String.length str - Z.to_nat (e + 1))%nat)
             by (unfold slen; lia).
           rewrite Hsuf.
           pose proof (substring_split str _ Hk) as Hsplit.
           pose proof (substring_length str _ Hk) as Hplen.
           set (pre := substring 0 (Z.to_nat (e + 1)) str) in *.
           set (suf := substring (Z.to_nat (e + 1))
                         (String.length str - Z.to_nat (e + 1)) str) in *.
           assert (Hall : all_digits pre = true /\ all_digits suf = true).
           { rewrite <- Hsplit, all_digits_app in Ha. apply andb_prop in Ha. exact Ha. }
           destruct Hall as [Hpa Hsa].
           assert (Hpl : slen pre = e + 1) by (unfold slen; rewrite Hplen; lia).
           change ("." ++ suf) with (String "." suf).
           rewrite <- (sapp_nil suf) at 1.
           rewrite parse_unsigned_fraction; [| exact Hpa | exact Hsa | lia | exact I].
           cbn [parse_exponent]. rewrite <- dval_app, Hsplit, Hv.
           assert (Hsl : slen suf = slen str - (e + 1)).
           { assert (slen str = slen pre + slen suf)
               by (rewrite <- slen_app, Hsplit; reflexivity). lia. }
           rewrite Hsl. f_equal. f_equal; lia.
        -- exists 0. split; [lia |].
           rewrite <- (sapp_nil str).
           rewrite parse_unsigned_integer; [| exact Ha | lia | exact I | reflexivity].
           cbn [parse_exponent]. rewrite Hv. f_equal. f_equal; lia.
Qed.

(** Reading back what [toString] wrote gives the number again. *)
Lemma of_string_toString (a : t) : canonical a -> of_string (toString a) = a.
Proof.
  destruct a as [| s | m x]; intro Hc.
  - reflexivity.
  - destruct s; reflexivity.
  - destruct Hc as [[-> ->] | [Hm Hr]]; [reflexivity |].
    assert (Hm0 : m <> 0) by (intro; subst m; apply Hm; reflexivity).
    destruct (parse_toString_body (Z.abs m) x ltac:(lia)) as (k & Hk & Hp).
    cbv zeta in Hp. cbn [toString].
    fold (slen (digits (Z.abs m))).
    set (body := if _ : bool then toExponential _ _ else toFixedPoint _ _) in *.
    destruct (Z.ltb_spec m 0) as [Hneg | Hpos].
    + change ("-" ++ body) with (String "-" body).
      unfold of_string. cbn [starts_with Ascii.eqb Bool.eqb]. rewrite Hp.
      replace (- (Z.abs m * 10 ^ k)) with (m * 10 ^ k) by lia.
      apply mk_shift; assumption.
    + unfold of_string. rewrite (parse_unsigned_not_minus _ _ Hp), Hp.
      replace (Z.abs m * 10 ^ k) with (m * 10 ^ k) by lia.
      apply mk_shift; assumption.
Qed.

End RoundTripFacts.

Section ConverterFacts.

Import BigNumber Currency.

(** A valid divisibility is a number that denotes a positive integer. *)
Lemma valid_divisibility (v : value) :
  fst (isValidCoinDivisibility v) = true ->
  exists d, v = Number d /\ integer_of_float d = Some (integer_value v) /\
            0 < integer_value v.
Proof.
  unfold isValidCoinDivisibility. cbn [fst]. intro H.
  apply andb_prop in H as [Hi Hg].
  destruct v as [| | b | d | s | props]; try discriminate Hi.
  exists d. cbn [Number_isInteger] in Hi. cbn [integer_value].
  unfold JSNumber.gt in Hg. cbn [JSNumber.ToNumber] in Hg.
  rewrite ltb_spec in Hg. unfold integer_of_float in *.
  change (Prim2SF 0) with (S754_zero false) in Hg.
  destruct (Prim2SF d) as [sz | si | | s m e]; try discriminate Hi.
  - discriminate Hg.
  - destruct s; [discriminate Hg |].
    destruct (Z.leb_spec 0 e) as [He | He].
    + repeat split. pose proof (Z.pow_pos_nonneg 2 e ltac:(lia) He). nia.
    + destruct (Z.eqb_spec (Z.pos m mod 2 ^ (- e)) 0) as [Hm | Hm]; [| discriminate Hi].
      repeat split.
      pose proof (Z.pow_pos_nonneg 2 (- e) ltac:(lia) ltac:(lia)) as Hp.
      pose proof (Z.div_mod (Z.pos m) (2 ^ (- e)) ltac:(lia)) as Hdm.
      rewrite Hm in Hdm. nia.
Qed.

Lemma bigNumber_ten : bigNumber (Number 10%float) = Fin 1 1.
Proof. vm_compute. reflexivity. Qed.

Lemma bigNumber_canonical (v : value) : canonical (bigNumber v).
Proof.
  destruct v as [| | b | d | s | props]; try exact I.
  - cbn [bigNumber]. unfold of_float.
    destruct (PrimFloat.is_nan d); [exact I |].
    destruct (PrimFloat.is_infinity d); [exact I |].
    destruct (PrimFloat.is_zero d); [left; split; reflexivity |].
    destruct (shortest_decimal _) as [s q]. apply mk_is_canonical.
  - cbn [bigNumber]. unfold of_string.
    destruct (starts_with "-" s) as [r |].
    + destruct (parse_unsigned r) as [[m x] |]; [apply mk_is_canonical |].
      destruct (String.eqb r "Infinity"); exact I.
    + destruct (parse_unsigned s) as [[m x] |]; [apply mk_is_canonical |].
      destruct (String.eqb s "Infinity"); exact I.
Qed.

Lemma pow_ten (d : Z) : 0 < d <= MAX_EXP -> pow (Fin 1 1) d = Fin 1 d.
Proof.
  intro Hd. cbn [pow]. rewrite Z.pow_1_l, Z.mul_1_l by lia.
  apply mk_canonical; [discriminate |].
  unfold exponent. change (ilog10 (Z.abs 1)) with 0. unfold MIN_EXP, MAX_EXP in *. lia.
Qed.

Lemma div_half_up_one (n : Z) : div_half_up n 1 = n.
Proof.
  unfold div_half_up. change (Z.sgn 1) with 1. change (Z.abs 1) with 1.
  replace ((2 * Z.abs n + 1) / (2 * 1)) with (Z.abs n).
  - rewrite Z.mul_1_r, Z.mul_comm. apply Z.abs_sgn.
  - apply Z.div_unique with (r := 1); lia.
Qed.

Lemma div_half_up_bounds (m d : Z) :
  0 < m -> 0 < d ->
  0 <= div_half_up m d /\
  - d < 2 * div_half_up m d * d - 2 * m <= d.
Proof.
  intros Hm Hd. unfold div_half_up.
  rewrite (Z.sgn_pos m), (Z.sgn_pos d), (Z.abs_eq m), (Z.abs_eq d) by lia.
  pose proof (Z.div_mod (2 * m + d) (2 * d) ltac:(lia)) as Hdm.
  pose proof (Z.mod_pos_bound (2 * m + d) (2 * d) ltac:(lia)) as Hmb.
  assert (0 <= (2 * m + d) / (2 * d)) by (apply Z.div_pos; lia).
  nia.
Qed.

(** Scaling the mantissa by a power of ten and the exponent back is the
    same value. *)
Lemma mk_scale (n y k : Z) : n <> 0 -> 0 <= k -> mk (n * 10 ^ k) (y - k) = mk n y.
Proof.
  intros Hn Hk. pose proof (Z.pow_pos_nonneg 10 k ltac:(lia) Hk) as Hp.
  unfold mk. rewrite exponent_shift by assumption.
  destruct (Z.eqb_spec (n * 10 ^ k) 0) as [H0 | _]; [nia |].
  destruct (Z.eqb_spec n 0) as [H0 | _]; [contradiction |].
  replace (n * 10 ^ k <? 0) with (n <? 0)
    by (destruct (Z.ltb_spec n 0), (Z.ltb_spec (n * 10 ^ k) 0); try reflexivity; nia).
  destruct (Z.ltb_spec MAX_EXP (exponent n y)); [reflexivity |].
  destruct (Z.ltb_spec (exponent n y) MIN_EXP); [reflexivity |].
  destruct (strip n y) as [n' y'] eqn:Hs.
  destruct (strip_inv _ _ _ _ Hn Hs) as (Ha & Hb & Hc).
  rewrite (strip_spec (n * 10 ^ k) n' (y - k) (y' - y + k) Ha ltac:(lia)).
  - f_equal. lia.
  - rewrite Hc at 1. rewrite Z.pow_add_r by lia. lia.
Qed.

End ConverterFacts.

Section RoundTrip.

Import BigNumber Currency.

Lemma mk_not_nan (m x : Z) : isNaN (mk m x) = false.
Proof.
  unfold mk. destruct (m =? 0); [reflexivity |].
  destruct (MAX_EXP <? exponent m x); [reflexivity |].
  destruct (exponent m x <? MIN_EXP); [reflexivity |].
  destruct (strip m x). reflexivity.
Qed.

Lemma dividedBy_pow10 (n y d : Z) :
  n <> 0 -> 0 <= y - d + DECIMAL_PLACES ->
  dividedBy (Fin n y) (Fin 1 d) = mk n (y - d).
Proof.
  intros Hn Hs. unfold dividedBy. change (1 =? 0) with false. cbv iota.
  rewrite Z.max_l, Z.max_r by lia.
  rewrite Z.pow_0_r, Z.mul_1_l, div_half_up_one.
  rewrite <- (mk_scale n (y - d) (y - d + DECIMAL_PLACES)) by assumption.
  f_equal. lia.
Qed.

Lemma dividedBy_zero_pow10 (d : Z) : dividedBy zero (Fin 1 d) = zero.
Proof.
  unfold dividedBy, zero. change (1 =? 0) with false. cbv iota.
  rewrite Z.mul_0_l. reflexivity.
Qed.

(** The rounded quotient is within half a unit of the exact one. *)
Lemma half_unit_bound (q m j d : Z) :
  0 < j -> - 10 ^ j < 2 * q * 10 ^ j - 2 * m <= 10 ^ j ->
  (Qabs (inject_Z q * Qpower (inject_Z 10) (- d)
         - inject_Z m * Qpower (inject_Z 10) (- j - d))
   <= (1 # 2) * Qpower (inject_Z 10) (- d))%Q.
Proof.
  intros Hj [Hlo Hhi].
  pose proof (Z.pow_pos_nonneg 10 j ltac:(lia) ltac:(lia)) as Hp.
  set (t := Qpower (inject_Z 10) (- d)).
  assert (Ht : (0 < t)%Q) by apply pow10Q_pos.
  set (W := inject_Z (10 ^ j)).
  assert (HW : (0 < W)%Q) by (unfold W; rewrite <- (Zlt_Qlt 0); exact Hp).
  assert (Hu : (Qpower (inject_Z 10) (- j - d) == / W * t)%Q).
  { replace (- j - d) with (- j + - d) by lia.
    rewrite Qpower10_add, Qpower_opp, Qpower10_inject by lia. reflexivity. }
  rewrite Hu.
  assert (Hlo' : (- W < 2 * inject_Z q * W - 2 * inject_Z m)%Q).
  { unfold W, Qlt, Qminus, Qplus, Qmult, Qopp, inject_Z. cbn [Qnum Qden Pos.mul]. lia. }
  assert (Hhi' : (2 * inject_Z q * W - 2 * inject_Z m <= W)%Q).
  { unfold W, Qle, Qminus, Qplus, Qmult, Qopp, inject_Z. cbn [Qnum Qden Pos.mul]. lia. }
  setoid_replace (inject_Z q * t - inject_Z m * (/ W * t))%Q
    with (((2 * inject_Z q * W - 2 * inject_Z m) * (/ W * (1 # 2))) * t)%Q
    by (field; intro Hc; rewrite Hc in HW; discriminate HW).
  rewrite Qabs_Qmult, (Qabs_pos t) by (apply Qlt_le_weak; exact Ht).
  apply Qmult_le_compat_r; [| apply Qlt_le_weak; exact Ht].
  assert (Hi : (0 < / W * (1 # 2))%Q).
  { apply Qmult_lt_0_compat; [apply Qinv_lt_0_compat; exact HW | reflexivity]. }
  apply Qabs_Qle_condition. split.
  - setoid_replace (- (1 # 2))%Q with ((- W) * (/ W * (1 # 2)))%Q
      by (field; intro Hc; rewrite Hc in HW; discriminate HW).
    apply Qmult_le_compat_r; apply Qlt_le_weak; assumption.
  - setoid_replace (1 # 2)%Q with (W * (/ W * (1 # 2)))%Q at 2
      by (field; intro Hc; rewrite Hc in HW; discriminate HW).
    apply Qmult_le_compat_r; [exact Hhi' | apply Qlt_le_weak; exact Hi].
Qed.

End RoundTrip.

Section RoundTripTheorem.

Import BigNumber Currency.

(** The quotient rounded to an integer has at most one digit more than the
    exact quotient. *)
Lemma rounded_quotient_exponent (m j : Z) :
  0 < m -> 0 < j -> 0 < div_half_up m (10 ^ j) ->
  ilog10 (div_half_up m (10 ^ j)) <= ilog10 m - j + 1.
Proof.
  intros Hm Hj Hq.
  pose proof (Z.pow_pos_nonneg 10 j ltac:(lia) ltac:(lia)) as Hp.
  destruct (div_half_up_bounds m (10 ^ j) Hm Hp) as [_ [Hlo Hhi]].
  destruct (ilog10_spec m ltac:(lia)) as (H0 & Hl & Hh).
  set (q := div_half_up m (10 ^ j)) in *.
  set (L := ilog10 m) in *.
  destruct (Z.le_gt_cases j (L + 1)) as [Hle | Hgt].
  - apply ilog10_le; [lia | lia |].
    assert (Hsplit : 10 ^ (L + 1) = 10 ^ j * 10 ^ (L + 1 - j)).
    { rewrite <- Z.pow_add_r by lia. f_equal. lia. }
    pose proof (Z.pow_pos_nonneg 10 (L + 1 - j) ltac:(lia) ltac:(lia)) as Hp'.
    replace (L - j + 1 + 1) with (L + 1 - j + 1) by lia.
    rewrite pow10_succ by lia. nia.
  - exfalso.
    assert (Hsplit : 10 ^ j = 10 ^ (L + 1) * 10 ^ (j - (L + 1))).
    { rewrite <- Z.pow_add_r by lia. f_equal. lia. }
    assert (10 <= 10 ^ (j - (L + 1))).
    { replace (j - (L + 1)) with (j - (L + 1) - 1 + 1) by lia.
      rewrite pow10_succ by lia.
      pose proof (Z.pow_pos_nonneg 10 (j - (L + 1) - 1) ltac:(lia) ltac:(lia)). lia. }
    nia.
Qed.

(** C1, amended: for every amount that [BigNumber] reads as a positive
    decimal and every valid divisibility [d] of at most 20
    ([DECIMAL_PLACES], to which the package rounds a quotient), with the
    scaled amount below the overflow exponent, [decimalToInteger] returns
    a string [s], [integerToDecimal] turns [s] back into a string [r]
    without logging, [r] denotes the amount to within half a unit of the
    [d]-th decimal place, and [r] is the notation of the amount itself
    when the amount has at most [d] decimal places. *)
Theorem decimal_integer_round_trip (amount divisibility : value) (m x : Z) :
  bigNumber amount = Fin m x -> 0 < m ->
  fst (isValidCoinDivisibility divisibility) = true ->
  integer_value divisibility <= DECIMAL_PLACES ->
  exponent m x + integer_value divisibility < MAX_EXP ->
  exists s r : string,
    decimalToInteger amount divisibility = Ok s /\
    integerToDecimal (Str s) divisibility None = ([], Ok (Str r)) /\
    (Qabs (toQ (bigNumber (Str r)) - toQ (bigNumber amount))
     <= (1 # 2) * Qpower (inject_Z 10) (- integer_value divisibility))%Q /\
    (- integer_value divisibility <= x ->
     bigNumber (Str r) = bigNumber amount /\ r = toString (bigNumber amount)).
Proof.
  intros Ha Hm Hv Hd Hr.
  destruct (valid_divisibility _ Hv) as (dn & Hdn & _ & Hpos).
  set (d := integer_value divisibility) in *.
  pose proof (bigNumber_canonical amount) as Hc. rewrite Ha in Hc.
  destruct Hc as [[-> _] | [Hm10 Hrange]]; [lia |].
  assert (Hm0 : m <> 0) by lia.
  assert (Htype : includes ["number"; "string"] (typeof amount) = true)
    by (destruct amount; try discriminate Ha; reflexivity).
  assert (Hten : pow (bigNumber (Number 10%float)) d = Fin 1 d).
  { rewrite bigNumber_ten. apply pow_ten. unfold DECIMAL_PLACES, MAX_EXP in *. lia. }
  assert (Hprod : multipliedBy (Fin m x) (Fin 1 d) = Fin m (x + d)).
  { cbn [multipliedBy]. rewrite Z.mul_1_r. apply mk_canonical; [exact Hm10 |].
    unfold exponent in *. unfold MIN_EXP, MAX_EXP in *. lia. }
  assert (Hdec : decimalToInteger amount divisibility
                 = Ok (toString (decimalPlaces (Fin m (x + d)) 0))).
  { unfold decimalToInteger. rewrite Htype. cbn [negb].
    destruct (isValidCoinDivisibility divisibility) as [b e] eqn:Hiv.
    cbn [fst] in Hv. subst b. cbn [negb]. fold d. rewrite Hten, Ha, Hprod. reflexivity. }
  assert (Hint : forall s,
            integerToDecimal (Str s) divisibility None
            = let result := dividedBy (of_string s) (Fin 1 d) in
              if isNaN result
              then ([console_error (Str s) "result is not a number"], Ok Undefined)
              else ([], Ok (Str (toString result)))).
  { intro s. unfold integerToDecimal, integerToDecimal_try.
    change (includes ["number"; "string"] (typeof (Str s))) with true. cbn [negb].
    destruct (isValidCoinDivisibility divisibility) as [b e] eqn:Hiv.
    cbn [fst] in Hv. subst b. cbn [negb]. fold d. rewrite Hten. cbn [bigNumber].
    cbv zeta. destruct (isNaN _); reflexivity. }
  rewrite Hdec. cbn [decimalPlaces].
  destruct (Z.leb_spec (- 0) (x + d)) as [Hfits | Hfrac].
  - (* the amount has at most [d] decimal places *)
    exists (toString (Fin m (x + d))), (toString (Fin m x)).
    assert (Hcan : canonical (Fin m (x + d))).
    { right. split; [exact Hm10 |]. unfold exponent in *. unfold MIN_EXP, MAX_EXP in *. lia. }
    assert (Hback : dividedBy (Fin m (x + d)) (Fin 1 d) = Fin m x).
    { rewrite dividedBy_pow10 by (unfold DECIMAL_PLACES in *; lia).
      replace (x + d - d) with x by lia. apply mk_canonical; assumption. }
    assert (Hread : bigNumber (Str (toString (Fin m x))) = Fin m x).
    { cbn [bigNumber]. apply of_string_toString. right. split; assumption. }
    split; [reflexivity |]. split.
    { rewrite Hint, of_string_toString by exact Hcan. cbv zeta. rewrite Hback. reflexivity. }
    rewrite Hread, Ha. split.
    + setoid_replace (toQ (Fin m x) - toQ (Fin m x))%Q with 0%Q by ring.
      change (Qabs 0) with 0%Q. apply Qmult_le_0_compat; [discriminate |].
      apply Qlt_le_weak, pow10Q_pos.
    + intros _. split; reflexivity.
  - (* the amount is rounded to [d] decimal places *)
    set (j := - (x + d)). assert (Hj : 0 < j) by (unfold j; lia).
    replace (- 0 - (x + d)) with j by (unfold j; lia).
    pose proof (Z.pow_pos_nonneg 10 j ltac:(lia) ltac:(lia)) as Hp.
    destruct (div_half_up_bounds m (10 ^ j) Hm Hp) as [Hq0 Hqb].
    set (q := div_half_up m (10 ^ j)) in *.
    change (- 0) with 0.
    assert (Hquot : exists R,
               dividedBy (mk q 0) (Fin 1 d) = R /\ canonical R /\ isNaN R = false /\
               (toQ R == inject_Z q * Qpower (inject_Z 10) (- d))%Q).
    { destruct (Z.eq_dec q 0) as [Hz | Hnz].
      - exists zero. rewrite Hz. change (mk 0 0) with zero.
        rewrite dividedBy_zero_pow10.
        split; [reflexivity |]. split; [left; split; reflexivity |].
        split; [reflexivity |].
        cbn [toQ zero]. change (inject_Z 0) with 0%Q. ring.
      - assert (Hqr : MIN_EXP <= exponent q 0 <= MAX_EXP).
        { unfold exponent. rewrite (Z.abs_eq q) by lia.
          pose proof (rounded_quotient_exponent m j Hm Hj ltac:(fold q; lia)) as Hb.
          fold q in Hb. destruct (ilog10_spec q ltac:(lia)) as [Hi0 _].
          unfold exponent in Hr, Hrange. rewrite (Z.abs_eq m) in Hr, Hrange by lia.
          unfold MIN_EXP, MAX_EXP in *. unfold j in Hb. lia. }
        destruct (mk_value q 0 Hnz Hqr) as (q' & kq & Hkq & Hqq & Hq' & Hmk).
        assert (Hq'0 : q' <> 0) by (intro; subst q'; apply Hq'; reflexivity).
        exists (mk q (- d)). rewrite Hmk.
        rewrite dividedBy_pow10 by (unfold DECIMAL_PLACES in *; lia).
        split; [| split; [| split]].
        + rewrite Hqq. rewrite <- (mk_scale q' (0 + kq - d) kq) by assumption.
          f_equal. lia.
        + apply mk_is_canonical.
        + apply mk_not_nan.
        + apply toQ_mk; [exact Hnz |].
          unfold exponent in *. destruct (ilog10_spec (Z.abs q) ltac:(lia)) as [Hi0 _].
          unfold MIN_EXP, MAX_EXP, DECIMAL_PLACES in *. lia. }
    destruct Hquot as (R & HR & HcR & HnR & HvR).
    exists (toString (mk q 0)), (toString R).
    split; [reflexivity |]. split.
    { rewrite Hint, of_string_toString by apply mk_is_canonical.
      cbv zeta. rewrite HR, HnR. reflexivity. }
    split.
    + cbn [bigNumber]. rewrite of_string_toString by exact HcR. rewrite Ha, HvR.
      cbn [toQ]. replace x with (- j - d) by (unfold j; lia).
      apply half_unit_bound; assumption.
    + intro Hx. lia.
Qed.

End RoundTripTheorem.

Section ConvertCurrency.

Import Currency.

Variable env : Env.

Lemma valid_amount_checks (amount : value) :
  valid_amount amount = true ->
  (negb (String.eqb (typeof amount) "number")
   && negb (String.eqb (typeof amount) "string") = false) /\
  match amount with
  | Str _ => BigNumber.isNaN (bigNumber amount) = false
  | Number x => PrimFloat.is_nan x = false
  | _ => False
  end.
Proof.
  destruct amount as [| | b | x | s | props]; try discriminate; intro H;
    (split; [reflexivity |]); apply negb_true_iff in H; exact H.
Qed.

(** C4: for every valid amount, converting between two currency codes
    that are the same after upper-casing and mainnet normalization (the
    same code [X] twice in particular, or TBTC and BTC) returns the amount
    itself, whatever the exchange-rate cache holds. *)
Theorem convertCurrency_same_currency (exchangeRates : rates)
    (amount : value) (fromCur toCur : string) :
  valid_amount amount = true ->
  ensureMainnetCode env (toUpperCase fromCur)
  = ensureMainnetCode env (toUpperCase toCur) ->
  convertCurrency env exchangeRates amount (Str fromCur) (Str toCur) = Ok amount
  /\ convertCurrency env exchangeRates amount (Str fromCur) (Str fromCur) = Ok amount
  /\ convertCurrency env exchangeRates amount (Str fromCur) (Str toCur)
     = convertCurrency env [] amount (Str fromCur) (Str toCur).
Proof.
  intros Hv Hsame.
  destruct (valid_amount_checks amount Hv) as [Htype Hnan].
  assert (H : forall table a b,
             ensureMainnetCode env (toUpperCase a) = ensureMainnetCode env (toUpperCase b) ->
             convertCurrency env table amount (Str a) (Str b) = Ok amount).
  { intros table a b Hab. unfold convertCurrency. rewrite Htype.
    destruct amount as [| | b0 | x | s | props]; try contradiction;
      rewrite Hnan; cbn [negb bind]; rewrite Hab, String.eqb_refl; reflexivity. }
  repeat split.
  - apply H, Hsame.
  - apply H. reflexivity.
  - rewrite !H by exact Hsame. reflexivity.
Qed.

Lemma usable_rate_truthy (exchangeRates : rates) (cur : string) :
  truthy (rate exchangeRates cur) = usable_rate exchangeRates cur.
Proof.
  unfold rate, usable_rate. destruct (lookup exchangeRates cur); reflexivity.
Qed.

(** After a successful lookup of a code that normalization leaves alone,
    the rate is the table's entry for the code. *)
Lemma getExchangeRate_stable (exchangeRates : rates) (cur : string) (r : value) :
  ensureMainnetCode env cur = cur ->
  getExchangeRate env exchangeRates cur = Ok r -> r = rate exchangeRates cur.
Proof.
  intros Hs. unfold getExchangeRate.
  destruct (negb (truthy (Str cur))); [discriminate |].
  destruct (isFiatCur env (Str cur)) as [fiat | e]; [| discriminate].
  cbn [bind]. rewrite Hs. destruct fiat; intro H; inversion H; reflexivity.
Qed.


(** What a successful conversion between two different currencies went
    through. *)
Lemma convertCurrency_inv (exchangeRates : rates) (amount : value)
    (fromCur toCur : string) (v : value) :
  ensureMainnetCode env (toUpperCase fromCur)
  <> ensureMainnetCode env (toUpperCase toCur) ->
  convertCurrency env exchangeRates amount (Str fromCur) (Str toCur) = Ok v ->
  valid_amount amount = true /\
  usable_rate exchangeRates (ensureMainnetCode env (toUpperCase fromCur)) = true /\
  usable_rate exchangeRates (ensureMainnetCode env (toUpperCase toCur)) = true /\
  exists fromRate toRate,
    getExchangeRate env exchangeRates (ensureMainnetCode env (toUpperCase fromCur))
    = Ok fromRate /\
    getExchangeRate env exchangeRates (ensureMainnetCode env (toUpperCase toCur))
    = Ok toRate /\
    v = converted amount fromRate toRate.
Proof.
  intros Hne H. unfold convertCurrency in H.
  apply String.eqb_neq in Hne.
  assert (Hv : valid_amount amount = true /\
               exists big, (match amount with
                            | Str _ =>
                                if BigNumber.isNaN (bigNumber amount)
                                then Throw (Error "The string based number evaluates to NaN.")
                                else Ok (Some (bigNumber amount))
                            | Number x =>
                                if PrimFloat.is_nan x
                                then Throw (Error "If providing an amount as a number, it cannot be NaN.")
                                else Ok None
                            | _ => Ok None
                            end) = Ok big /\
                           big = match amount with
                                 | Str _ => Some (bigNumber amount)
                                 | _ => None
                                 end).
  { destruct amount as [| | b | x | s | props]; try discriminate H.
    - cbn [typeof String.eqb negb andb valid_amount] in *.
      destruct (PrimFloat.is_nan x); [discriminate H |].
      split; [reflexivity |]. eexists; split; reflexivity.
    - cbn [valid_amount]. destruct (BigNumber.isNaN (bigNumber (Str s))).
      + discriminate H.
      + split; [reflexivity |]. eexists; split; reflexivity. }
  destruct Hv as [Hv (big & Hbig & Hbigv)].
  destruct (valid_amount_checks amount Hv) as [Htype _].
  rewrite Htype, Hbig in H. cbn [bind] in H. rewrite Hne in H.
  rewrite !usable_rate_truthy in H.
  destruct (usable_rate exchangeRates (ensureMainnetCode env (toUpperCase fromCur)));
    [| discriminate H].
  destruct (usable_rate exchangeRates (ensureMainnetCode env (toUpperCase toCur)));
    [| discriminate H].
  cbn [negb] in H.
  destruct (getExchangeRate env exchangeRates (ensureMainnetCode env (toUpperCase fromCur)))
    as [fromRate |]; [| discriminate H].
  destruct (getExchangeRate env exchangeRates (ensureMainnetCode env (toUpperCase toCur)))
    as [toRate |]; [| discriminate H].
  cbn [bind] in H.
  repeat split; try assumption. exists fromRate, toRate. repeat split.
  subst big. destruct amount; inversion H; try reflexivity; discriminate Hv.
Qed.

(** Between two different currencies: the two guards on the cache, the
    two lookups, and the quotient. *)
Lemma convertCurrency_distinct (exchangeRates : rates) (amount : value)
    (fromCur toCur : string) :
  valid_amount amount = true ->
  ensureMainnetCode env (toUpperCase fromCur)
  <> ensureMainnetCode env (toUpperCase toCur) ->
  convertCurrency env exchangeRates amount (Str fromCur) (Str toCur)
  = if negb (usable_rate exchangeRates (ensureMainnetCode env (toUpperCase fromCur)))
    then
      Throw (NoExchangeRateDataError
               ("We do not have exchange rate data for " ++ toUpperCase fromCur ++ "."))
    else if negb (usable_rate exchangeRates (ensureMainnetCode env (toUpperCase toCur)))
    then
      Throw (NoExchangeRateDataError
               ("We do not have exchange rate data for " ++ toUpperCase toCur ++ "."))
    else
      fromRate <-
        getExchangeRate env exchangeRates (ensureMainnetCode env (toUpperCase fromCur)) ;;
      toRate <-
        getExchangeRate env exchangeRates (ensureMainnetCode env (toUpperCase toCur)) ;;
      Ok (converted amount fromRate toRate).
Proof.
  intros Hv Hne.
  destruct (valid_amount_checks amount Hv) as [Htype Hnan].
  apply String.eqb_neq in Hne.
  unfold convertCurrency. rewrite Htype, <- !usable_rate_truthy.
  destruct amount as [| | b | x | s | props]; try contradiction;
    rewrite Hnan; cbn [bind]; rewrite Hne; reflexivity.
Qed.


(** C10: when [convertCurrency] returns for two codes that are different
    after normalization, the two rates it looked up are numbers of the
    cache that are neither zero nor NaN, so the division by the rate of
    the from-currency is not a division by zero; a cached rate of zero
    raises NoExchangeRateDataError as a missing one does.  Normalization
    to the mainnet code is taken to be idempotent. *)
Theorem convertCurrency_rates_nonzero (exchangeRates : rates) (amount : value)
    (fromCur toCur : string) (v : value) :
  let fromCurCode := ensureMainnetCode env (toUpperCase fromCur) in
  let toCurCode := ensureMainnetCode env (toUpperCase toCur) in
  (forall cur, ensureMainnetCode env (ensureMainnetCode env cur)
               = ensureMainnetCode env cur) ->
  fromCurCode <> toCurCode ->
  convertCurrency env exchangeRates amount (Str fromCur) (Str toCur) = Ok v ->
  (exists fromRate toRate : float,
     getExchangeRate env exchangeRates fromCurCode = Ok (Number fromRate) /\
     getExchangeRate env exchangeRates toCurCode = Ok (Number toRate) /\
     lookup exchangeRates fromCurCode = Some fromRate /\
     lookup exchangeRates toCurCode = Some toRate /\
     PrimFloat.is_zero fromRate = false /\ PrimFloat.is_nan fromRate = false /\
     PrimFloat.is_zero toRate = false /\ PrimFloat.is_nan toRate = false /\
     v = converted amount (Number fromRate) (Number toRate)) /\
  (forall (table : rates) (zero : float),
     PrimFloat.is_zero zero = true ->
     lookup table fromCurCode = Some zero \/ lookup table toCurCode = Some zero ->
     exists message,
       convertCurrency env table amount (Str fromCur) (Str toCur)
       = Throw (NoExchangeRateDataError message)).
Proof.
  intros fromCurCode toCurCode Hidem Hne H.
  destruct (convertCurrency_inv _ _ _ _ _ Hne H)
    as (Hv & Hf & Ht & fromRate & toRate & Hgf & Hgt & Hres).
  fold fromCurCode toCurCode in Hf, Ht, Hgf, Hgt.
  split.
  - pose proof (getExchangeRate_stable _ _ _ (Hidem _) Hgf) as Hfr.
    pose proof (getExchangeRate_stable _ _ _ (Hidem _) Hgt) as Htr.
    fold fromCurCode in Hfr. fold toCurCode in Htr.
    unfold usable_rate in Hf, Ht. unfold rate in Hfr, Htr.
    destruct (lookup exchangeRates fromCurCode) as [x |]; [| discriminate Hf].
    destruct (lookup exchangeRates toCurCode) as [y |]; [| discriminate Ht].
    apply negb_true_iff, orb_false_iff in Hf as [Hfz Hfn].
    apply negb_true_iff, orb_false_iff in Ht as [Htz Htn].
    exists x, y. subst fromRate toRate. repeat split; assumption.
  - intros table zero Hz Hin.
    rewrite (convertCurrency_distinct table amount fromCur toCur Hv Hne).
    fold fromCurCode toCurCode.
    destruct (usable_rate table fromCurCode) eqn:Hu; cbn [negb].
    + destruct Hin as [Hin | Hin].
      * unfold usable_rate in Hu. rewrite Hin, Hz in Hu. discriminate Hu.
      * unfold usable_rate. rewrite Hin, Hz. eexists. reflexivity.
    + eexists. reflexivity.
Qed.

End ConvertCurrency.

Section IntegerToDecimalErrors.

Import Currency.


End IntegerToDecimalErrors.

Section PriceFacts.

Import Price JSNumber.

Lemma get_set_same (props : list (string * value)) (k : string) (v : value) :
  get (set props k v) k = v.
Proof.
  induction props as [| [k' v'] rest IH]; cbn [set get].
  - rewrite String.eqb_refl. reflexivity.
  - destruct (String.eqb k' k) eqn:He; cbn [get].
    + rewrite String.eqb_refl. reflexivity.
    + rewrite He. exact IH.
Qed.

Lemma get_set_other (props : list (string * value)) (k k0 : string) (v : value) :
  k0 <> k -> get (set props k v) k0 = get props k0.
Proof.
  intro Hne. induction props as [| [k' v'] rest IH]; cbn [set get].
  - rewrite (proj2 (String.eqb_neq k k0)) by congruence. reflexivity.
  - destruct (String.eqb_spec k' k) as [-> | Hk]; cbn [get].
    + rewrite (proj2 (String.eqb_neq k k0)) by congruence. reflexivity.
    + destruct (String.eqb k' k0); [reflexivity | exact IH].
Qed.

(** C9: for every price object whose amount is a number,
    [convertPriceOut] returns the object with the amount replaced by the
    amount times 10^9, rounded, when the currency code is the string BTC,
    and by the amount times 10^2, rounded, for every other code, and with
    every other property as it was; an amount of 1 becomes 1000000000 for
    BTC and 100 for USD. *)
Theorem convertPriceOut_amount (props : list (string * value)) (amount : float) :
  get props "amount" = Number amount ->
  (exists props',
     convertPriceOut (Object props) = Ok (Object props') /\
     get props' "amount"
     = Number (Math_round
                 (if strict_eq (get props "currencyCode") (Str "BTC")
                  then (amount * 1000000000)%float
                  else (amount * 100)%float)) /\
     forall k, k <> "amount" -> get props' k = get props k) /\
  (exists price,
     convertPriceOut (Object [("amount", Number 1%float); ("currencyCode", Str "BTC")])
     = Ok (Object price) /\ get price "amount" = Number 1000000000%float) /\
  (exists price,
     convertPriceOut (Object [("amount", Number 1%float); ("currencyCode", Str "USD")])
     = Ok (Object price) /\ get price "amount" = Number 100%float).
Proof.
  intro Ha. split; [| split].
  - unfold convertPriceOut. cbn [is_object negb]. rewrite Ha.
    destruct (strict_eq (get props "currencyCode") (Str "BTC"));
      eexists; (split; [reflexivity |]); split;
      try apply get_set_same; intros k Hk; apply get_set_other; exact Hk.
  - eexists. split; vm_compute; reflexivity.
  - eexists. split; vm_compute; reflexivity.
Qed.

(** For a float that is not NaN, [x <= 0] fails exactly when [x > 0]. *)
Lemma float_le_zero (x : float) :
  PrimFloat.is_nan x = false ->
  PrimFloat.leb x 0 = negb (PrimFloat.ltb 0 x).
Proof.
  intro Hn. rewrite leb_spec, ltb_spec.
  change (Prim2SF 0) with (S754_zero false). unfold Prim2SF. rewrite Hn.
  destruct (PrimFloat.is_zero x); [reflexivity |].
  destruct (PrimFloat.is_infinity x); [destruct (PrimFloat.get_sign x); reflexivity |].
  destruct (Z.frexp x) as [r e]. destruct (shr_fexp _ _ _ _ _) as [shr e'].
  destruct (shr_m shr); try reflexivity; destruct (PrimFloat.get_sign x); reflexivity.
Qed.

(** C8: [validate] returns nothing exactly when the amount is a number
    greater than 0 and the currency code is given; otherwise it returns an
    error object that has messages under [amount] exactly when the amount
    is missing, not a number or not greater than 0, and under
    [currencyCode] exactly when the code is missing.  An amount of 0 gives
    an error keyed [amount], an amount of 5 with a code gives none. *)
Theorem validate_price (attrs : list (string * value)) :
  let amount_ok := is_number (get attrs "amount") && gt (get attrs "amount") 0 in
  let code_ok := truthy (get attrs "currencyCode") in
  (validate attrs = None <-> amount_ok = true /\ code_ok = true) /\
  (forall errObj, validate attrs = Some errObj ->
     (lookup_errors errObj "amount" <> None <-> amount_ok = false) /\
     (lookup_errors errObj "currencyCode" <> None <-> code_ok = false) /\
     (forall k msgs, lookup_errors errObj k = Some msgs -> msgs <> [])) /\
  (exists msgs,
     validate [("amount", Number 0%float); ("currencyCode", Str "USD")]
     = Some [("amount", msgs)]) /\
  validate [("amount", Number 5%float); ("currencyCode", Str "USD")] = None.
Proof.
  intros amount_ok code_ok.
  assert (Hamount :
            (if strict_eq (get attrs "amount") (Str "") then true
             else if negb (is_number (get attrs "amount")) then true
             else le (get attrs "amount") 0) = negb amount_ok).
  { subst amount_ok. destruct (get attrs "amount") as [| | b | x | s | props];
      try reflexivity.
    - cbn [strict_eq is_number gt le ToNumber].
      destruct (PrimFloat.is_nan x) eqn:Hn; [reflexivity |].
      cbn [negb andb]. apply float_le_zero. exact Hn.
    - cbn [strict_eq is_number negb andb]. destruct (String.eqb s ""); reflexivity. }
  unfold validate. fold code_ok.
  destruct (strict_eq (get attrs "amount") (Str "")) eqn:H1;
    [| destruct (negb (is_number (get attrs "amount"))) eqn:H2;
       [| destruct (le (get attrs "amount") 0) eqn:H3]];
    destruct code_ok; destruct amount_ok; try discriminate Hamount;
    cbn [negb addError String.eqb Ascii.eqb Bool.eqb length Nat.ltb Nat.leb];
    (split; [split; [intro H; discriminate H || (split; reflexivity)
                    | intros [Ha Hc]; discriminate Ha || discriminate Hc || reflexivity] |]);
    (split; [intros errObj He; inversion He; subst errObj;
             cbn [lookup_errors String.eqb Ascii.eqb Bool.eqb];
             repeat split; try (intros; discriminate); try reflexivity;
             try (intro H; exfalso; apply H; reflexivity);
             try (intros k msgs Hk;
                  repeat match type of Hk with
                         | (if ?c then _ else _) = _ => destruct c
                         end; inversion Hk; discriminate) |]);
    (split; [eexists; vm_compute; reflexivity | vm_compute; reflexivity]).
Qed.

End PriceFacts.

Section ExchangeRateCache.

Import Currency.

Lemma SFeqb_sym (a b : spec_float) : SFeqb a b = SFeqb b a.
Proof.
  unfold SFeqb, SFcompare.
  destruct a as [sa | sa | | sa ma ea], b as [sb | sb | | sb mb eb];
    try reflexivity; try (destruct sa, sb; reflexivity).
  change (Pos.compare_cont Eq ma mb) with (Pos.compare ma mb).
  change (Pos.compare_cont Eq mb ma) with (Pos.compare mb ma).
  destruct sa, sb; try reflexivity;
    destruct (Z.compare_spec ea eb), (Z.compare_spec eb ea);
    try lia; try reflexivity;
    destruct (Pos.compare_spec ma mb), (Pos.compare_spec mb ma);
    try lia; reflexivity.
Qed.

Lemma strict_eq_rate_sym (a b : rates) (cur : string) :
  strict_eq (rate a cur) (rate b cur) = strict_eq (rate b cur) (rate a cur).
Proof.
  unfold rate. destruct (lookup a cur) as [x |], (lookup b cur) as [y |];
    try reflexivity.
  cbn [strict_eq]. rewrite !FloatAxioms.eqb_spec. apply SFeqb_sym.
Qed.

Lemma differs_sym (a b : rates) (cur : string) : differs a b cur = differs b a cur.
Proof. unfold differs. rewrite strict_eq_rate_sym. reflexivity. Qed.

Lemma includes_In (xs : list string) (x : string) : includes xs x = true <-> In x xs.
Proof.
  unfold includes. rewrite existsb_exists. split.
  - intros (y & Hy & He). apply String.eqb_eq in He. subst y. exact Hy.
  - intro H. exists x. split; [exact H | apply String.eqb_refl].
Qed.

Lemma set_add_spec (changed : list string) (cur : string) :
  NoDup changed ->
  NoDup (set_add changed cur) /\
  forall c, In c (set_add changed cur) <-> In c changed \/ c = cur.
Proof.
  intro Hnd. unfold set_add. destruct (includes changed cur) eqn:Hi.
  - apply includes_In in Hi. split; [exact Hnd |].
    intro c. split; [intro H; left; exact H | intros [H | ->]; assumption].
  - assert (Hnot : ~ In cur changed).
    { intro H. apply includes_In in H. rewrite H in Hi. discriminate Hi. }
    split.
    + apply NoDup_app; [exact Hnd | constructor; [intros [] | constructor] |].
      intros c Hc [-> | []]. exact (Hnot Hc).
    + intro c. rewrite in_app_iff. cbn [In]. intuition congruence.
Qed.

(** One [forEach] loop adds exactly the keys it visits whose values differ. *)
Lemma fold_add_if_changed (a b : rates) (keys : list string) :
  forall changed, NoDup changed ->
    NoDup (fold_left (add_if_changed a b) keys changed) /\
    forall c, In c (fold_left (add_if_changed a b) keys changed)
              <-> In c changed \/ (In c keys /\ differs a b c = true).
Proof.
  induction keys as [| k keys IH]; intros changed Hnd.
  - cbn [fold_left]. split; [exact Hnd |]. intro c. cbn [In]. tauto.
  - cbn [fold_left].
    assert (Hstep : NoDup (add_if_changed a b changed k) /\
                    forall c, In c (add_if_changed a b changed k)
                              <-> In c changed \/ (c = k /\ differs a b c = true)).
    { unfold add_if_changed. fold (differs a b k).
      destruct (differs a b k) eqn:Hd.
      - destruct (set_add_spec changed k Hnd) as [H1 H2]. split; [exact H1 |].
        intro c. rewrite H2. split; [intros [H | ->]; auto | intros [H | [-> _]]; auto].
      - split; [exact Hnd |]. intro c. split; [auto |].
        intros [H | [-> H]]; [exact H | rewrite H in Hd; discriminate Hd]. }
    destruct Hstep as [Hnd' Hin]. destruct (IH _ Hnd') as [H1 H2].
    split; [exact H1 |]. intro c. rewrite H2, Hin. cbn [In].
    intuition (subst; auto).
Qed.

Lemma lookup_not_key {A : Type} (table : list (string * A)) (cur : string) :
  ~ In cur (map fst table) -> lookup table cur = None.
Proof.
  induction table as [| [k v] rest IH]; [reflexivity |]. cbn [map fst In lookup].
  intro H. destruct (String.eqb_spec k cur) as [-> | Hne].
  - exfalso. apply H. left. reflexivity.
  - apply IH. intro Hin. apply H. right. exact Hin.
Qed.

Lemma differs_key (a b : rates) (cur : string) :
  differs a b cur = true -> In cur (map fst a) \/ In cur (map fst b).
Proof.
  intro Hd. destruct (in_dec string_dec cur (map fst a)) as [Ha | Ha]; [left; exact Ha |].
  destruct (in_dec string_dec cur (map fst b)) as [Hb | Hb]; [right; exact Hb |].
  unfold differs, rate in Hd.
  rewrite (lookup_not_key a cur Ha), (lookup_not_key b cur Hb) in Hd. discriminate Hd.
Qed.

(** The set [changed] holds, once each, the keys whose value differs. *)
Lemma changed_keys_spec (exchangeRates data : rates) :
  NoDup (changed_keys exchangeRates data) /\
  forall cur, In cur (changed_keys exchangeRates data)
              <-> differs exchangeRates data cur = true.
Proof.
  unfold changed_keys.
  destruct (fold_add_if_changed exchangeRates data (map fst exchangeRates) []
              (NoDup_nil _)) as [H1 H2].
  destruct (fold_add_if_changed data exchangeRates (map fst data) _ H1) as [H3 H4].
  split; [exact H3 |]. intro cur. rewrite H4, H2. cbn [In].
  rewrite (differs_sym data exchangeRates cur). split.
  - intros [[[] | [_ H]] | [_ H]]; exact H.
  - intro H. destruct (differs_key _ _ _ H) as [Hk | Hk]; auto.
Qed.

Lemma rate_assign (table : rates) (k cur : string) (v : float) :
  rate (assign table k v) cur = if String.eqb cur k then Number v else rate table cur.
Proof.
  unfold rate. induction table as [| [k' v'] rest IH]; cbn [assign lookup].
  - rewrite (String.eqb_sym k cur). destruct (String.eqb cur k); reflexivity.
  - destruct (String.eqb_spec k' k) as [-> | Hk]; cbn [lookup].
    + rewrite (String.eqb_sym k cur). destruct (String.eqb cur k); reflexivity.
    + destruct (String.eqb_spec k' cur) as [-> | Hc].
      * rewrite (proj2 (String.eqb_neq cur k)) by exact Hk. reflexivity.
      * exact IH.
Qed.



Lemma float_eqb_refl (x : float) : PrimFloat.is_nan x = false -> PrimFloat.eqb x x = true.
Proof.
  intro Hn. rewrite FloatAxioms.eqb_spec. unfold Prim2SF. rewrite Hn.
  destruct (PrimFloat.is_zero x); [reflexivity |].
  destruct (PrimFloat.is_infinity x); [destruct (PrimFloat.get_sign x); reflexivity |].
  destruct (Z.frexp x) as [r e]. destruct (shr_fexp _ _ _ _ _) as [shr e'].
  destruct (shr_m shr) as [| p | p]; try reflexivity.
  unfold SFeqb, SFcompare.
  destruct (PrimFloat.get_sign x); rewrite Z.compare_refl;
    change (Pos.compare_cont Eq p p) with (Pos.compare p p);
    rewrite Pos.compare_refl; reflexivity.
Qed.





End ExchangeRateCache.

Section Divisibility.

Import Currency.

(** C2, amended: for a non-empty code of ASCII characters that is not the
    name of a member every object inherits, [getCoinDivisibility] consults
    one wallet-currency definition, the per-call one when it is given and
    the process-wide one only when it is not, and fails when there is
    neither; a code that the consulted definition contains has the
    divisibility declared there; any other code resolves, upper-cased, as
    fiat (2), else as a recognised wallet currency (its declared
    divisibility), else as a recognised crypto-listing currency (8), and
    is refused with UnrecognizedCurrencyError when no registry has it.
    With no override, USD resolves to 2 and BTC to 8. *)
Theorem getCoinDivisibility_resolution (env : Env) (currency : string)
    (walletCurDef : option (list (string * Z))) :
  currency <> "" ->
  ascii_only currency = true ->
  inherited_name currency = false ->
  getCoinDivisibility env (Str currency) walletCurDef
  = match
      match walletCurDef with
      | Some def => Some def
      | None => app_walletCurDef env
      end
    with
    | None =>
        Throw (Error ("The wallet currency definition must be provide as an object either "
                      ++ "passed in as an option or available on the app module."))
    | Some def =>
        match lookup def currency with
        | Some divisibility => Ok divisibility
        | None =>
            let cur := toUpperCase currency in
            if is_some (getCurrencyByCode env cur) then Ok 2
            else
              match getWalletCurByCode env cur with
              | Some walletCur => Ok (coinDivisibility walletCur)
              | None =>
                  if includes (getCryptoListingCurs env) cur then Ok 8
                  else Throw (UnrecognizedCurrencyError "The currency is not recognized.")
              end
        end
    end
  /\ getCoinDivisibility Sample.env (Str "USD") None = Ok 2
  /\ getCoinDivisibility Sample.env (Str "BTC") None = Ok 8.
Proof.
  intros Hne _ _. split; [| split; reflexivity].
  unfold getCoinDivisibility, getCurMeta.
  assert (Ht : truthy (Str currency) = true).
  { cbn [truthy]. apply negb_true_iff, String.eqb_neq. exact Hne. }
  rewrite Ht. cbn [negb].
  destruct walletCurDef as [def |]; cbn [or_else];
    [| destruct (app_walletCurDef env) as [def |]; [| reflexivity]];
    (destruct (lookup def currency) as [divisibility |]; [reflexivity |]);
    cbv zeta;
    (destruct (getCurrencyByCode env (toUpperCase currency)) as [fiat |];
     cbn [is_some orb negb bind isFiat]; [reflexivity |]);
    (destruct (getWalletCurByCode env (toUpperCase currency)) as [walletCur |];
     cbn [is_some orb negb bind isFiat isWalletCur curData or_else];
     [rewrite orb_true_r; reflexivity | rewrite orb_false_r]);
    destruct (includes (getCryptoListingCurs env) (toUpperCase currency));
    reflexivity.
Qed.

(** An upper-cased code is not the name of an inherited member, each of
    which has a small letter: the read of the wallet-currency definition
    that [formatCurrency] makes, with the upper-cased code, finds entries
    of the definition only. *)
Lemma upper_ascii_not_small (c : ascii) :
  (97 <=? nat_of_ascii (upper_ascii c))%nat && (nat_of_ascii (upper_ascii c) <=? 122)%nat
  = false.
Proof.
  destruct c as [[] [] [] [] [] [] [] []]; vm_compute; reflexivity.
Qed.

Lemma toUpperCase_no_small (s : string) :
  all_chars (fun c => negb ((97 <=? nat_of_ascii c)%nat && (nat_of_ascii c <=? 122)%nat))
    (toUpperCase s) = true.
Proof.
  induction s as [| c r IH]; [reflexivity |].
  cbn [toUpperCase all_chars]. rewrite IH, upper_ascii_not_small. reflexivity.
Qed.

Lemma inherited_name_small (k : string) :
  inherited_name k = true ->
  all_chars (fun c => negb ((97 <=? nat_of_ascii c)%nat && (nat_of_ascii c <=? 122)%nat)) k
  = false.
Proof.
  unfold inherited_name, includes. cbn [existsb]. intro H.
  repeat (apply orb_true_iff in H; destruct H as [H | H];
          [apply String.eqb_eq in H; subst k; vm_compute; reflexivity |]).
  discriminate H.
Qed.

Lemma inherited_name_upper (s : string) : inherited_name (toUpperCase s) = false.
Proof.
  destruct (inherited_name (toUpperCase s)) eqn:H; [| reflexivity].
  apply inherited_name_small in H. rewrite toUpperCase_no_small in H. discriminate H.
Qed.

Lemma reads_inherited_member_upper (walletCurDef : option (list (string * Z)))
    (s : string) :
  reads_inherited_member walletCurDef (toUpperCase s) = false.
Proof.
  unfold reads_inherited_member. rewrite inherited_name_upper.
  destruct walletCurDef; reflexivity.
Qed.

End Divisibility.

Section DisplayDecimals.

Import Currency JSNumber.

Variable env : Env.

Lemma isFormattedResultZero_positive (amount : value) (max : Z) :
  0 < max -> exists zero, isFormattedResultZero env amount max = Ok zero.
Proof.
  intro H. unfold isFormattedResultZero.
  rewrite (proj2 (Z.eqb_neq max 0)), (proj2 (Z.ltb_ge (max - 1) 0)) by lia.
  eexists. reflexivity.
Qed.

(** The loop stops at the first maximum from [max] on at which the amount
    does not display as zero, or at 20. *)
Lemma getMaxDisplayDigits_loop_spec (amount : value) (fuel : nat) :
  forall max,
    0 < max -> MAX_NUMBER_FORMAT_DISPLAY_DECIMALS - max <= Z.of_nat fuel ->
    exists max',
      getMaxDisplayDigits_loop env fuel amount max = Ok max' /\
      max <= max' /\
      (forall k, max <= k < max' ->
                 isFormattedResultZero env amount k = Ok true /\
                 k < MAX_NUMBER_FORMAT_DISPLAY_DECIMALS) /\
      (isFormattedResultZero env amount max' = Ok false \/
       MAX_NUMBER_FORMAT_DISPLAY_DECIMALS <= max').
Proof.
  unfold MAX_NUMBER_FORMAT_DISPLAY_DECIMALS.
  induction fuel as [| fuel IH]; intros max Hpos Hfuel;
    destruct (isFormattedResultZero_positive amount max Hpos) as [zero Hz];
    cbn [getMaxDisplayDigits_loop]; rewrite Hz; cbn [bind];
    unfold MAX_NUMBER_FORMAT_DISPLAY_DECIMALS;
    destruct (Z.ltb_spec max 20) as [Hlt | Hge];
    destruct zero; cbn [andb];
    try (exists max; repeat split; solve [lia | auto | intros; lia]).
  destruct (IH (max + 1) ltac:(lia) ltac:(lia)) as (max' & Hl & Hle & Hall & Hend).
  exists max'. repeat split; try assumption; try lia.
  - destruct (Z.eq_dec k max) as [-> | Hk]; [exact Hz | apply Hall; lia].
  - destruct (Z.eq_dec k max) as [-> | Hk]; [exact Hlt | apply Hall; lia].
Qed.

Lemma positive_not_zero (amount : value) :
  gt amount 0 = true -> strict_eq amount (Number 0%float) = false.
Proof.
  destruct amount as [| | b | x | s | props]; try reflexivity.
  unfold gt. cbn [ToNumber strict_eq]. rewrite ltb_spec, FloatAxioms.eqb_spec.
  change (Prim2SF 0) with (S754_zero false).
  destruct (Prim2SF x) as [sx | sx | | sx mx ex]; try discriminate;
    destruct sx; try discriminate; reflexivity.
Qed.

(** The formatter is called with the maximum that lines 363 to 384
    computed. *)
Lemma formatCurrency_maximum (amount : value) (currency : string)
    (options : FormatOptions) (r : formatted) (call : NumberFormatCall) :
  formatCurrency env amount (Str currency) options = Ok r ->
  call_of r = Some call ->
  formatCurrency_maxDisplayDecimals env amount (toUpperCase currency) options
  = Ok (maximumFractionDigits call).
Proof.
  unfold formatCurrency. intros H Hc.
  destruct (negb (String.eqb (typeof _) "string")); [discriminate H |].
  destruct (match getCurMeta env (Str (toUpperCase currency)) with
            | Ok m => Some m
            | Throw (UnrecognizedCurrencyError _) =>
                Some {| isFiat := false; isWalletCur := false;
                        isCryptoListingCur := true; curData := None |}
            | Throw _ => None
            end) as [m |].
  - destruct (formatCurrency_maxDisplayDecimals env amount (toUpperCase currency) options)
      as [max |]; [| discriminate H].
    cbn [bind] in H.
    repeat match type of H with
           | (if ?c then _ else _) = _ => destruct c
           | (let '(_, _) := ?p in _) = _ => destruct p
           end;
      inversion H; subst r; cbn [call_of] in Hc; inversion Hc; reflexivity.
  - inversion H; subst r. discriminate Hc.
Qed.


End DisplayDecimals.

(** ** The theorems at concrete inputs *)

Section Instances.

Import Currency.

Lemma decimal_integer_round_trip_witness :
  bigNumber (Str "1.005") = BigNumber.Fin 1005 (- 3) /\
  fst (isValidCoinDivisibility (Number 2%float)) = true /\
  exists s r : string,
    decimalToInteger (Str "1.005") (Number 2%float) = Ok s /\
    integerToDecimal (Str s) (Number 2%float) None = ([], Ok (Str r)).
Proof.
  assert (H1 : bigNumber (Str "1.005") = BigNumber.Fin 1005 (- 3))
    by (vm_compute; reflexivity).
  assert (H2 : fst (isValidCoinDivisibility (Number 2%float)) = true)
    by (vm_compute; reflexivity).
  split; [exact H1 |]. split; [exact H2 |].
  destruct (decimal_integer_round_trip (Str "1.005") (Number 2%float) 1005 (- 3) H1)
    as (s & r & Hs & Hr & _).
  - lia.
  - exact H2.
  - vm_compute. discriminate.
  - vm_compute. reflexivity.
  - exists s, r. split; assumption.
Defined.

(** C1 as stated fails at a divisibility above 20: the amount 4e-21 has
    21 decimal places, fewer than the divisibility 22; its base units are
    40, and 40 base units convert back to 0, off by forty units of the
    last place. *)
Lemma decimal_integer_round_trip_beyond_20 :
  fst (isValidCoinDivisibility (Number 22%float)) = true /\
  bigNumber (Str "0.000000000000000000004") = BigNumber.Fin 4 (- 21) /\
  decimalToInteger (Str "0.000000000000000000004") (Number 22%float) = Ok "40" /\
  integerToDecimal (Str "40") (Number 22%float) None = ([], Ok (Str "0")) /\
  bigNumber (Str "0") = BigNumber.Fin 0 0 /\
  ((1 # 2) * Qpower (inject_Z 10) (- 22)
   < Qabs (BigNumber.toQ (bigNumber (Str "0"))
           - BigNumber.toQ (bigNumber (Str "0.000000000000000000004"))))%Q.
Proof. repeat split; vm_compute; reflexivity. Qed.

Lemma getCoinDivisibility_resolution_witness :
  "ETH" <> "" /\
  ascii_only "ETH" = true /\
  inherited_name "ETH" = false /\
  getCoinDivisibility Sample.env (Str "ETH") (Some [("LTC", 6)]) = Ok 8.
Proof.
  assert (H : "ETH" <> "") by discriminate.
  split; [exact H |]. split; [reflexivity |]. split; [reflexivity |].
  destruct (getCoinDivisibility_resolution Sample.env "ETH" (Some [("LTC", 6)]) H
              eq_refl eq_refl) as [Hr _].
  rewrite Hr. reflexivity.
Defined.

(** C2 as stated fails when a per-call definition is given that lacks the
    code: the process-wide definition, which declares 5 for BTC, is not
    consulted, and BTC resolves through the registry to 8. *)
Lemma getCoinDivisibility_skips_process_wide_definition :
  app_walletCurDef Sample.envWithDef = Some [("BTC", 5)] /\
  lookup [("LTC", 8)] "BTC" = None /\
  getCoinDivisibility Sample.envWithDef (Str "BTC") (Some [("LTC", 8)]) = Ok 8 /\
  getCoinDivisibility Sample.envWithDef (Str "BTC") None = Ok 5.
Proof. repeat split. Qed.



Lemma convertCurrency_same_currency_witness :
  valid_amount (Str "2.5") = true /\
  convertCurrency Sample.env [] (Str "2.5") (Str "tbtc") (Str "BTC") = Ok (Str "2.5").
Proof.
  assert (H : valid_amount (Str "2.5") = true) by (vm_compute; reflexivity).
  split; [exact H |].
  apply (convertCurrency_same_currency Sample.env [] (Str "2.5") "tbtc" "BTC" H).
  reflexivity.
Defined.







Lemma convertPriceOut_amount_witness :
  get [("amount", Number 0.07%float); ("currencyCode", Str "USD")] "amount"
  = Number 0.07%float /\
  exists props',
    Price.convertPriceOut
      (Object [("amount", Number 0.07%float); ("currencyCode", Str "USD")])
    = Ok (Object props') /\
    get props' "amount" = Number 7%float.
Proof.
  split; [reflexivity |].
  destruct (convertPriceOut_amount
              [("amount", Number 0.07%float); ("currencyCode", Str "USD")]
              0.07%float eq_refl) as [(props' & Hc & Ha & _) _].
  exists props'. split; [exact Hc |]. rewrite Ha. vm_compute. reflexivity.
Defined.

(** Normalization in the sample environment is idempotent. *)
Lemma mainnetCode_idempotent (cur : string) :
  Sample.mainnetCode (Sample.mainnetCode cur) = Sample.mainnetCode cur.
Proof.
  assert (H : Sample.mainnetCode cur = "BTC" \/ Sample.mainnetCode cur = "LTC"
              \/ Sample.mainnetCode cur = cur).
  { unfold Sample.mainnetCode, Sample.walletCurrencies. cbn [Sample.findWalletCur].
    destruct (String.eqb "BTC" cur || String.eqb "TBTC" cur); [left; reflexivity |].
    destruct (String.eqb "LTC" cur || String.eqb "TLTC" cur); [right; left; reflexivity |].
    right; right; reflexivity. }
  destruct H as [H | [H | H]]; rewrite H; try reflexivity; exact H.
Qed.

Lemma convertCurrency_rates_nonzero_witness :
  convertCurrency Sample.env Sample.sampleRates (Str "2") (Str "eur") (Str "usd")
  = Ok (Str "2.5") /\
  exists fromRate toRate : float,
    lookup Sample.sampleRates "EUR" = Some fromRate /\
    lookup Sample.sampleRates "USD" = Some toRate /\
    PrimFloat.is_zero fromRate = false /\ PrimFloat.is_zero toRate = false.
Proof.
  assert (H : convertCurrency Sample.env Sample.sampleRates (Str "2") (Str "eur") (Str "usd")
              = Ok (Str "2.5")) by (vm_compute; reflexivity).
  split; [exact H |].
  destruct (convertCurrency_rates_nonzero Sample.env Sample.sampleRates (Str "2")
              "eur" "usd" (Str "2.5") mainnetCode_idempotent)
    as [(fromRate & toRate & _ & _ & Hf & Ht & Hfz & _ & Htz & _) _].
  - discriminate.
  - exact H.
  - exists fromRate, toRate. repeat split; assumption.
Defined.

End Instances.

(** ** Recognising a currency code *)

Section CurrencyMeta.

Import Currency.

Variable env : Env.

Lemma upper_ascii_idempotent (c : ascii) : upper_ascii (upper_ascii c) = upper_ascii c.
Proof. destruct c as [[] [] [] [] [] [] [] []]; reflexivity. Qed.

Lemma toUpperCase_idempotent (s : string) : toUpperCase (toUpperCase s) = toUpperCase s.
Proof.
  induction s as [| c s IH]; [reflexivity |].
  cbn [toUpperCase]. rewrite upper_ascii_idempotent, IH. reflexivity.
Qed.

Lemma toUpperCase_truthy (s : string) : truthy (Str (toUpperCase s)) = truthy (Str s).
Proof. destruct s; reflexivity. Qed.

(** The meta of a string depends on the string through its upper-case
    form and on whether it is empty. *)
Lemma getCurMeta_upper (s s' : string) :
  toUpperCase s = toUpperCase s' -> getCurMeta env (Str s) = getCurMeta env (Str s').
Proof.
  intro H. unfold getCurMeta.
  rewrite <- (toUpperCase_truthy s), <- (toUpperCase_truthy s'), H. reflexivity.
Qed.

(** X1: [getCurMeta], and [isFiatCur] with it, do not look at the case of
    the letters of a code: two codes with the same upper-case form get the
    same answer, and a code gets the answer of its upper-case form. *)
Theorem getCurMeta_ignores_case (s s' : string) :
  toUpperCase s = toUpperCase s' ->
  getCurMeta env (Str s) = getCurMeta env (Str s') /\
  isFiatCur env (Str s) = isFiatCur env (Str s') /\
  getCurMeta env (Str (toUpperCase s)) = getCurMeta env (Str s).
Proof.
  intro H. split; [| split].
  - apply getCurMeta_upper, H.
  - unfold isFiatCur. rewrite (getCurMeta_upper s s' H). reflexivity.
  - apply getCurMeta_upper, toUpperCase_idempotent.
Qed.

(** What a successful [getCurMeta] went through. *)
Lemma getCurMeta_inv (currency : value) (meta : CurMeta) :
  getCurMeta env currency = Ok meta ->
  exists s, currency = Str s /\ s <> "" /\
    meta = {| isFiat := is_some (getCurrencyByCode env (toUpperCase s));
              isWalletCur := is_some (getWalletCurByCode env (toUpperCase s));
              isCryptoListingCur := includes (getCryptoListingCurs env) (toUpperCase s);
              curData := or_else (getCurrencyByCode env (toUpperCase s))
                                 (getWalletCurByCode env (toUpperCase s)) |} /\
    (is_some (getCurrencyByCode env (toUpperCase s))
     || includes (getCryptoListingCurs env) (toUpperCase s)
     || is_some (getWalletCurByCode env (toUpperCase s))) = true.
Proof.
  unfold getCurMeta. destruct currency as [| | b | x | s | props]; try discriminate.
  destruct (truthy (Str s)) eqn:Ht; [| discriminate]. cbn [negb]. cbv zeta.
  destruct (is_some (getCurrencyByCode env (toUpperCase s))
            || includes (getCryptoListingCurs env) (toUpperCase s)
            || is_some (getWalletCurByCode env (toUpperCase s))) eqn:Hr;
    [| discriminate].
  cbn [negb]. intro H. inversion H. exists s.
  split; [reflexivity |]. split; [intros ->; discriminate Ht |].
  split; [reflexivity | exact Hr].
Qed.

(** X2: a meta that [getCurMeta] returns is that of a non-empty string
    that one registry at least recognises; its data is the fiat record when
    the code is fiat, whether or not it is a wallet currency too, and else
    the wallet record; it has no data exactly when the code is neither fiat
    nor a wallet currency, and then the code is a crypto-listing code. *)
Theorem getCurMeta_recognised (currency : value) (meta : CurMeta) :
  getCurMeta env currency = Ok meta ->
  exists s,
    currency = Str s /\ s <> "" /\
    (isFiat meta || isWalletCur meta || isCryptoListingCur meta) = true /\
    (isFiat meta = true -> curData meta = getCurrencyByCode env (toUpperCase s)) /\
    (isFiat meta = false -> curData meta = getWalletCurByCode env (toUpperCase s)) /\
    (curData meta = None <-> isFiat meta = false /\ isWalletCur meta = false) /\
    (curData meta = None -> isCryptoListingCur meta = true).
Proof.
  intro H. destruct (getCurMeta_inv currency meta H) as (s & Hs & Hne & Hm & Hr).
  exists s. split; [exact Hs |]. split; [exact Hne |]. subst meta.
  cbn [isFiat isWalletCur isCryptoListingCur curData].
  destruct (getCurrencyByCode env (toUpperCase s)) as [fiat |],
           (getWalletCurByCode env (toUpperCase s)) as [wallet |],
           (includes (getCryptoListingCurs env) (toUpperCase s));
    cbn [is_some or_else orb] in *; try discriminate Hr;
    repeat split; try reflexivity; try discriminate;
    try (intros [Ha Hb]; discriminate); try (intro Ha; discriminate Ha).
Qed.



End CurrencyMeta.

(** ** The two converters beyond their round trip *)

Section Converters.

Import BigNumber Currency.

(** Ten to a valid divisibility, which overflows beyond the exponent
    range. *)
Lemma pow_ten_valid (d : Z) :
  0 < d -> pow (Fin 1 1) d = if MAX_EXP <? d then Inf false else Fin 1 d.
Proof.
  intro Hd. cbn [pow]. rewrite Z.pow_1_l, Z.mul_1_l by lia.
  unfold mk. change (1 =? 0) with false. cbv iota.
  unfold exponent. change (ilog10 (Z.abs 1)) with 0. rewrite Z.add_0_r.
  destruct (Z.ltb_spec MAX_EXP d); [reflexivity |].
  rewrite (proj2 (Z.ltb_ge d MIN_EXP)) by (unfold MIN_EXP; lia).
  reflexivity.
Qed.

Lemma decimalToInteger_valid (amount divisibility : value) :
  includes ["number"; "string"] (typeof amount) = true ->
  fst (isValidCoinDivisibility divisibility) = true ->
  decimalToInteger amount divisibility
  = Ok (toString
          (decimalPlaces
             (multipliedBy (bigNumber amount)
                (pow (Fin 1 1) (integer_value divisibility))) 0)).
Proof.
  intros Ht Hv. unfold decimalToInteger. rewrite Ht. cbn [negb].
  destruct (isValidCoinDivisibility divisibility) as [b e].
  cbn [fst] in Hv. subst b. cbn [negb]. rewrite bigNumber_ten. reflexivity.
Qed.

Lemma integerToDecimal_valid (value divisibility : JS.value) :
  includes ["number"; "string"] (typeof value) = true ->
  fst (isValidCoinDivisibility divisibility) = true ->
  integerToDecimal value divisibility None
  = if isNaN (dividedBy (bigNumber value)
                (pow (Fin 1 1) (integer_value divisibility)))
    then ([console_error value "result is not a number"], Ok Undefined)
    else ([], Ok (Str (toString
                         (dividedBy (bigNumber value)
                            (pow (Fin 1 1) (integer_value divisibility)))))).
Proof.
  intros Ht Hv.
  assert (Hlog : template_throws value = false)
    by (destruct value; try discriminate Ht; reflexivity).
  unfold integerToDecimal, integerToDecimal_try. rewrite Ht. cbn [negb].
  destruct (isValidCoinDivisibility divisibility) as [b e].
  cbn [fst] in Hv. subst b. cbn [negb]. rewrite bigNumber_ten. cbv zeta.
  destruct (isNaN _); [rewrite Hlog |]; reflexivity.
Qed.

Lemma typeof_finite (v : value) (m x : Z) :
  bigNumber v = Fin m x -> includes ["number"; "string"] (typeof v) = true.
Proof. destruct v; try discriminate; reflexivity. Qed.

(** X5: for a number or a string and a valid divisibility,
    [decimalToInteger] does not throw; a value that [BigNumber] cannot
    read comes out as the string NaN, which [integerToDecimal] for its
    part refuses, and an infinite one as the name of the infinity, so the
    result is not in every case the notation of an integer.  What
    [BigNumber] cannot read is stated for the amounts of [plain_amount]:
    NaN, and the strings without white space, leading plus sign or base
    prefix that are not a decimal. *)
Theorem decimalToInteger_not_a_number (amount divisibility : value) :
  includes ["number"; "string"] (typeof amount) = true ->
  fst (isValidCoinDivisibility divisibility) = true ->
  exists s,
    decimalToInteger amount divisibility = Ok s /\
    (plain_amount amount = true -> bigNumber amount = NaN ->
     s = "NaN" /\
     integerToDecimal amount divisibility None
     = ([console_error amount "result is not a number"], Ok Undefined)) /\
    (forall negative, bigNumber amount = Inf negative ->
                      s = if negative then "-Infinity" else "Infinity").
Proof.
  intros Ht Hv. destruct (valid_divisibility _ Hv) as (dn & _ & _ & Hpos).
  rewrite (decimalToInteger_valid _ _ Ht Hv). eexists. split; [reflexivity |]. split.
  - intros _ Hn. rewrite (integerToDecimal_valid _ _ Ht Hv), Hn.
    split; reflexivity.
  - intros negative Hi. rewrite Hi, (pow_ten_valid _ Hpos).
    destruct (MAX_EXP <? integer_value divisibility);
      cbn [multipliedBy Z.eqb Z.ltb Z.compare decimalPlaces toString];
      rewrite xorb_false_r; reflexivity.
Qed.

Lemma div_half_up_opp (n d : Z) : div_half_up (- n) d = - div_half_up n d.
Proof. unfold div_half_up. rewrite Z.sgn_opp, Z.abs_opp. ring. Qed.

(** An integer quotient rounded half up is within a half of the exact
    quotient, whatever the sign. *)
Lemma nearest_integer_bound (m j : Z) :
  0 < j ->
  (Qabs (inject_Z (div_half_up m (10 ^ j)) - inject_Z m * Qpower (inject_Z 10) (- j))
   <= 1 # 2)%Q.
Proof.
  intro Hj.
  pose proof (Z.pow_pos_nonneg 10 j ltac:(lia) ltac:(lia)) as Hp.
  assert (Hpos : forall n, 0 < n ->
            (Qabs (inject_Z (div_half_up n (10 ^ j))
                   - inject_Z n * Qpower (inject_Z 10) (- j)) <= 1 # 2)%Q).
  { intros n Hn. destruct (div_half_up_bounds n (10 ^ j) Hn Hp) as [_ Hb].
    pose proof (half_unit_bound (div_half_up n (10 ^ j)) n j 0 Hj Hb) as H.
    change (Qpower (inject_Z 10) (- 0)) with 1%Q in H.
    replace (- j - 0) with (- j) in H by lia.
    rewrite !Qmult_1_r in H. exact H. }
  destruct (Z.lt_trichotomy m 0) as [Hneg | [-> | Hgt]].
  - replace m with (- - m) by lia. rewrite div_half_up_opp, !inject_Z_opp.
    setoid_replace (- inject_Z (div_half_up (- m) (10 ^ j))
                    - - inject_Z (- m) * Qpower (inject_Z 10) (- j))%Q
      with (- (inject_Z (div_half_up (- m) (10 ^ j))
               - inject_Z (- m) * Qpower (inject_Z 10) (- j)))%Q by ring.
    rewrite Qabs_opp. apply Hpos. lia.
  - change (div_half_up 0 (10 ^ j)) with (0 * ((2 * 0 + Z.abs (10 ^ j)) / (2 * Z.abs (10 ^ j)))).
    rewrite Z.mul_0_l.
    setoid_replace (inject_Z 0 - inject_Z 0 * Qpower (inject_Z 10) (- j))%Q with 0%Q by ring.
    discriminate.
  - apply Hpos, Hgt.
Qed.

Lemma multipliedBy_pow10 (m x d : Z) :
  m mod 10 <> 0 -> MIN_EXP <= exponent m x -> 0 <= d -> exponent m x + d <= MAX_EXP ->
  multipliedBy (Fin m x) (Fin 1 d) = Fin m (x + d).
Proof.
  intros Hm Hlo Hd Hhi. cbn [multipliedBy]. rewrite Z.mul_1_r.
  apply mk_canonical; [exact Hm |]. unfold exponent in *. lia.
Qed.

(** The integer [decimalToInteger] writes for a finite amount. *)
Lemma decimalToInteger_scaled (amount divisibility : value) (m x : Z) :
  bigNumber amount = Fin m x ->
  fst (isValidCoinDivisibility divisibility) = true ->
  integer_value divisibility <= MAX_EXP ->
  exponent m x + integer_value divisibility <= MAX_EXP ->
  decimalToInteger amount divisibility
  = Ok (toString
          (mk (if 0 <=? x + integer_value divisibility
               then m * 10 ^ (x + integer_value divisibility)
               else div_half_up m (10 ^ (- (x + integer_value divisibility)))) 0)).
Proof.
  intros Ha Hv HdM Hr.
  destruct (valid_divisibility _ Hv) as (dn & _ & _ & Hpos).
  set (d := integer_value divisibility) in *.
  pose proof (bigNumber_canonical amount) as Hc. rewrite Ha in Hc.
  rewrite (decimalToInteger_valid _ _ (typeof_finite _ _ _ Ha) Hv), Ha.
  fold d. rewrite (pow_ten_valid d Hpos).
  rewrite (proj2 (Z.ltb_ge MAX_EXP d)) by lia. do 2 f_equal.
  destruct Hc as [[-> ->] | [Hm10 Hrange]].
  - cbn [multipliedBy]. rewrite Z.mul_0_l. change (mk 0 (0 + d)) with zero.
    rewrite (proj2 (Z.leb_le 0 (0 + d))) by lia. rewrite Z.mul_0_l. reflexivity.
  - assert (Hm0 : m <> 0) by (intro; subst m; apply Hm10; reflexivity).
    rewrite multipliedBy_pow10 by (try assumption; lia).
    cbn [decimalPlaces]. change (- 0) with 0.
    destruct (Z.leb_spec 0 (x + d)) as [Hfits | Hfrac].
    + transitivity (mk m (x + d)).
      * symmetry. apply mk_canonical; [exact Hm10 |]. unfold exponent in *. lia.
      * rewrite <- (mk_scale m (x + d) (x + d) Hm0 Hfits). f_equal. lia.
    + replace (0 - (x + d)) with (- (x + d)) by lia. reflexivity.
Qed.

(** X6: for a finite amount [m * 10^x] and a valid divisibility [d] that
    keeps ten to the power [d] and the scaled amount within the exponent
    range of the package, [decimalToInteger] returns the notation of an
    integer [n], which [BigNumber] reads back as [n]: the amount times
    [10^d] itself when the amount has at most [d] decimal places, and else
    that product rounded to the nearest integer, a tie going away from
    zero; [n] is within a half of the product. *)
Theorem decimalToInteger_nearest_integer (amount divisibility : value) (m x : Z) :
  bigNumber amount = Fin m x ->
  fst (isValidCoinDivisibility divisibility) = true ->
  integer_value divisibility <= MAX_EXP ->
  exponent m x + integer_value divisibility <= MAX_EXP ->
  let d := integer_value divisibility in
  let n := if 0 <=? x + d then m * 10 ^ (x + d)
           else div_half_up m (10 ^ (- (x + d))) in
  decimalToInteger amount divisibility = Ok (toString (mk n 0)) /\
  bigNumber (Str (toString (mk n 0))) = mk n 0 /\
  (Qabs (inject_Z n - toQ (bigNumber amount) * Qpower (inject_Z 10) d) <= 1 # 2)%Q.
Proof.
  intros Ha Hv HdM Hr d n.
  split; [exact (decimalToInteger_scaled _ _ _ _ Ha Hv HdM Hr) |]. split.
  - cbn [bigNumber]. apply of_string_toString, mk_is_canonical.
  - rewrite Ha. cbn [toQ]. subst n.
    destruct (Z.leb_spec 0 (x + d)) as [Hfits | Hfrac].
    + setoid_replace (inject_Z (m * 10 ^ (x + d))
                      - inject_Z m * Qpower (inject_Z 10) x * Qpower (inject_Z 10) d)%Q
        with 0%Q; [discriminate |].
      rewrite inject_Z_mult, <- (Qpower10_inject (x + d) Hfits), Qpower10_add. ring.
    + setoid_replace (inject_Z m * Qpower (inject_Z 10) x * Qpower (inject_Z 10) d)%Q
        with (inject_Z m * Qpower (inject_Z 10) (- - (x + d)))%Q.
      * apply nearest_integer_bound. lia.
      * replace (- - (x + d)) with (x + d) by lia. rewrite Qpower10_add. ring.
Qed.

(** The notation of an integer that is not negative is made of digits
    alone below 10^21, and is exponential from there on. *)
Lemma toString_integer_digits (n : Z) :
  0 <= n -> exponent n 0 <= MAX_EXP ->
  (all_digits (toString (mk n 0)) = true <-> n < 10 ^ 21).
Proof.
  intros Hn Hr. destruct (Z.eq_dec n 0) as [-> | Hn0].
  - split; reflexivity.
  - destruct (ilog10_spec n ltac:(lia)) as (Hi & Hlo & Hhi).
    assert (Hrange : MIN_EXP <= exponent n 0 <= MAX_EXP).
    { unfold exponent in *. rewrite (Z.abs_eq n) in * by lia. unfold MIN_EXP. lia. }
    destruct (mk_value n 0 Hn0 Hrange) as (m' & k & Hk & Hnm & Hm10 & ->).
    pose proof (Z.pow_pos_nonneg 10 k ltac:(lia) Hk) as Hp.
    assert (Hm' : 1 <= m') by nia.
    destruct (digits_spec m' ltac:(lia)) as (Ha & _ & Hl).
    destruct (ilog10_spec m' Hm') as (Hi' & _).
    assert (He : ilog10 n = ilog10 m' + k)
      by (rewrite Hnm; apply ilog10_mul_pow10; assumption).
    cbn [toString]. rewrite (Z.abs_eq m') by lia.
    fold (slen (digits m')). rewrite Hl.
    rewrite (proj2 (Z.ltb_ge m' 0)) by lia.
    replace (0 + k + (ilog10 m' + 1) - 1) with (ilog10 n) by lia.
    unfold TO_EXP_NEG, TO_EXP_POS.
    rewrite (proj2 (Z.leb_gt (ilog10 n) (- 7))) by lia. cbn [orb].
    destruct (Z.leb_spec 21 (ilog10 n)) as [Hbig | Hsmall].
    + assert (H21 : 10 ^ 21 <= 10 ^ ilog10 n) by (apply Z.pow_le_mono_r; lia).
      split; [| intro; lia].
      unfold toExponential. rewrite (proj2 (Z.ltb_ge (ilog10 n) 0)) by lia.
      rewrite all_digits_app. change ("e+" ++ ?t) with (String "e" (String "+" t)).
      cbn [all_digits]. change (is_digit "e") with false. cbn [andb].
      rewrite andb_false_r. intro Hc. discriminate Hc.
    + assert (H21 : 10 ^ (ilog10 n + 1) <= 10 ^ 21) by (apply Z.pow_le_mono_r; lia).
      split; [intro; lia | intros _].
      unfold toFixedPoint. fold (slen (digits m')). rewrite Hl.
      rewrite (proj2 (Z.ltb_ge (ilog10 n) 0)) by lia.
      destruct (Z.ltb_spec (ilog10 m' + 1) (ilog10 n + 1)).
      * destruct (zeros_spec (Z.to_nat (ilog10 n + 1 - (ilog10 m' + 1)))) as (Hza & _).
        rewrite all_digits_app, Ha, Hza. reflexivity.
      * rewrite (proj2 (Z.ltb_ge (ilog10 n + 1) (ilog10 m' + 1))) by lia. exact Ha.
Qed.

(** X7: an amount that is not negative comes out of [decimalToInteger] as
    a string of digits alone exactly when the integer it denotes is below
    10^21; from 10^21 on the notation is the exponential one of
    [BigNumber.toString]. *)
Theorem decimalToInteger_digits (amount divisibility : value) (m x : Z) :
  bigNumber amount = Fin m x -> 0 <= m ->
  fst (isValidCoinDivisibility divisibility) = true ->
  integer_value divisibility <= MAX_EXP ->
  exponent m x + integer_value divisibility < MAX_EXP ->
  let d := integer_value divisibility in
  let n := if 0 <=? x + d then m * 10 ^ (x + d)
           else div_half_up m (10 ^ (- (x + d))) in
  exists s,
    decimalToInteger amount divisibility = Ok s /\
    (all_digits s = true <-> n < 10 ^ 21).
Proof.
  intros Ha Hm Hv HdM Hr d n.
  exists (toString (mk n 0)).
  split; [exact (decimalToInteger_scaled _ _ _ _ Ha Hv HdM ltac:(lia)) |].
  destruct (valid_divisibility _ Hv) as (dn & _ & _ & Hpos). fold d in Hpos, Hr.
  destruct (Z.eq_dec m 0) as [-> | Hm0].
  { assert (Hn : n = 0).
    { subst n. destruct (0 <=? x + d); [apply Z.mul_0_l | reflexivity]. }
    rewrite Hn. split; reflexivity. }
  apply toString_integer_digits; subst n.
  - destruct (Z.leb_spec 0 (x + d)) as [Hfits | Hfrac].
    + pose proof (Z.pow_pos_nonneg 10 (x + d) ltac:(lia) Hfits). nia.
    + pose proof (Z.pow_pos_nonneg 10 (- (x + d)) ltac:(lia) ltac:(lia)) as Hp.
      apply (div_half_up_bounds m _ ltac:(lia) Hp).
  - unfold exponent in *. rewrite (Z.abs_eq m) in Hr by lia.
    destruct (Z.leb_spec 0 (x + d)) as [Hfits | Hfrac].
    + pose proof (Z.pow_pos_nonneg 10 (x + d) ltac:(lia) Hfits) as Hp.
      rewrite Z.abs_eq by nia.
      rewrite ilog10_mul_pow10 by lia. lia.
    + pose proof (Z.pow_pos_nonneg 10 (- (x + d)) ltac:(lia) ltac:(lia)) as Hp.
      destruct (div_half_up_bounds m _ ltac:(lia) Hp) as [Hq0 _].
      rewrite Z.abs_eq by exact Hq0.
      destruct (Z.eq_dec (div_half_up m (10 ^ (- (x + d)))) 0) as [-> | Hq].
      * change (ilog10 0) with 0. unfold MAX_EXP. lia.
      * pose proof (rounded_quotient_exponent m (- (x + d)) ltac:(lia) ltac:(lia)
                      ltac:(lia)) as Hb.
        lia.
Qed.

(** X8: the other round trip.  For an integer (a number or string that
    [BigNumber] reads with no decimal place) and a valid divisibility [d]
    of at most 20, [integerToDecimal] returns, without logging, the
    notation of exactly the integer divided by [10^d], and
    [decimalToInteger] turns that notation back into the notation of the
    integer. *)
Theorem integer_decimal_round_trip (value divisibility : JS.value) (m x : Z) :
  bigNumber value = Fin m x -> 0 <= x ->
  fst (isValidCoinDivisibility divisibility) = true ->
  integer_value divisibility <= DECIMAL_PLACES ->
  exists r : string,
    integerToDecimal value divisibility None = ([], Ok (Str r)) /\
    (toQ (bigNumber (Str r))
     == toQ (bigNumber value) * Qpower (inject_Z 10) (- integer_value divisibility))%Q /\
    decimalToInteger (Str r) divisibility = Ok (toString (bigNumber value)).
Proof.
  intros Ha Hx Hv Hd.
  destruct (valid_divisibility _ Hv) as (dn & _ & _ & Hpos).
  set (d := integer_value divisibility) in *.
  pose proof (bigNumber_canonical value) as Hc. rewrite Ha in Hc.
  assert (Hten : pow (Fin 1 1) d = Fin 1 d).
  { rewrite (pow_ten_valid d Hpos).
    rewrite (proj2 (Z.ltb_ge MAX_EXP d)) by (unfold DECIMAL_PLACES, MAX_EXP in *; lia).
    reflexivity. }
  assert (Hint : integerToDecimal value divisibility None
                 = if isNaN (dividedBy (Fin m x) (Fin 1 d))
                   then ([console_error value "result is not a number"], Ok Undefined)
                   else ([], Ok (Str (toString (dividedBy (Fin m x) (Fin 1 d)))))).
  { rewrite (integerToDecimal_valid _ _ (typeof_finite _ _ _ Ha) Hv), Ha.
    fold d. rewrite Hten. reflexivity. }
  assert (Hdec : forall q, canonical q ->
            decimalToInteger (Str (toString q)) divisibility
            = Ok (toString (decimalPlaces (multipliedBy q (Fin 1 d)) 0))).
  { intros q Hq. rewrite (decimalToInteger_valid (Str (toString q)) _ eq_refl Hv). fold d.
    rewrite Hten. cbn [bigNumber]. rewrite of_string_toString by exact Hq. reflexivity. }
  rewrite Hint, Ha.
  destruct Hc as [[-> ->] | [Hm10 Hrange]].
  - (* zero *)
    fold zero. rewrite dividedBy_zero_pow10. cbn [isNaN zero].
    exists (toString (Fin 0 0)). split; [reflexivity |]. split.
    + cbn [bigNumber]. rewrite of_string_toString by (left; split; reflexivity).
      unfold zero. cbn [toQ]. change (inject_Z 0) with 0%Q. ring.
    + rewrite Hdec by (left; split; reflexivity).
      cbn [multipliedBy]. rewrite Z.mul_0_l. change (mk 0 (0 + d)) with (Fin 0 0).
      reflexivity.
  - assert (Hm0 : m <> 0) by (intro; subst m; apply Hm10; reflexivity).
    destruct (ilog10_spec (Z.abs m) ltac:(lia)) as [Hi _].
    assert (Hq : dividedBy (Fin m x) (Fin 1 d) = Fin m (x - d)).
    { rewrite dividedBy_pow10 by (unfold DECIMAL_PLACES in *; lia).
      apply mk_canonical; [exact Hm10 |].
      unfold exponent in *. unfold MIN_EXP, MAX_EXP, DECIMAL_PLACES in *. lia. }
    assert (Hcq : canonical (Fin m (x - d))).
    { right. split; [exact Hm10 |].
      unfold exponent in *. unfold MIN_EXP, MAX_EXP, DECIMAL_PLACES in *. lia. }
    rewrite Hq. cbn [isNaN].
    exists (toString (Fin m (x - d))). split; [reflexivity |]. split.
    + cbn [bigNumber]. rewrite of_string_toString by exact Hcq. cbn [toQ].
      replace (x - d) with (x + - d) by lia. rewrite Qpower10_add. ring.
    + rewrite Hdec by exact Hcq.
      rewrite multipliedBy_pow10;
        [| exact Hm10
         | unfold exponent in *; unfold MIN_EXP, DECIMAL_PLACES in *; lia
         | lia
         | unfold exponent in *; lia].
      replace (x - d + d) with x by lia. cbn [decimalPlaces].
      rewrite (proj2 (Z.leb_le (- 0) x)) by lia. reflexivity.
Qed.

End Converters.

(** ** Display decimals and the call to the number formatter *)

Section NumberFormat.

Import Currency JSNumber.

Variable env : Env.

(** What [getMaxDisplayDigits] returns for a maximum that is not
    negative. *)
Lemma getMaxDisplayDigits_spec (amount : value) (desiredMax : Z) :
  typeof amount = "number" \/ typeof amount = "string" ->
  0 <= desiredMax ->
  exists max,
    getMaxDisplayDigits env amount desiredMax = Ok max /\
    desiredMax <= max /\
    (forall k, desiredMax <= k < max ->
               isFormattedResultZero env amount k = Ok true /\ k < 20) /\
    (strict_eq amount (Number 0%float) = true -> max = desiredMax).
Proof.
  intros Htype Hd. unfold getMaxDisplayDigits.
  replace (negb (String.eqb (typeof amount) "number")
           && negb (String.eqb (typeof amount) "string")) with false
    by (destruct Htype as [-> | ->]; reflexivity).
  destruct (strict_eq amount (Number 0%float)).
  - exists desiredMax. repeat split; try lia; intros; lia.
  - destruct (Z.eqb_spec desiredMax 0) as [-> | Hne].
    + exists 0. repeat split; try lia; intros; lia.
    + destruct (getMaxDisplayDigits_loop_spec env amount
                  (Z.to_nat (MAX_NUMBER_FORMAT_DISPLAY_DECIMALS - desiredMax))
                  desiredMax ltac:(lia) ltac:(lia)) as (max & Hl & Hle & Hall & _).
      exists max. unfold MAX_NUMBER_FORMAT_DISPLAY_DECIMALS in Hall.
      repeat split; try assumption; try (apply Hall; assumption).
      intro Hc. discriminate Hc.
Qed.

(** X9: for an amount that is a number or a string and a desired maximum
    that is not negative, [getMaxDisplayDigits] returns a maximum that is
    never below the desired one and never above the larger of the desired
    one and 20; it is the desired one for the number 0 and from 20 on, and
    when it is a larger one the amount displays as zero at the desired
    maximum. *)
Theorem getMaxDisplayDigits_bounds (amount : value) (desiredMax : Z) :
  typeof amount = "number" \/ typeof amount = "string" ->
  0 <= desiredMax ->
  exists max,
    getMaxDisplayDigits env amount desiredMax = Ok max /\
    desiredMax <= max <= Z.max desiredMax 20 /\
    (desiredMax < max -> isFormattedResultZero env amount desiredMax = Ok true) /\
    (strict_eq amount (Number 0%float) = true \/ 20 <= desiredMax -> max = desiredMax).
Proof.
  intros Htype Hd.
  destruct (getMaxDisplayDigits_spec amount desiredMax Htype Hd)
    as (max & Hr & Hle & Hall & Hzero).
  assert (Hup : max <= Z.max desiredMax 20).
  { destruct (Z.eq_dec max desiredMax) as [-> | Hne]; [lia |].
    destruct (Hall (max - 1) ltac:(lia)) as [_ Hk]. lia. }
  exists max. split; [exact Hr |]. split; [lia |]. split.
  - intro Hlt. apply (Hall desiredMax). lia.
  - intros [Hz | Hbig]; [apply Hzero, Hz |].
    destruct (Z.eq_dec max desiredMax) as [-> | Hne]; [reflexivity |].
    destruct (Hall desiredMax ltac:(lia)) as [_ Hk]. lia.
Qed.

Lemma getMaxDisplayDigits_negative (amount : value) (desiredMax : Z) :
  typeof amount = "number" \/ typeof amount = "string" ->
  strict_eq amount (Number 0%float) = false -> desiredMax < 0 ->
  getMaxDisplayDigits env amount desiredMax = Throw (RangeError "Invalid count value").
Proof.
  intros Htype Hz Hd. unfold getMaxDisplayDigits.
  replace (negb (String.eqb (typeof amount) "number")
           && negb (String.eqb (typeof amount) "string")) with false
    by (destruct Htype as [-> | ->]; reflexivity).
  rewrite Hz, (proj2 (Z.eqb_neq desiredMax 0)) by lia.
  assert (Hf : isFormattedResultZero env amount desiredMax
               = Throw (RangeError "Invalid count value")).
  { unfold isFormattedResultZero.
    rewrite (proj2 (Z.eqb_neq desiredMax 0)), (proj2 (Z.ltb_lt (desiredMax - 1) 0)) by lia.
    reflexivity. }
  destruct (Z.to_nat (MAX_NUMBER_FORMAT_DISPLAY_DECIMALS - desiredMax));
    cbn [getMaxDisplayDigits_loop]; rewrite Hf; reflexivity.
Qed.

(** The meta [formatCurrency] goes on with: that of [getCurMeta], or that
    of a crypto-listing code when the code is not recognised. *)
Lemma formatCurrency_meta (currency : string) :
  currency <> "" ->
  exists m,
    match getCurMeta env (Str (toUpperCase currency)) with
    | Ok m => Some m
    | Throw (UnrecognizedCurrencyError _) =>
        Some {| isFiat := false; isWalletCur := false;
                isCryptoListingCur := true; curData := None |}
    | Throw _ => None
    end = Some m.
Proof.
  intro Hne. unfold getCurMeta.
  destruct currency as [| c r]; [contradiction |].
  cbn [toUpperCase truthy String.eqb negb]. cbv zeta.
  destruct (negb _); eexists; reflexivity.
Qed.

(** X10: a negative maximum of display decimals is not clamped: for an
    amount greater than zero with the extension on, [getMaxDisplayDigits]
    throws the RangeError of the repetition of a zero a negative number of
    times, and [formatCurrency] throws it too, before any call to the
    number formatter. *)
Theorem formatCurrency_negative_maximum (amount : value) (currency : string)
    (options : FormatOptions) (n : Z) :
  maxDisplayDecimals options = Some n -> n < 0 ->
  gt amount 0 = true ->
  typeof amount = "number" \/ typeof amount = "string" ->
  truthy (default (extendMaxDecimalsOnZero options) (Bool true)) = true ->
  typeof (default (locale options) (or_value (app_lang env) (Str "en-US"))) = "string" ->
  currency <> "" ->
  exists message,
    getMaxDisplayDigits env amount n = Throw (RangeError message) /\
    formatCurrency env amount (Str currency) options = Throw (RangeError message).
Proof.
  intros Hn Hneg Hgt Htype Hext Hloc Hne.
  pose proof (getMaxDisplayDigits_negative amount n Htype
                (positive_not_zero amount Hgt) Hneg) as Hthrow.
  eexists. split; [exact Hthrow |].
  unfold formatCurrency. rewrite Hloc. cbn [String.eqb Ascii.eqb Bool.eqb negb].
  destruct (formatCurrency_meta currency Hne) as [m ->].
  unfold formatCurrency_maxDisplayDecimals. rewrite Hn, Hgt, Hext. cbn [andb].
  rewrite Hthrow. reflexivity.
Qed.

(** The maximum of lines 363 to 384 is at most 20, and not below a given
    maximum that is not negative, cut at 20. *)
Lemma formatCurrency_maxDisplayDecimals_range (amount : value) (cur : string)
    (options : FormatOptions) (k : Z) :
  formatCurrency_maxDisplayDecimals env amount cur options = Ok k ->
  k <= 20 /\
  forall n, maxDisplayDecimals options = Some n -> 0 <= n -> Z.min n 20 <= k.
Proof.
  unfold formatCurrency_maxDisplayDecimals, MAX_NUMBER_FORMAT_DISPLAY_DECIMALS.
  set (max0 := match maxDisplayDecimals options with
               | Some n => n
               | None => _
               end).
  intro H.
  assert (Hmax1 : exists max1,
             k = (if 20 <? max1 then 20 else max1) /\
             (0 <= max0 -> max0 <= max1)).
  { destruct (gt amount 0 && truthy (default (extendMaxDecimalsOnZero options) (Bool true))).
    - destruct (getMaxDisplayDigits env amount max0) as [max1 |] eqn:Hg; [| discriminate H].
      cbn [bind] in H. inversion H. exists max1. split; [reflexivity |]. intro H0.
      assert (Htype : typeof amount = "number" \/ typeof amount = "string").
      { unfold getMaxDisplayDigits in Hg.
        destruct amount; try discriminate Hg; [left | right]; reflexivity. }
      destruct (getMaxDisplayDigits_spec amount max0 Htype H0) as (max & Hr & Hle & _).
      rewrite Hg in Hr. inversion Hr. lia.
    - cbn [bind] in H. inversion H. exists max0. split; [reflexivity | lia]. }
  destruct Hmax1 as (max1 & -> & Hlow). split.
  - destruct (Z.ltb_spec 20 max1); lia.
  - intros n Hn H0. subst max0. rewrite Hn in Hlow.
    destruct (Z.ltb_spec 20 max1); lia.
Qed.

(** Every way [formatCurrency] returns, as far as the call goes. *)
Ltac formatCurrency_cases H :=
  repeat match type of H with
         | (if ?c then _ else _) = _ => destruct c eqn:?
         | (let '(_, _) := ?p in _) = _ => destruct p eqn:?
         end.

(** X11: whenever [formatCurrency] calls the number formatter, it is for
    the amount it was given (which the call first converts to the bitcoin
    unit, when it names one), with the chosen locale, with a maximum of
    decimals of at most 20 and not below a maximum the caller gave (cut at
    20), and with the minimum the caller gave. *)
Theorem formatCurrency_call (amount : value) (currency : string)
    (options : FormatOptions) (r : formatted) (call : NumberFormatCall) :
  formatCurrency env amount (Str currency) options = Ok r ->
  call_of r = Some call ->
  nf_amount call = amount /\
  nf_locale call = default (locale options) (or_value (app_lang env) (Str "en-US")) /\
  maximumFractionDigits call <= 20 /\
  (forall n, maxDisplayDecimals options = Some n -> 0 <= n ->
             Z.min n 20 <= maximumFractionDigits call) /\
  (forall n, minDisplayDecimals options = Some n -> minimumFractionDigits call = n).
Proof.
  intros Hr Hc.
  destruct (formatCurrency_maxDisplayDecimals_range _ _ _ _
              (formatCurrency_maximum env _ _ _ _ _ Hr Hc)) as [Hmax Hmin].
  split; [| split; [| split; [exact Hmax | split; [exact Hmin |]]]];
    unfold formatCurrency in Hr;
    (destruct (negb (String.eqb (typeof _) "string")); [discriminate Hr |]);
    (destruct (match getCurMeta env (Str (toUpperCase currency)) with
               | Ok m => Some m
               | Throw (UnrecognizedCurrencyError _) =>
                   Some {| isFiat := false; isWalletCur := false;
                           isCryptoListingCur := true; curData := None |}
               | Throw _ => None
               end) as [m |]; [| inversion Hr; subst r; discriminate Hc]);
    (destruct (formatCurrency_maxDisplayDecimals env amount (toUpperCase currency) options)
       as [max |]; [| discriminate Hr]);
    cbn [bind] in Hr; formatCurrency_cases Hr;
    inversion Hr; subst r; cbn [call_of] in Hc; inversion Hc;
    try reflexivity; intros n Hn; cbn [minimumFractionDigits]; rewrite Hn; reflexivity.
Qed.

(** X12: [formatCurrency] returns the empty string for the empty currency
    code and for no other string: the error of [getCurMeta] for an empty
    code is logged and swallowed, and any other code is formatted. *)
Theorem formatCurrency_empty_code (amount : value) (currency : string)
    (options : FormatOptions) :
  typeof (default (locale options) (or_value (app_lang env) (Str "en-US"))) = "string" ->
  (formatCurrency env amount (Str currency) options = Ok Empty <-> currency = "").
Proof.
  intro Hloc. unfold formatCurrency. rewrite Hloc.
  cbn [String.eqb Ascii.eqb Bool.eqb negb]. split.
  - intro H. destruct currency as [| c rest]; [reflexivity |]. exfalso.
    destruct (formatCurrency_meta (String c rest) ltac:(discriminate)) as [m Hm].
    rewrite Hm in H.
    destruct (formatCurrency_maxDisplayDecimals env amount (toUpperCase (String c rest))
                options) as [max |]; [| discriminate H].
    cbn [bind] in H. formatCurrency_cases H; discriminate H.
  - intros ->. reflexivity.
Qed.

(** X13: a code of ASCII characters that no registry recognises is not an
    error for [formatCurrency]: it is formatted as a crypto-listing code,
    with no currency style and no unit conversion, a default minimum of 0
    decimals, and, unless the identifier is switched off, the upper-cased
    code itself as the identifier, cut to its first 8 characters and an
    ellipsis when it is longer. *)
Theorem formatCurrency_unrecognised (amount : value) (currency : string)
    (options : FormatOptions) (message : string) (r : formatted) :
  ascii_only currency = true ->
  getCurMeta env (Str (toUpperCase currency)) = Throw (UnrecognizedCurrencyError message) ->
  formatCurrency env amount (Str currency) options = Ok r ->
  exists call,
    r = (if truthy (default (includeCryptoCurIdentifier options) (Bool true))
         then Translated "cryptoCurrencyFormat.curCodeAmount" call "code"
                (if (8 <? String.length (toUpperCase currency))%nat
                 then substring 0 8 (toUpperCase currency) ++ "…"
                 else toUpperCase currency)
         else Formatted call) /\
    nf_currency call = None /\ convertUnit call = None /\ nf_amount call = amount /\
    minimumFractionDigits call = default (minDisplayDecimals options) 0.
Proof.
  intros _ Hmeta Hr. unfold formatCurrency in Hr. rewrite Hmeta in Hr.
  destruct (negb (String.eqb (typeof _) "string")); [discriminate Hr |].
  destruct (formatCurrency_maxDisplayDecimals env amount (toUpperCase currency) options)
    as [max |]; [| discriminate Hr].
  cbn [bind isFiat isWalletCur isCryptoListingCur] in Hr.
  destruct (truthy (default (includeCryptoCurIdentifier options) (Bool true)));
    inversion Hr; eexists; repeat split.
Qed.

(** X14: for a recognised code, the number formatter gets the currency
    style, with the code as it was written, only when the code is neither
    a wallet currency nor a crypto-listing code, so that a code that is
    fiat and a wallet currency is formatted as the wallet currency; the
    default minimum of decimals is 2 for a fiat code and 0 otherwise; the
    amount is converted to a bitcoin unit exactly for the wallet
    currencies BTC and TBTC; and the formatted number is wrapped in a
    translation exactly for a wallet or crypto-listing code with the
    identifier left on. *)
Theorem formatCurrency_style (amount : value) (currency : string)
    (options : FormatOptions) (meta : CurMeta) (r : formatted)
    (call : NumberFormatCall) :
  getCurMeta env (Str (toUpperCase currency)) = Ok meta ->
  formatCurrency env amount (Str currency) options = Ok r ->
  call_of r = Some call ->
  nf_currency call
  = (if isWalletCur meta || isCryptoListingCur meta then None else Some currency) /\
  minimumFractionDigits call
  = default (minDisplayDecimals options) (if isFiat meta then 2 else 0) /\
  is_some (convertUnit call)
  = isWalletCur meta
    && (String.eqb (toUpperCase currency) "BTC"
        || String.eqb (toUpperCase currency) "TBTC") /\
  (r = Formatted call <->
   (isWalletCur meta || isCryptoListingCur meta)
   && truthy (default (includeCryptoCurIdentifier options) (Bool true)) = false).
Proof.
  intros Hmeta Hr Hc. unfold formatCurrency in Hr. rewrite Hmeta in Hr.
  destruct (negb (String.eqb (typeof _) "string")); [discriminate Hr |].
  destruct (formatCurrency_maxDisplayDecimals env amount (toUpperCase currency) options)
    as [max |]; [| discriminate Hr].
  cbn [bind] in Hr.
  destruct (isWalletCur meta) eqn:Hw;
    [destruct (String.eqb (toUpperCase currency) "BTC"
               || String.eqb (toUpperCase currency) "TBTC") eqn:Hbtc
    | destruct (isCryptoListingCur meta) eqn:Hl];
    cbv beta iota zeta in Hr;
    repeat (match type of Hr with
            | context [if ?c then _ else _] => destruct c eqn:?
            end; cbv beta iota zeta in Hr);
    inversion Hr; subst r; cbn [call_of] in Hc; inversion Hc;
    cbn [nf_currency minimumFractionDigits convertUnit orb andb is_some];
    (split; [reflexivity |]); (split; [reflexivity |]); (split; [reflexivity |]);
    (split; [intro Hx; first [discriminate Hx | reflexivity]
            | intro Hx; first [discriminate Hx | reflexivity]]).
Qed.

End NumberFormat.

(** ** Fetching the same table again *)

Section FetchAgain.

Import Currency.

Lemma singleton_list (l : list string) (a : string) :
  NoDup l -> (forall c, In c l <-> c = a) -> l = [a].
Proof.
  intros Hnd Hin. destruct l as [| h t].
  - exfalso. apply (proj2 (Hin a) eq_refl).
  - assert (Hh : h = a) by (apply Hin; left; reflexivity). subst h.
    inversion Hnd as [| h' t' Hnot Hnd']; subst.
    destruct t as [| h2 t2]; [reflexivity |]. exfalso. apply Hnot.
    assert (h2 = a) by (apply Hin; right; left; reflexivity). subst h2.
    left. reflexivity.
Qed.

Lemma empty_list (l : list string) : (forall c, ~ In c l) -> l = [].
Proof.
  intro H. destruct l as [| h t]; [reflexivity |].
  exfalso. apply (H h). left. reflexivity.
Qed.

(** A table read at a key is equal to itself when it holds no NaN. *)
Lemma rate_strict_eq_refl (table : rates) (cur : string) :
  (forall k x, lookup table k = Some x -> PrimFloat.is_nan x = false) ->
  strict_eq (rate table cur) (rate table cur) = true.
Proof.
  intro Hnan. unfold rate. destruct (lookup table cur) as [x |] eqn:Hl; [| reflexivity].
  cbn [strict_eq]. apply float_eqb_refl. exact (Hnan cur x Hl).
Qed.

(** X15: when the table of a completed fetch is fetched again unchanged,
    and it holds no NaN (it comes from JSON), the cache stays what it was;
    no event is triggered when the table itself maps the pivot coin to 1,
    and otherwise, the pivot's 1 being an addition of the handler, the two
    events of a change of the pivot coin are triggered again, the second
    with 1 as the previous value. *)
Theorem fetchExchangeRates_done_again (env : Env) (exchangeRates data : rates) :
  (forall k x, lookup data k = Some x -> PrimFloat.is_nan x = false) ->
  let coin := property_key (fetch_coin env) in
  let next := fst (fetchExchangeRates_done env exchangeRates data) in
  fst (fetchExchangeRates_done env next data) = next /\
  snd (fetchExchangeRates_done env next data)
  = if strict_eq (rate data coin) (Number PrimFloat.one) then []
    else [exchange_rate_change [coin];
          exchange_rate_change_cur coin (Number PrimFloat.one)].
Proof.
  intros Hnan coin next. split; [reflexivity |].
  assert (Hnext : next = assign data coin PrimFloat.one) by reflexivity.
  destruct (changed_keys_spec next data) as [Hnd Hin].
  assert (Hdiff : forall cur,
             differs next data cur
             = String.eqb cur coin && negb (strict_eq (rate data coin) (Number PrimFloat.one))).
  { intro cur. unfold differs. rewrite strict_eq_rate_sym, Hnext, rate_assign.
    destruct (String.eqb_spec cur coin) as [-> | Hne]; cbn [andb].
    - reflexivity.
    - rewrite (rate_strict_eq_refl data cur Hnan). reflexivity. }
  assert (Hev : snd (fetchExchangeRates_done env next data)
                = match changed_keys next data with
                  | [] => []
                  | _ =>
                      exchange_rate_change (changed_keys next data)
                      :: map (fun cur => exchange_rate_change_cur cur (previous_rate next cur))
                           (changed_keys next data)
                  end) by reflexivity.
  rewrite Hev.
  destruct (strict_eq (rate data coin) (Number PrimFloat.one)) eqn:Hone.
  - rewrite (empty_list (changed_keys next data)); [reflexivity |].
    intros c Hc. apply Hin in Hc. rewrite Hdiff, andb_false_r in Hc. discriminate Hc.
  - rewrite (singleton_list (changed_keys next data) coin Hnd).
    + cbn [map]. unfold previous_rate.
      assert (Hl : rate next coin = Number PrimFloat.one).
      { rewrite Hnext, rate_assign, String.eqb_refl. reflexivity. }
      unfold rate in Hl. destruct (lookup next coin) as [x |]; [| discriminate Hl].
      inversion Hl. reflexivity.
    + intro c. rewrite Hin, Hdiff, andb_true_r. apply String.eqb_eq.
Qed.

End FetchAgain.

(** ** What [convertCurrency] accepts and what it hands back *)

Section ConvertCurrencyArguments.

Import Currency.

Variable env : Env.

Lemma typeof_converted (amount fromRate toRate : value) :
  valid_amount amount = true ->
  typeof (converted amount fromRate toRate) = typeof amount.
Proof. destruct amount; try discriminate; reflexivity. Qed.

(** X16: when [convertCurrency] returns, the amount was a number other
    than NaN or a string that [BigNumber] reads as a number, the two
    currencies were strings, and the result has the type of the amount: a
    number for a number, a string for a string. *)
Theorem convertCurrency_result_type (exchangeRates : rates)
    (amount fromCur toCur v : value) :
  convertCurrency env exchangeRates amount fromCur toCur = Ok v ->
  valid_amount amount = true /\
  typeof fromCur = "string" /\ typeof toCur = "string" /\
  typeof v = typeof amount.
Proof.
  intro H.
  assert (Hcur : exists from to, fromCur = Str from /\ toCur = Str to).
  { unfold convertCurrency in H.
    destruct (negb _ && negb _); [discriminate H |].
    destruct (match amount with
              | Str _ => _
              | Number x => _
              | _ => Ok None
              end) as [big |]; [| discriminate H].
    cbn [bind] in H.
    destruct fromCur as [| | b | x | from | props]; try discriminate H;
      destruct toCur as [| | b | x | to | props]; try discriminate H.
    exists from, to. split; reflexivity. }
  destruct Hcur as (from & to & -> & ->).
  destruct (string_dec (ensureMainnetCode env (toUpperCase from))
                       (ensureMainnetCode env (toUpperCase to))) as [Hsame | Hne].
  - assert (Hv : valid_amount amount = true /\ v = amount).
    { unfold convertCurrency in H. rewrite Hsame, String.eqb_refl in H.
      destruct amount as [| | b | x | s | props]; try discriminate H.
      - cbn [typeof String.eqb Ascii.eqb Bool.eqb negb andb valid_amount] in *.
        destruct (PrimFloat.is_nan x); [discriminate H |]. inversion H.
        split; reflexivity.
      - cbn [typeof String.eqb Ascii.eqb Bool.eqb negb andb valid_amount] in *.
        destruct (BigNumber.isNaN (bigNumber (Str s))); [discriminate H |].
        inversion H. split; reflexivity. }
    destruct Hv as [Hv ->]. repeat split; assumption.
  - destruct (convertCurrency_inv env _ _ _ _ _ Hne H)
      as (Hv & _ & _ & fromRate & toRate & _ & _ & ->).
    repeat split; try assumption. apply typeof_converted, Hv.
Qed.

(** X17: the arguments are checked before anything else, the amount
    first: an amount that is not valid is refused with an Error whatever
    the currencies are, the same currency twice included; then a
    from-currency that is not a string, then a to-currency that is not a
    string.  The refusal of an amount is stated for the amounts of
    [plain_amount], which [bigNumber] reads as the package does. *)
Theorem convertCurrency_rejects (exchangeRates : rates)
    (amount fromCur toCur : value) :
  (plain_amount amount = true -> valid_amount amount = false ->
   convertCurrency env exchangeRates amount fromCur toCur
   = Throw (Error
              (match amount with
               | Str _ => "The string based number evaluates to NaN."
               | Number _ => "If providing an amount as a number, it cannot be NaN."
               | _ => "The amount must be provided as a number or string."
               end))) /\
  (valid_amount amount = true -> typeof fromCur <> "string" ->
   convertCurrency env exchangeRates amount fromCur toCur
   = Throw (Error "Please provide a fromCur as a string")) /\
  (valid_amount amount = true -> typeof fromCur = "string" ->
   typeof toCur <> "string" ->
   convertCurrency env exchangeRates amount fromCur toCur
   = Throw (Error "Please provide a toCur as a string")).
Proof.
  split; [| split].
  - intros _ Hv. unfold convertCurrency.
    destruct amount as [| | b | x | s | props]; try reflexivity.
    + cbn [valid_amount] in Hv. apply negb_false_iff in Hv.
      cbn [typeof String.eqb Ascii.eqb Bool.eqb negb andb]. rewrite Hv. reflexivity.
    + cbn [valid_amount] in Hv. apply negb_false_iff in Hv.
      cbn [typeof String.eqb Ascii.eqb Bool.eqb negb andb]. rewrite Hv. reflexivity.
  - intros Hv Hf. destruct (valid_amount_checks amount Hv) as [Htype Hnan].
    unfold convertCurrency. rewrite Htype.
    destruct amount as [| | b | x | s | props]; try contradiction;
      rewrite Hnan; cbn [bind];
      destruct fromCur as [| | b' | x' | from | props']; try reflexivity;
      exfalso; apply Hf; reflexivity.
  - intros Hv Hf Ht. destruct (valid_amount_checks amount Hv) as [Htype Hnan].
    unfold convertCurrency. rewrite Htype.
    destruct amount as [| | b | x | s | props]; try contradiction;
      rewrite Hnan; cbn [bind];
      destruct fromCur as [| | b' | x' | from | props']; try discriminate Hf;
      destruct toCur as [| | b'' | x'' | to | props'']; try reflexivity;
      exfalso; apply Ht; reflexivity.
Qed.

End ConvertCurrencyArguments.

(** ** Converting and formatting in one call; the validity of a code *)

Section ConvertAndFormat.

Import Currency JSNumber.

Variable env : Env.




Lemma convertCurrency_same (exchangeRates : rates) (amount : value)
    (fromCur toCur : string) :
  valid_amount amount = true ->
  ensureMainnetCode env (toUpperCase fromCur) = ensureMainnetCode env (toUpperCase toCur) ->
  convertCurrency env exchangeRates amount (Str fromCur) (Str toCur) = Ok amount.
Proof.
  intros Hv Hsame. destruct (valid_amount_checks amount Hv) as [Htype Hnan].
  unfold convertCurrency. rewrite Htype.
  destruct amount as [| | b | x | s | props]; try contradiction;
    rewrite Hnan; cbn [negb bind]; rewrite Hsame, String.eqb_refl; reflexivity.
Qed.

(** What a code that [getCurrencyValidity] calls valid went through. *)
Lemma getCurrencyValidity_valid (getCurrencyByCodeDefault : string -> option CurData)
    (exchangeRates : rates) (cur : string) :
  (forall c, ensureMainnetCode env (ensureMainnetCode env c) = ensureMainnetCode env c) ->
  getCurrencyValidity env getCurrencyByCodeDefault exchangeRates (Str cur) = Ok "VALID" ->
  usable_rate exchangeRates (ensureMainnetCode env cur) = true /\
  getExchangeRate env exchangeRates (ensureMainnetCode env cur)
  = Ok (rate exchangeRates (ensureMainnetCode env cur)).
Proof.
  intros Hidem H. unfold getCurrencyValidity in H.
  destruct (getCurrencyByCodeDefault cur); [| discriminate H].
  destruct (getExchangeRate env exchangeRates (ensureMainnetCode env cur)) as [r |] eqn:Hr;
    [| discriminate H].
  cbn [bind] in H.
  pose proof (getExchangeRate_stable env _ _ _ (Hidem cur) Hr) as ->.
  rewrite <- usable_rate_truthy.
  destruct (truthy (rate exchangeRates (ensureMainnetCode env cur)));
    [split; reflexivity | discriminate H].
Qed.

(** X20: two codes that [getCurrencyValidity] calls VALID can be
    converted: when it answers VALID for two codes written in upper case,
    and normalization to the mainnet code is idempotent, [convertCurrency]
    returns for every valid amount: the amount itself when the two codes
    normalize to the same one, and amount / rate(from) * rate(to) on the
    cache's two rates otherwise. *)
Theorem valid_currencies_convert (getCurrencyByCodeDefault : string -> option CurData)
    (exchangeRates : rates) (amount : value) (fromCur toCur : string) :
  (forall c, ensureMainnetCode env (ensureMainnetCode env c) = ensureMainnetCode env c) ->
  toUpperCase fromCur = fromCur -> toUpperCase toCur = toCur ->
  valid_amount amount = true ->
  getCurrencyValidity env getCurrencyByCodeDefault exchangeRates (Str fromCur) = Ok "VALID" ->
  getCurrencyValidity env getCurrencyByCodeDefault exchangeRates (Str toCur) = Ok "VALID" ->
  convertCurrency env exchangeRates amount (Str fromCur) (Str toCur)
  = Ok (if String.eqb (ensureMainnetCode env fromCur) (ensureMainnetCode env toCur)
        then amount
        else converted amount (rate exchangeRates (ensureMainnetCode env fromCur))
                       (rate exchangeRates (ensureMainnetCode env toCur))).
Proof.
  intros Hidem Hf Ht Hv Hvf Hvt.
  destruct (getCurrencyValidity_valid _ _ _ Hidem Hvf) as [Huf Hgf].
  destruct (getCurrencyValidity_valid _ _ _ Hidem Hvt) as [Hut Hgt].
  destruct (String.eqb_spec (ensureMainnetCode env fromCur) (ensureMainnetCode env toCur))
    as [Hsame | Hne].
  - apply convertCurrency_same; [exact Hv |]. rewrite Hf, Ht. exact Hsame.
  - rewrite convertCurrency_distinct by (rewrite ?Hf, ?Ht; assumption).
    rewrite Hf, Ht, Huf, Hut. cbn [negb]. rewrite Hgf, Hgt. reflexivity.
Qed.

End ConvertAndFormat.

(** ** Amounts with their currency definition *)

Section CreateAmount.

Import Currency.

Variable env : Env.

(** X21: an amount that [createAmount] returns carries the code it was
    given, which is a non-empty string, and a valid divisibility, the one
    of the options when they give one; a string amount is handed back as
    it is, without being read as a number, and is not empty; a number
    amount is handed back as [decimalToInteger] writes it at that
    divisibility. *)
Theorem createAmount_result (amount curCode options_divisibility : value) (r : Amount) :
  createAmount env amount curCode options_divisibility = Ok r ->
  curCode = Str (currency_code r) /\ currency_code r <> "" /\
  fst (isValidCoinDivisibility (currency_divisibility r)) = true /\
  (strict_eq options_divisibility Undefined = false ->
   currency_divisibility r = options_divisibility) /\
  (typeof amount = "string" -> amount_amount r = amount /\ amount <> Str "") /\
  (typeof amount = "number" ->
   exists s, decimalToInteger amount (currency_divisibility r) = Ok s /\
             amount_amount r = Str s).
Proof.
  unfold createAmount. intro H.
  destruct (negb (String.eqb (typeof amount) "number"
                  || String.eqb (typeof amount) "string" && truthy amount)) eqn:Ha;
    [discriminate H |].
  destruct curCode as [| | b | x | c | props]; try discriminate H.
  destruct (negb (truthy (Str c))) eqn:Hc; [discriminate H |].
  set (divisibility := if strict_eq options_divisibility Undefined then _
                       else options_divisibility) in *.
  destruct (isValidCoinDivisibility divisibility) as [valid err] eqn:Hv.
  destruct valid; [| discriminate H]. cbn [negb] in H.
  assert (Hcode : c <> "").
  { intros ->. discriminate Hc. }
  assert (Hdiv : strict_eq options_divisibility Undefined = false ->
                 divisibility = options_divisibility).
  { intro Ho. subst divisibility. rewrite Ho. reflexivity. }
  destruct amount as [| | b | x | s | props]; try discriminate Ha.
  - cbn [typeof String.eqb Ascii.eqb Bool.eqb] in H.
    destruct (decimalToInteger (Number x) divisibility) as [s |] eqn:Hd;
      [| discriminate H].
    cbn [bind] in H. inversion H.
    cbn [currency_code currency_divisibility amount_amount].
    rewrite Hv.
    split; [reflexivity |]. split; [exact Hcode |]. split; [reflexivity |].
    split; [exact Hdiv |]. split; [intro Hs; discriminate Hs |].
    intros _. exists s. split; [exact Hd | reflexivity].
  - cbn [typeof String.eqb Ascii.eqb Bool.eqb bind] in H. inversion H.
    cbn [currency_code currency_divisibility amount_amount].
    rewrite Hv.
    split; [reflexivity |]. split; [exact Hcode |]. split; [reflexivity |].
    split; [exact Hdiv |]. split; [| intro Hs; discriminate Hs].
    intros _. split; [reflexivity |]. intro Hs. inversion Hs; subst s. discriminate Ha.
Qed.

(** X22: when the options give no divisibility and [getCoinDivisibility]
    throws, for a code that no registry recognises for one, the amount is
    created all the same, with the default divisibility of the
    crypto-listing currencies, 8: a number amount is written by
    [decimalToInteger] at 8, a non-empty string amount is kept.  The code
    is one of ASCII characters and not the name of a member every object
    inherits: for such a name the read of the definition finds that
    member, and the amount is refused. *)
Theorem createAmount_default_divisibility (amount : value) (curCode : string) (e : exn) :
  curCode <> "" ->
  ascii_only curCode = true ->
  inherited_name curCode = false ->
  getCoinDivisibility env (Str curCode) None = Throw e ->
  (typeof amount = "number" ->
   exists s,
     decimalToInteger amount (Number 8%float) = Ok s /\
     createAmount env amount (Str curCode) Undefined
     = Ok {| amount_amount := Str s; currency_code := curCode;
             currency_divisibility := Number 8%float |}) /\
  (typeof amount = "string" -> amount <> Str "" ->
   createAmount env amount (Str curCode) Undefined
   = Ok {| amount_amount := amount; currency_code := curCode;
           currency_divisibility := Number 8%float |}).
Proof.
  intros Hne _ Hown He.
  assert (Hc : negb (truthy (Str curCode)) = false).
  { destruct curCode; [contradiction | reflexivity]. }
  assert (Hi : reads_inherited_member (app_walletCurDef env) curCode = false).
  { unfold reads_inherited_member. rewrite Hown.
    destruct (app_walletCurDef env); reflexivity. }
  split.
  - intro Ht. destruct amount as [| | b | x | s | props]; try discriminate Ht.
    assert (Hv : fst (isValidCoinDivisibility (Number 8%float)) = true)
      by (vm_compute; reflexivity).
    pose proof (decimalToInteger_valid (Number x) (Number 8%float) eq_refl Hv) as Hd.
    eexists. split; [exact Hd |].
    unfold createAmount. cbn [typeof String.eqb Ascii.eqb Bool.eqb orb negb].
    rewrite Hc, Hi, He. cbn [strict_eq].
    change (Number (float_of_Z defaultCryptoCoinDivisibility)) with (Number 8%float).
    change (isValidCoinDivisibility (Number 8%float))
      with (true, "The coin divisibility must be an integer greater than 0").
    cbn [negb]. rewrite Hd. reflexivity.
  - intros Ht Hs. destruct amount as [| | b | x | s | props]; try discriminate Ht.
    assert (Hts : truthy (Str s) = true).
    { destruct s; [exfalso; apply Hs; reflexivity | reflexivity]. }
    unfold createAmount. rewrite Hts.
    cbn [typeof String.eqb Ascii.eqb Bool.eqb orb andb negb].
    rewrite Hc, Hi, He. cbn [strict_eq].
    change (Number (float_of_Z defaultCryptoCoinDivisibility)) with (Number 8%float).
    change (isValidCoinDivisibility (Number 8%float))
      with (true, "The coin divisibility must be an integer greater than 0").
    reflexivity.
Qed.

End CreateAmount.

(** ** Numbers written with two decimals and read back *)

Section FixedNotation.

Import BigNumber JSNumber.

Lemma digit_not_sign (c : ascii) :
  is_digit c = true -> Ascii.eqb c "-" = false /\ Ascii.eqb c "+" = false.
Proof.
  destruct c as [[] [] [] [] [] [] [] []]; intro H;
    try discriminate H; split; reflexivity.
Qed.

Lemma ilog10_nonneg (n : Z) : 0 <= n -> 0 <= ilog10 n.
Proof.
  intro Hn. destruct (Z.eq_dec n 0) as [-> | Hne]; [discriminate |].
  destruct (ilog10_spec n ltac:(lia)) as [H _]. exact H.
Qed.

(** The fixed notation of [n] with [f] decimals is an integer part of at
    least one digit, a point, and [f] digits, which together denote [n]. *)
Lemma fixed_notation_spec (n f : Z) :
  0 <= n -> 0 < f ->
  exists ip fp,
    fixed_notation n f = ip ++ String "." fp /\
    all_digits ip = true /\ all_digits fp = true /\
    0 < slen ip /\ slen fp = f /\ dval fp (dval ip 0) = n.
Proof.
  intros Hn Hf. unfold fixed_notation.
  rewrite (proj2 (Z.eqb_neq f 0)) by lia.
  destruct (digits_spec n Hn) as (Ha & Hv & Hl).
  pose proof (ilog10_nonneg n Hn) as Hi.
  fold (slen (digits n)).
  set (k := slen (digits n)) in *.
  set (str := if k <=? f then zeros (Z.to_nat (f + 1 - k)) ++ digits n else digits n).
  set (k' := if k <=? f then f + 1 else k).
  assert (Hstr : all_digits str = true /\ dval str 0 = n /\ slen str = k' /\ f < k').
  { subst str k'. destruct (Z.leb_spec k f) as [Hle | Hgt].
    - destruct (zeros_spec (Z.to_nat (f + 1 - k))) as (Hza & Hzl & Hzv).
      rewrite all_digits_app, Hza, Ha, dval_app, Hzv, Z.mul_0_l, Hv, slen_app, Hzl.
      repeat split; lia.
    - repeat split; try assumption; lia. }
  destruct Hstr as (Hsa & Hsv & Hsl & Hk').
  assert (Hk : (Z.to_nat (k' - f) <= String.length str)%nat)
    by (unfold slen in Hsl; lia).
  pose proof (substring_split str _ Hk) as Hsplit.
  pose proof (substring_length str _ Hk) as Hplen.
  replace (Z.to_nat f) with (String.length str - Z.to_nat (k' - f))%nat
    by (unfold slen in Hsl; lia).
  set (ip := substring 0 (Z.to_nat (k' - f)) str) in *.
  set (fp := substring (Z.to_nat (k' - f)) (String.length str - Z.to_nat (k' - f)) str) in *.
  exists ip, fp.
  assert (Hall : all_digits ip = true /\ all_digits fp = true).
  { rewrite <- Hsplit, all_digits_app in Hsa. apply andb_prop in Hsa. exact Hsa. }
  destruct Hall as [Hia Hfa].
  assert (Hil : slen ip = k' - f) by (unfold slen; rewrite Hplen; lia).
  assert (Hfl : slen str = slen ip + slen fp) by (rewrite <- slen_app, Hsplit; reflexivity).
  split; [reflexivity |]. split; [exact Hia |]. split; [exact Hfa |].
  split; [lia |]. split; [lia |].
  rewrite <- dval_app, Hsplit. exact Hsv.
Qed.

(** Reading back a signed fixed notation. *)
Lemma StringToNumber_fixed (negative : bool) (ip fp : string) :
  all_digits ip = true -> all_digits fp = true -> 0 < slen ip ->
  StringToNumber ((if negative then "-" else "") ++ ip ++ String "." fp)
  = let n := dval fp (dval ip 0) in
    let v := if n =? 0 then PrimFloat.zero else float_of_decimal n (- slen fp) in
    if negative then PrimFloat.opp v else v.
Proof.
  intros Hia Hfa Hil.
  assert (Hparse : parse_unsigned (ip ++ String "." fp)
                   = Some (dval fp (dval ip 0), - slen fp)).
  { rewrite <- (sapp_nil fp) at 1.
    rewrite parse_unsigned_fraction by (assumption || exact I).
    cbn [parse_exponent]. replace (0 - (0 + slen fp)) with (- slen fp) by lia.
    reflexivity. }
  destruct ip as [| c r]; [unfold slen in Hil; simpl in Hil; lia |].
  cbn [all_digits] in Hia. apply andb_prop in Hia as [Hc _].
  destruct (digit_not_sign c Hc) as [Hminus Hplus].
  unfold StringToNumber. destruct negative.
  - change ("-" ++ String c r ++ String "." fp)
      with (String "-" (String c r ++ String "." fp)).
    cbn [String.eqb starts_with Ascii.eqb Bool.eqb]. rewrite Hparse. reflexivity.
  - change ("" ++ String c r ++ String "." fp) with (String c (r ++ String "." fp)).
    change (String c r ++ String "." fp) with (String c (r ++ String "." fp)) in Hparse.
    cbn [String.eqb starts_with]. rewrite Hminus, Hplus, Hparse. reflexivity.
Qed.

(** Writing a finite float below 10^21 in magnitude with two decimals and
    reading the notation back gives the float nearest to [n / 100], for
    the integer [n] nearest to a hundred times the magnitude. *)
Lemma toFixed_read_back (x : float) (s : bool) (m : positive) (e : Z) :
  Prim2SF x = S754_finite s m e ->
  Qle_bool (inject_Z (10 ^ 21)) (Q_of_finite m e) = false ->
  StringToNumber (toFixed x 2)
  = let n := Qfloor (Q_of_finite m e * inject_Z 100 + (1 # 2)) in
    let v := if n =? 0 then PrimFloat.zero else float_of_decimal n (- 2) in
    if s then PrimFloat.opp v else v.
Proof.
  intros Hx Hsmall. unfold toFixed. rewrite Hx, Hsmall.
  change (inject_Z (10 ^ 2)) with (inject_Z 100).
  set (n := Qfloor (Q_of_finite m e * inject_Z 100 + (1 # 2))).
  assert (Hn : 0 <= n).
  { subst n. change 0 with (Qfloor 0). apply Qfloor_resp_le.
    assert (Hq : (0 <= Q_of_finite m e)%Q).
    { unfold Q_of_finite. destruct (0 <=? e).
      - rewrite <- (Zle_Qle 0). pose proof (Z.pow_nonneg 2 e ltac:(lia)). lia.
      - unfold Qle. cbn [Qnum Qden]. lia. }
    apply Qle_trans with (0 * inject_Z 100 + (1 # 2))%Q; [discriminate |].
    apply Qplus_le_compat; [| apply Qle_refl].
    apply Qmult_le_compat_r; [exact Hq | discriminate]. }
  destruct (fixed_notation_spec n 2 Hn ltac:(lia))
    as (ip & fp & -> & Hia & Hfa & Hil & Hfl & Hv).
  rewrite (StringToNumber_fixed s ip fp Hia Hfa Hil). cbv zeta.
  rewrite Hv, Hfl. reflexivity.
Qed.

End FixedNotation.

(** ** The Price model: its converters and its validation *)

Section PriceConverters.

Import Price JSNumber.

(** X23: for a price object whose amount is a number, [convertPriceIn]
    divides the amount by 10^9 when the currency code is the string BTC
    and by 100 otherwise, and keeps two decimals of the quotient: when the
    quotient is a finite float other than zero, below 10^21 in magnitude,
    the amount that comes back is the float nearest to [n / 100], with the
    sign of the quotient, for [n] the integer nearest to a hundred times
    the magnitude of the quotient (the larger one of two); every other
    property is as it was. *)
Theorem convertPriceIn_two_decimals (props : list (string * value)) (amount : float)
    (s : bool) (m : positive) (e : Z) :
  get props "amount" = Number amount ->
  Prim2SF (if strict_eq (get props "currencyCode") (Str "BTC")
           then (amount / 1000000000)%float else (amount / 100)%float)
  = S754_finite s m e ->
  Qle_bool (inject_Z (10 ^ 21)) (Q_of_finite m e) = false ->
  exists props',
    convertPriceIn (Object props) = Ok (Object props') /\
    (forall k, k <> "amount" -> get props' k = get props k) /\
    get props' "amount"
    = Number (let n := Qfloor (Q_of_finite m e * inject_Z 100 + (1 # 2)) in
              let v := if n =? 0 then PrimFloat.zero else float_of_decimal n (- 2) in
              if s then PrimFloat.opp v else v).
Proof.
  intros Ha Hx Hsmall. unfold convertPriceIn. cbn [is_object negb]. rewrite Ha.
  destruct (strict_eq (get props "currencyCode") (Str "BTC"));
    eexists; (split; [reflexivity |]);
    (split; [intros k Hk; apply get_set_other; exact Hk |]);
    rewrite get_set_same, (toFixed_read_back _ s m e Hx Hsmall); reflexivity.
Qed.

(** X24: the two converters refuse whatever is not an object, [null]
    included, with the same Error, and hand back unchanged a price whose
    amount is not a number (a missing amount, or one kept as a string). *)
Theorem price_converters_pass_through (price : value) :
  (is_object price = false ->
   convertPriceOut price = Throw (Error "Please provide a price object.") /\
   convertPriceIn price = Throw (Error "Please provide a price object.")) /\
  (forall props, price = Object props -> typeof (get props "amount") <> "number" ->
                 convertPriceOut price = Ok price /\ convertPriceIn price = Ok price) /\
  is_object Null = false.
Proof.
  split; [| split; [| reflexivity]].
  - intro H. unfold convertPriceOut, convertPriceIn. rewrite H. split; reflexivity.
  - intros props -> Ht. unfold convertPriceOut, convertPriceIn. cbn [is_object negb].
    destruct (get props "amount"); try (split; reflexivity).
    exfalso. apply Ht. reflexivity.
Qed.

(** X25: an error object of [validate] has the two fields amount and
    currencyCode at most, each with one message: for the amount, that a
    price is missing when it is the empty string, that it is not a number
    for any other value that is not a number (NaN and numeric strings
    included), and that it must be greater than 0 for a number that is
    not; for the currency code, that it is missing when it is falsy. *)
Theorem validate_messages (attrs : list (string * value)) (errObj : errors) :
  validate attrs = Some errObj ->
  (forall k msgs, lookup_errors errObj k = Some msgs ->
                  (k = "amount" \/ k = "currencyCode") /\ length msgs = 1%nat) /\
  lookup_errors errObj "amount"
  = (if strict_eq (get attrs "amount") (Str "") then Some ["Please provide a price."]
     else if negb (is_number (get attrs "amount"))
     then Some ["Please provide the price amount as a number."]
     else if le (get attrs "amount") 0 then Some ["The price must be greater than 0."]
     else None) /\
  lookup_errors errObj "currencyCode"
  = (if truthy (get attrs "currencyCode") then None
     else Some ["Please provide a currency code."]).
Proof.
  unfold validate.
  destruct (strict_eq (get attrs "amount") (Str ""));
    [| destruct (negb (is_number (get attrs "amount")));
       [| destruct (le (get attrs "amount") 0)]];
    destruct (truthy (get attrs "currencyCode"));
    cbn [negb addError String.eqb Ascii.eqb Bool.eqb length Nat.ltb Nat.leb];
    intro H; inversion H; subst errObj;
    (split; [| split; reflexivity]);
    intros k msgs Hk; cbn [lookup_errors] in Hk;
    repeat match type of Hk with
           | (if String.eqb ?a ?b then _ else _) = _ =>
               destruct (String.eqb_spec a b)
           end;
    inversion Hk; subst; split; auto.
Qed.

End PriceConverters.

(** ** The threshold of a display as zero *)

Section ZeroThreshold.

Import BigNumber Currency JSNumber.

Variable env : Env.

(** The string of a point, zeros and a one is read as a power of ten. *)
Lemma parseFloat_threshold (k : nat) :
  parseFloat ("." ++ zeros k ++ "1") = float_of_decimal 1 (- (Z.of_nat k + 1)).
Proof.
  destruct (zeros_spec k) as (Hza & Hzl & Hzv).
  assert (Hfa : all_digits (zeros k ++ "1") = true)
    by (rewrite all_digits_app, Hza; reflexivity).
  assert (Hparse : parse_unsigned (String "." (zeros k ++ "1"))
                   = Some (1, - (Z.of_nat k + 1))).
  { unfold parse_unsigned.
    rewrite (span_digits_stop (String "." (zeros k ++ "1")) 0 0) by reflexivity.
    cbn [starts_with Ascii.eqb Bool.eqb].
    rewrite <- (sapp_nil (zeros k ++ "1")) at 1.
    rewrite span_digits_all by (exact Hfa || exact I).
    rewrite dval_app, Hzv, Z.mul_0_l, slen_app, Hzl.
    change (dval "1" 0) with 1. change (slen "1") with 1.
    replace (0 <? 0 + (Z.of_nat k + 1)) with true by (symmetry; apply Z.ltb_lt; lia).
    change (0 <? 0) with false. cbn [orb parse_exponent].
    replace (0 - (0 + (Z.of_nat k + 1))) with (- (Z.of_nat k + 1)) by lia.
    reflexivity. }
  unfold parseFloat, StringToNumber.
  change ("." ++ zeros k ++ "1") with (String "." (zeros k ++ "1")).
  cbn [String.eqb starts_with Ascii.eqb Bool.eqb]. rewrite Hparse. reflexivity.
Qed.

(** X26: [isFormattedResultZero] answers yes for no decimals at all; for
    a positive number of decimals it compares the amount, rounded to that
    many decimals by [preciseRound], with the float nearest to ten to the
    power of minus that number, and answers yes when the rounded amount is
    below it, and so no when the rounded amount is NaN; for a negative
    number of decimals it throws a RangeError. *)
Theorem isFormattedResultZero_threshold (amount : value) (maxDecimals : Z) :
  (maxDecimals = 0 -> isFormattedResultZero env amount maxDecimals = Ok true) /\
  (maxDecimals < 0 ->
   exists message,
     isFormattedResultZero env amount maxDecimals = Throw (RangeError message)) /\
  (0 < maxDecimals ->
   isFormattedResultZero env amount maxDecimals
   = Ok (PrimFloat.ltb (preciseRound env amount maxDecimals)
           (float_of_decimal 1 (- maxDecimals))) /\
   (PrimFloat.is_nan (preciseRound env amount maxDecimals) = true ->
    isFormattedResultZero env amount maxDecimals = Ok false)).
Proof.
  split; [| split].
  - intros ->. reflexivity.
  - intro H. unfold isFormattedResultZero.
    rewrite (proj2 (Z.eqb_neq maxDecimals 0)), (proj2 (Z.ltb_lt (maxDecimals - 1) 0)) by lia.
    eexists. reflexivity.
  - intro H.
    assert (Heq : isFormattedResultZero env amount maxDecimals
                  = Ok (PrimFloat.ltb (preciseRound env amount maxDecimals)
                          (float_of_decimal 1 (- maxDecimals)))).
    { unfold isFormattedResultZero.
      rewrite (proj2 (Z.eqb_neq maxDecimals 0)), (proj2 (Z.ltb_ge (maxDecimals - 1) 0))
        by lia.
      rewrite parseFloat_threshold, Z2Nat.id by lia.
      replace (- (maxDecimals - 1 + 1)) with (- maxDecimals) by lia. reflexivity. }
    split; [exact Heq |]. intro Hnan. rewrite Heq. f_equal.
    rewrite ltb_spec. unfold Prim2SF at 1. rewrite Hnan. reflexivity.
Qed.

End ZeroThreshold.

(** ** Valid divisibilities, valid codes, valid prices *)

Section Validity.

Import Currency JSNumber.

(** X27: a coin divisibility is valid exactly when it is a number that
    denotes an integer greater than zero: no string, not even a numeric
    one, no other value that is not a number, and no number that is zero,
    negative, fractional, infinite or NaN. *)
Theorem isValidCoinDivisibility_iff (coinDivisibility : value) :
  fst (isValidCoinDivisibility coinDivisibility) = true <->
  exists (d : float) (n : Z),
    coinDivisibility = Number d /\ integer_of_float d = Some n /\ 0 < n.
Proof.
  split.
  - intro H. destruct (valid_divisibility _ H) as (d & Hd & Hi & Hpos).
    exists d, (integer_value coinDivisibility). repeat split; assumption.
  - intros (d & n & -> & Hi & Hpos).
    unfold isValidCoinDivisibility. cbn [fst Number_isInteger]. rewrite Hi.
    cbn [andb]. unfold gt. cbn [ToNumber]. rewrite ltb_spec.
    change (Prim2SF 0) with (S754_zero false).
    unfold integer_of_float in Hi.
    destruct (Prim2SF d) as [sz | si | | s m e]; try discriminate Hi.
    + inversion Hi. lia.
    + destruct s; [| reflexivity]. exfalso.
      destruct (Z.leb_spec 0 e) as [He | He].
      * assert (Hn : Z.neg m * 2 ^ e = n) by congruence.
        pose proof (Z.pow_pos_nonneg 2 e ltac:(lia) He) as Hp.
        pose proof (Z.mul_neg_pos (Z.neg m) (2 ^ e) ltac:(lia) Hp). lia.
      * destruct (Z.neg m mod 2 ^ (- e) =? 0); [| discriminate Hi].
        assert (Hn : Z.neg m / 2 ^ (- e) = n) by congruence.
        pose proof (Z.pow_pos_nonneg 2 (- e) ltac:(lia) ltac:(lia)) as Hp.
        assert (Z.neg m / 2 ^ (- e) < 0) by (apply Z.div_lt_upper_bound; lia).
        lia.
Qed.

Variable env : Env.

(** X28: [getCurrencyValidity] answers with one of three codes:
    UNRECOGNIZED_CURRENCY exactly for a string that the currency registry
    does not have, whatever the cache holds; VALID exactly for a code of
    the registry for whose mainnet code [getExchangeRate] returns a truthy
    rate; and EXCHANGE_RATE_MISSING otherwise.  It throws for a value that
    is not a string, and for a code of the registry whose mainnet code
    [getExchangeRate] refuses, with the exception of [getExchangeRate]. *)
Theorem getCurrencyValidity_answers
    (getCurrencyByCodeDefault : string -> option CurData)
    (exchangeRates : rates) (cur : value) :
  (forall code, getCurrencyValidity env getCurrencyByCodeDefault exchangeRates cur = Ok code ->
     exists c, cur = Str c /\
       (code = "VALID" \/ code = "EXCHANGE_RATE_MISSING" \/ code = "UNRECOGNIZED_CURRENCY") /\
       (code = "UNRECOGNIZED_CURRENCY" <-> getCurrencyByCodeDefault c = None) /\
       (code = "VALID" <->
        exists r, getCurrencyByCodeDefault c <> None /\
                  getExchangeRate env exchangeRates (ensureMainnetCode env c) = Ok r /\
                  truthy r = true)) /\
  (forall e, getCurrencyValidity env getCurrencyByCodeDefault exchangeRates cur = Throw e <->
     (typeof cur <> "string" /\ e = Error "A currency must be provided as a string.") \/
     (exists c, cur = Str c /\ getCurrencyByCodeDefault c <> None /\
                getExchangeRate env exchangeRates (ensureMainnetCode env c) = Throw e)).
Proof.
  unfold getCurrencyValidity. split.
  - intros code H. destruct cur as [| | b | x | c | props]; try discriminate H.
    exists c. split; [reflexivity |].
    destruct (getCurrencyByCodeDefault c) as [d |].
    + destruct (getExchangeRate env exchangeRates (ensureMainnetCode env c)) as [r |];
        [| discriminate H].
      cbn [bind] in H. destruct (truthy r) eqn:Ht; inversion H.
      * split; [left; reflexivity |]. split.
        -- split; intro Hc; discriminate Hc.
        -- split; [intros _ | reflexivity]. exists r.
           split; [discriminate | split; [reflexivity | exact Ht]].
      * split; [right; left; reflexivity |]. split.
        -- split; intro Hc; discriminate Hc.
        -- split; [intro Hc; discriminate Hc |].
           intros (r' & _ & Hr & Ht'). inversion Hr; subst r'.
           rewrite Ht in Ht'. discriminate Ht'.
    + inversion H. split; [right; right; reflexivity |]. split.
      * split; reflexivity.
      * split; [intro Hc; discriminate Hc |].
        intros (r & Hn & _). exfalso. apply Hn. reflexivity.
  - intro e. split.
    + destruct cur as [| | b | x | c | props];
        try (intro H; inversion H; left; split; [discriminate | reflexivity]).
      destruct (getCurrencyByCodeDefault c) as [d |] eqn:Hd; [| discriminate].
      destruct (getExchangeRate env exchangeRates (ensureMainnetCode env c))
        as [r | e'] eqn:Hg; [discriminate |].
      cbn [bind]. intro H. inversion H; subst e'. right. exists c.
      split; [reflexivity |]. split; [rewrite Hd; discriminate | exact Hg].
    + intros [[Ht ->] | (c & -> & Hn & He)].
      * destruct cur as [| | b | x | c | props]; try reflexivity.
        exfalso. apply Ht. reflexivity.
      * destruct (getCurrencyByCodeDefault c) as [d |]; [| exfalso; apply Hn; reflexivity].
        rewrite He. reflexivity.
Qed.

Import Price.

(** X29: a price that [validate] accepts is one that [convertPriceOut]
    converts: its amount is a number greater than zero, and what comes
    back is the price with its amount replaced by the amount times 10^9
    for the code BTC, and times 100 for any other code, rounded to an
    integer. *)
Theorem validated_price_converts (attrs : list (string * value)) :
  validate attrs = None ->
  exists amount : float,
    get attrs "amount" = Number amount /\
    PrimFloat.ltb 0 amount = true /\
    convertPriceOut (Object attrs)
    = Ok (Object (set attrs "amount"
                    (Number (Math_round
                               (if strict_eq (get attrs "currencyCode") (Str "BTC")
                                then (amount * 1000000000)%float
                                else (amount * 100)%float))))).
Proof.
  unfold validate. intro H.
  destruct (get attrs "amount") as [| | b | x | s | props] eqn:Ha;
    cbn [strict_eq is_number negb] in H;
    try (destruct (negb (truthy (get attrs "currencyCode"))); discriminate H).
  - exists x. split; [reflexivity |].
    assert (Hx : negb (PrimFloat.is_nan x) = true /\ le (Number x) 0 = false).
    { destruct (negb (PrimFloat.is_nan x)); cbn [negb] in H;
        [| destruct (negb (truthy (get attrs "currencyCode"))); discriminate H].
      destruct (le (Number x) 0);
        [destruct (negb (truthy (get attrs "currencyCode"))); discriminate H |].
      split; reflexivity. }
    destruct Hx as [Hn Hle]. apply negb_true_iff in Hn.
    unfold le in Hle. cbn [ToNumber] in Hle.
    rewrite (float_le_zero x Hn) in Hle. apply negb_false_iff in Hle.
    split; [exact Hle |].
    unfold convertPriceOut. cbn [is_object negb]. rewrite Ha.
    destruct (strict_eq (get attrs "currencyCode") (Str "BTC")); reflexivity.
  - destruct (String.eqb s "");
      destruct (negb (truthy (get attrs "currencyCode"))); discriminate H.
Qed.

End Validity.

(** ** The further theorems at concrete inputs *)

Section MoreInstances.

Import Currency JSNumber.

Lemma getCurMeta_ignores_case_witness :
  toUpperCase "btc" = toUpperCase "BTC" /\
  getCurMeta Sample.env (Str "btc") = getCurMeta Sample.env (Str "BTC") /\
  isFiatCur Sample.env (Str "btc") = isFiatCur Sample.env (Str "BTC") /\
  getCurMeta Sample.env (Str (toUpperCase "btc")) = getCurMeta Sample.env (Str "btc").
Proof.
  split; [reflexivity |].
  apply (getCurMeta_ignores_case Sample.env "btc" "BTC"). reflexivity.
Defined.

Lemma getCurMeta_recognised_witness :
  exists meta,
    getCurMeta Sample.env (Str "usd") = Ok meta /\
    (isFiat meta || isWalletCur meta || isCryptoListingCur meta) = true /\
    curData meta = getCurrencyByCode Sample.env "USD".
Proof.
  eexists. split; [reflexivity |].
  destruct (getCurMeta_recognised Sample.env (Str "usd") _ eq_refl)
    as (s & Hs & _ & Hflag & Hfiat & _).
  split; [exact Hflag |]. inversion Hs; subst s. apply Hfiat. reflexivity.
Defined.

Lemma decimalToInteger_not_a_number_witness :
  includes ["number"; "string"] (typeof (Str "abc")) = true /\
  fst (isValidCoinDivisibility (Number 8%float)) = true /\
  plain_amount (Str "abc") = true /\
  bigNumber (Str "abc") = BigNumber.NaN /\
  decimalToInteger (Str "abc") (Number 8%float) = Ok "NaN" /\
  integerToDecimal (Str "abc") (Number 8%float) None
  = ([console_error (Str "abc") "result is not a number"], Ok Undefined).
Proof.
  assert (Hv : fst (isValidCoinDivisibility (Number 8%float)) = true)
    by (vm_compute; reflexivity).
  assert (Hn : bigNumber (Str "abc") = BigNumber.NaN) by (vm_compute; reflexivity).
  assert (Hp : plain_amount (Str "abc") = true) by (vm_compute; reflexivity).
  split; [reflexivity |]. split; [exact Hv |]. split; [exact Hp |].
  split; [exact Hn |].
  destruct (decimalToInteger_not_a_number (Str "abc") (Number 8%float) eq_refl Hv)
    as (s & Hs & Hnan & _).
  destruct (Hnan Hp Hn) as [-> Hi]. split; [exact Hs | exact Hi].
Defined.

Lemma decimalToInteger_nearest_integer_witness :
  bigNumber (Str "1.005") = BigNumber.Fin 1005 (- 3) /\
  fst (isValidCoinDivisibility (Number 2%float)) = true /\
  integer_value (Number 2%float) <= BigNumber.MAX_EXP /\
  BigNumber.exponent 1005 (- 3) + integer_value (Number 2%float) <= BigNumber.MAX_EXP /\
  decimalToInteger (Str "1.005") (Number 2%float) = Ok "101" /\
  bigNumber (Str "101") = BigNumber.Fin 101 0.
Proof.
  assert (Ha : bigNumber (Str "1.005") = BigNumber.Fin 1005 (- 3))
    by (vm_compute; reflexivity).
  assert (Hv : fst (isValidCoinDivisibility (Number 2%float)) = true)
    by (vm_compute; reflexivity).
  assert (Hd : integer_value (Number 2%float) <= BigNumber.MAX_EXP)
    by (vm_compute; discriminate).
  assert (Hr : BigNumber.exponent 1005 (- 3) + integer_value (Number 2%float)
               <= BigNumber.MAX_EXP) by (vm_compute; discriminate).
  split; [exact Ha |]. split; [exact Hv |]. split; [exact Hd |]. split; [exact Hr |].
  destruct (decimalToInteger_nearest_integer (Str "1.005") (Number 2%float) 1005 (- 3)
              Ha Hv Hd Hr) as (Hs & Hback & _).
  split; [exact Hs | exact Hback].
Defined.

Lemma decimalToInteger_digits_witness :
  bigNumber (Str "1e21") = BigNumber.Fin 1 21 /\
  fst (isValidCoinDivisibility (Number 2%float)) = true /\
  (exists s,
     decimalToInteger (Str "1e21") (Number 2%float) = Ok s /\
     (BigNumber.all_digits s = true <-> 1 * 10 ^ (21 + 2) < 10 ^ 21)) /\
  decimalToInteger (Str "1e21") (Number 2%float) = Ok "1e+23".
Proof.
  assert (Ha : bigNumber (Str "1e21") = BigNumber.Fin 1 21) by (vm_compute; reflexivity).
  assert (Hv : fst (isValidCoinDivisibility (Number 2%float)) = true)
    by (vm_compute; reflexivity).
  split; [exact Ha |]. split; [exact Hv |]. split; [| vm_compute; reflexivity].
  apply (decimalToInteger_digits (Str "1e21") (Number 2%float) 1 21 Ha).
  - discriminate.
  - exact Hv.
  - vm_compute. discriminate.
  - vm_compute. reflexivity.
Defined.

Lemma integer_decimal_round_trip_witness :
  bigNumber (Str "150000000") = BigNumber.Fin 15 7 /\
  fst (isValidCoinDivisibility (Number 8%float)) = true /\
  integerToDecimal (Str "150000000") (Number 8%float) None = ([], Ok (Str "1.5")) /\
  exists r,
    integerToDecimal (Str "150000000") (Number 8%float) None = ([], Ok (Str r)) /\
    decimalToInteger (Str r) (Number 8%float)
    = Ok (BigNumber.toString (bigNumber (Str "150000000"))).
Proof.
  assert (Ha : bigNumber (Str "150000000") = BigNumber.Fin 15 7)
    by (vm_compute; reflexivity).
  assert (Hv : fst (isValidCoinDivisibility (Number 8%float)) = true)
    by (vm_compute; reflexivity).
  split; [exact Ha |]. split; [exact Hv |]. split; [vm_compute; reflexivity |].
  destruct (integer_decimal_round_trip (Str "150000000") (Number 8%float) 15 7 Ha
              ltac:(discriminate) Hv ltac:(vm_compute; discriminate))
    as (r & Hi & _ & Hd).
  exists r. split; [exact Hi | exact Hd].
Defined.

Lemma getMaxDisplayDigits_bounds_witness :
  exists max,
    getMaxDisplayDigits Sample.env (Number 0.00000001%float) 2 = Ok max /\
    2 <= max <= Z.max 2 20 /\ max = 8.
Proof.
  destruct (getMaxDisplayDigits_bounds Sample.env (Number 0.00000001%float) 2
              (or_introl eq_refl) ltac:(discriminate)) as (max & Hr & Hb & _).
  exists max. split; [exact Hr |]. split; [exact Hb |].
  assert (H8 : getMaxDisplayDigits Sample.env (Number 0.00000001%float) 2 = Ok 8)
    by (vm_compute; reflexivity).
  rewrite H8 in Hr. inversion Hr. reflexivity.
Defined.

Lemma formatCurrency_negative_maximum_witness :
  gt (Number 1%float) 0 = true /\
  exists message,
    formatCurrency Sample.env (Number 1%float) (Str "USD") (Sample.maxDecimals (- 1))
    = Throw (RangeError message).
Proof.
  split; [reflexivity |].
  destruct (formatCurrency_negative_maximum Sample.env (Number 1%float) "USD"
              (Sample.maxDecimals (- 1)) (- 1) eq_refl eq_refl eq_refl
              (or_introl eq_refl) eq_refl eq_refl ltac:(discriminate))
    as (message & _ & H).
  exists message. exact H.
Defined.

Lemma formatCurrency_call_witness :
  exists r call,
    formatCurrency Sample.env (Number 5%float) (Str "USD") (Sample.maxDecimals 30) = Ok r /\
    call_of r = Some call /\
    nf_amount call = Number 5%float /\
    maximumFractionDigits call <= 20 /\
    Z.min 30 20 <= maximumFractionDigits call.
Proof.
  pose (call := {| nf_locale := Str "en-US"; nf_currency := Some "USD";
                   minimumFractionDigits := 2; maximumFractionDigits := 20;
                   nf_amount := Number 5%float; convertUnit := None |}).
  assert (Hr : formatCurrency Sample.env (Number 5%float) (Str "USD")
                 (Sample.maxDecimals 30) = Ok (Formatted call))
    by (vm_compute; reflexivity).
  exists (Formatted call), call. split; [exact Hr |]. split; [reflexivity |].
  destruct (formatCurrency_call Sample.env (Number 5%float) "USD" (Sample.maxDecimals 30)
              (Formatted call) call Hr eq_refl) as (Ha & _ & Hmax & Hmin & _).
  split; [exact Ha |]. split; [exact Hmax |].
  apply (Hmin 30); [reflexivity | discriminate].
Defined.

Lemma formatCurrency_empty_code_witness :
  typeof (default (locale (Sample.maxDecimals 2))
            (or_value (app_lang Sample.env) (Str "en-US"))) = "string" /\
  formatCurrency Sample.env (Number 5%float) (Str "") (Sample.maxDecimals 2) = Ok Empty.
Proof.
  split; [reflexivity |].
  apply (formatCurrency_empty_code Sample.env (Number 5%float) "" (Sample.maxDecimals 2));
    reflexivity.
Defined.

Lemma formatCurrency_unrecognised_witness :
  ascii_only "dogecoincash" = true /\
  getCurMeta Sample.env (Str (toUpperCase "dogecoincash"))
  = Throw (UnrecognizedCurrencyError "The currency is not recognized.") /\
  exists call,
    formatCurrency Sample.env (Number 5%float) (Str "dogecoincash") (Sample.maxDecimals 3)
    = Ok (Translated "cryptoCurrencyFormat.curCodeAmount" call "code" "DOGECOIN…") /\
    nf_currency call = None /\ minimumFractionDigits call = 0.
Proof.
  split; [reflexivity |]. split; [reflexivity |].
  pose (r := Translated "cryptoCurrencyFormat.curCodeAmount"
               {| nf_locale := Str "en-US"; nf_currency := None;
                  minimumFractionDigits := 0; maximumFractionDigits := 3;
                  nf_amount := Number 5%float; convertUnit := None |}
               "code" "DOGECOIN…").
  assert (H : formatCurrency Sample.env (Number 5%float) (Str "dogecoincash")
                (Sample.maxDecimals 3) = Ok r) by (vm_compute; reflexivity).
  destruct (formatCurrency_unrecognised Sample.env (Number 5%float) "dogecoincash"
              (Sample.maxDecimals 3) _ r eq_refl eq_refl H)
    as (call & Hr & Hc & _ & _ & Hm).
  exists call. split; [| split; [exact Hc | exact Hm]].
  rewrite H. f_equal. exact Hr.
Defined.

Lemma formatCurrency_style_witness :
  exists meta r call,
    getCurMeta Sample.env (Str (toUpperCase "usd")) = Ok meta /\
    formatCurrency Sample.env (Number 5%float) (Str "usd") (Sample.maxDecimals 2) = Ok r /\
    call_of r = Some call /\
    nf_currency call = Some "usd" /\ minimumFractionDigits call = 2 /\
    r = Formatted call.
Proof.
  pose (call := {| nf_locale := Str "en-US"; nf_currency := Some "usd";
                   minimumFractionDigits := 2; maximumFractionDigits := 2;
                   nf_amount := Number 5%float; convertUnit := None |}).
  assert (Hr : formatCurrency Sample.env (Number 5%float) (Str "usd")
                 (Sample.maxDecimals 2) = Ok (Formatted call))
    by (vm_compute; reflexivity).
  eexists. exists (Formatted call), call. split; [reflexivity |].
  split; [exact Hr |]. split; [reflexivity |].
  destruct (formatCurrency_style Sample.env (Number 5%float) "usd" (Sample.maxDecimals 2)
              _ (Formatted call) call eq_refl Hr eq_refl) as (Hc & Hm & _ & Hf).
  split; [exact Hc |]. split; [exact Hm |]. apply Hf. reflexivity.
Defined.

Lemma fetchExchangeRates_done_again_witness :
  snd (fetchExchangeRates_done Sample.env
         (fst (fetchExchangeRates_done Sample.env [] [("USD", 5000%float)]))
         [("USD", 5000%float)])
  = [exchange_rate_change ["BTC"];
     exchange_rate_change_cur "BTC" (Number PrimFloat.one)].
Proof.
  refine (proj2 (fetchExchangeRates_done_again Sample.env [] [("USD", 5000%float)] _)).
  intros k x H. cbn [lookup] in H.
  destruct (String.eqb "USD" k); inversion H; reflexivity.
Defined.

Lemma convertCurrency_result_type_witness :
  convertCurrency Sample.env Sample.sampleRates (Str "2") (Str "BTC") (Str "USD")
  = Ok (Str "10000") /\
  valid_amount (Str "2") = true /\ typeof (Str "10000") = typeof (Str "2").
Proof.
  assert (H : convertCurrency Sample.env Sample.sampleRates (Str "2") (Str "BTC") (Str "USD")
              = Ok (Str "10000")) by (vm_compute; reflexivity).
  split; [exact H |].
  destruct (convertCurrency_result_type Sample.env _ _ _ _ _ H) as (Hv & _ & _ & Ht).
  split; [exact Hv | exact Ht].
Defined.



Lemma valid_currencies_convert_witness :
  getCurrencyValidity Sample.env (getCurrencyByCode Sample.env) Sample.sampleRates (Str "USD")
  = Ok "VALID" /\
  getCurrencyValidity Sample.env (getCurrencyByCode Sample.env) Sample.sampleRates (Str "EUR")
  = Ok "VALID" /\
  convertCurrency Sample.env Sample.sampleRates (Str "5000") (Str "USD") (Str "EUR")
  = Ok (converted (Str "5000") (Number 5000%float) (Number 4000%float)).
Proof.
  split; [reflexivity |]. split; [reflexivity |].
  exact (valid_currencies_convert Sample.env (getCurrencyByCode Sample.env)
           Sample.sampleRates (Str "5000") "USD" "EUR" mainnetCode_idempotent
           eq_refl eq_refl eq_refl eq_refl eq_refl).
Defined.

Lemma createAmount_result_witness :
  exists r,
    createAmount Sample.env (Number 1.5%float) (Str "BTC") Undefined = Ok r /\
    currency_code r = "BTC" /\
    fst (isValidCoinDivisibility (currency_divisibility r)) = true /\
    amount_amount r = Str "150000000".
Proof.
  eexists. split; [vm_compute; reflexivity |].
  destruct (createAmount_result Sample.env (Number 1.5%float) (Str "BTC") Undefined _
              eq_refl) as (_ & _ & Hv & _).
  split; [reflexivity |]. split; [exact Hv | reflexivity].
Defined.

Lemma createAmount_default_divisibility_witness :
  ascii_only "XYZ" = true /\
  inherited_name "XYZ" = false /\
  getCoinDivisibility Sample.env (Str "XYZ") None
  = Throw (UnrecognizedCurrencyError "The currency is not recognized.") /\
  exists s,
    decimalToInteger (Number 1.5%float) (Number 8%float) = Ok s /\
    createAmount Sample.env (Number 1.5%float) (Str "XYZ") Undefined
    = Ok {| amount_amount := Str s; currency_code := "XYZ";
            currency_divisibility := Number 8%float |}.
Proof.
  split; [reflexivity |]. split; [reflexivity |]. split; [reflexivity |].
  apply (createAmount_default_divisibility Sample.env (Number 1.5%float) "XYZ"
           (UnrecognizedCurrencyError "The currency is not recognized."));
    [discriminate | reflexivity | reflexivity | reflexivity | reflexivity].
Defined.

(** A code that names an inherited member of the wallet-currency
    definition is not treated as an unrecognised one: the divisibility
    read for it is [undefined], and the amount is refused. *)
Lemma createAmount_inherited_member :
  inherited_name "constructor" = true /\
  createAmount Sample.env (Number 1.5%float) (Str "constructor") Undefined
  = Throw (Error "The coin divisibility must be an integer greater than 0").
Proof. split; vm_compute; reflexivity. Qed.

Lemma convertPriceIn_two_decimals_witness :
  Prim2SF (123456789 / 1000000000)%float = S754_finite false 8895999182988127 (- 56) /\
  exists props',
    Price.convertPriceIn
      (Object [("amount", Number 123456789%float); ("currencyCode", Str "BTC")])
    = Ok (Object props') /\
    get props' "amount" = Number (float_of_decimal 12 (- 2)) /\
    get props' "currencyCode" = Str "BTC".
Proof.
  split; [reflexivity |].
  destruct (convertPriceIn_two_decimals
              [("amount", Number 123456789%float); ("currencyCode", Str "BTC")]
              123456789%float false 8895999182988127 (- 56) eq_refl eq_refl eq_refl)
    as (props' & Hr & Hother & Ha).
  exists props'. split; [exact Hr |]. split.
  - rewrite Ha. vm_compute. reflexivity.
  - rewrite Hother by discriminate. reflexivity.
Defined.

Lemma validate_messages_witness :
  Price.validate [("amount", Str "5")]
  = Some [("amount", ["Please provide the price amount as a number."]);
          ("currencyCode", ["Please provide a currency code."])] /\
  Price.lookup_errors
    [("amount", ["Please provide the price amount as a number."]);
     ("currencyCode", ["Please provide a currency code."])] "amount"
  = Some ["Please provide the price amount as a number."].
Proof.
  split; [reflexivity |].
  exact (proj1 (proj2 (validate_messages [("amount", Str "5")] _ eq_refl))).
Defined.

Lemma validated_price_converts_witness :
  Price.validate [("amount", Number 5%float); ("currencyCode", Str "USD")] = None /\
  exists amount : float,
    get [("amount", Number 5%float); ("currencyCode", Str "USD")] "amount" = Number amount /\
    Price.convertPriceOut (Object [("amount", Number 5%float); ("currencyCode", Str "USD")])
    = Ok (Object [("amount", Number (Math_round (amount * 100)%float));
                  ("currencyCode", Str "USD")]).
Proof.
  assert (H : Price.validate [("amount", Number 5%float); ("currencyCode", Str "USD")]
              = None) by (vm_compute; reflexivity).
  split; [exact H |].
  destruct (validated_price_converts _ H) as (amount & Ha & _ & Hr).
  exists amount. split; [exact Ha | exact Hr].
Defined.

End MoreInstances.
